(** * The job lifecycle engine of pyiron_base, embedded in Rocq

    Source files:
      - [pyiron_base/objects/job/generic.py]  (class [GenericJob])
      - [pyiron_base/project.py]              (class [Project])

    The embedding is shallow.  A Python method of a job becomes a
    computation in a small state-and-exception monad [M] whose state holds
    the in-memory job object ([self]), the world shared between processes
    (job table, file system, object store, clock) and a journal of the
    externally visible actions.  Recursion through [run] is bounded by
    fuel. *)

From Stdlib Require Import ZArith String Ascii.
From stdpp Require Import gmap strings list sorting pretty.

Local Open Scope string_scope.
Local Open Scope Z_scope.

(** ** Python values *)

(** The exceptions the engine raises or lets through.  All but the last
    three are subclasses of [Exception]. *)
Inductive exn : Type :=
| NotImplementedError (msg : string)
| RuntimeError (msg : string)
| ValueError (msg : string)
| IOError (msg : string)
| TypeError (msg : string)
| CalledProcessError (output : string)
| OtherException (msg : string)
| KeyboardInterrupt
| SystemExit
| GeneratorExit.

(** [except Exception] *)
Definition is_Exception (e : exn) : bool :=
  match e with
  | KeyboardInterrupt | SystemExit | GeneratorExit => false
  | _ => true
  end.

(** Python truthiness of an optional integer: [None] and [0] are false. *)
Definition truthy (i : option Z) : bool :=
  match i with
  | None => false
  | Some z => negb (z =? 0)
  end.

(** [if i: yes(i) else: no] for an optional integer. *)
Definition if_id {A} (i : option Z) (yes : Z -> A) (no : A) : A :=
  match i with
  | Some z => if z =? 0 then no else yes z
  | None => no
  end.

(** [posixpath.join a b] for two components. *)
Definition ends_with_slash (a : string) : bool :=
  match String.get (Nat.pred (String.length a)) a with
  | Some c => Ascii.eqb c "/"%char
  | None => false
  end.

Definition starts_with_slash (b : string) : bool :=
  match b with
  | String c _ => Ascii.eqb c "/"%char
  | EmptyString => false
  end.

Definition posixpath_join (a b : string) : string :=
  if starts_with_slash b then b
  else if String.eqb a "" then b
  else if ends_with_slash a then (a ++ b)%string
  else (a ++ "/" ++ b)%string.

(** [posixpath.basename]: what follows the last slash. *)
Fixpoint basename (p : string) : string :=
  match p with
  | EmptyString => EmptyString
  | String c rest =>
      if Ascii.eqb c "/"%char then basename rest
      else if existsb (Ascii.eqb "/"%char) (list_ascii_of_string rest)
           then basename rest
           else p
  end.

(** ** Data model *)

Inductive Runmode : Type := modal | non_modal | queue | manual | thread.

Definition Runmode_eqb (a b : Runmode) : bool :=
  match a, b with
  | modal, modal | non_modal, non_modal | queue, queue
  | manual, manual | thread, thread => true
  | _, _ => false
  end.

Record Server : Type := mkServer {
  run_mode : Runmode;
  cores : Z;
  queue_id : option string;
  send_to_db : bool
}.

(** [JobStatus]: the status string together with the job id under which
    the status object writes to the job table. *)
Record JobStatus : Type := mkJobStatus {
  status_string : string;
  status_job_id : option Z
}.

(** The in-memory job object. *)
Record GenericJob : Type := mkJob {
  job_name : string;
  job_id : option Z;
  status : JobStatus;
  master_id : option Z;
  parent_id : option Z;
  server : Server;
  executable_path : string;
  executable_mpi : bool;
  lib_available : bool;
  lib_enabled : bool;
  restart_file_list : list string;
  working_directory : string;
  process : bool
}.

(** One row of the job table. *)
Record DbRow : Type := mkRow {
  row_job : string;
  row_status : string;
  row_masterid : option Z;
  row_parentid : option Z;
  row_timestart : Z;
  row_timestop : option Z;
  row_totalcputime : option Z
}.

(** What [to_hdf] stores of a job and [from_hdf] reads back. *)
Record HdfJob : Type := mkHdf {
  hdf_server : Server;
  hdf_restart_file_list : list string;
  hdf_executable_path : string;
  hdf_executable_mpi : bool;
  hdf_working_directory : string
}.

(** The world shared by all processes. *)
Record World : Type := mkWorld {
  db : gmap Z DbRow;
  next_id : Z;
  files : gmap string string;
  dirs : gset string;
  hdf : gmap string HdfJob;
  clock : Z
}.

(** Externally visible actions, recorded newest first.  [EvPopen] is a
    process started with [cwd] given, [EvPopenNoCwd] one started without
    [cwd], in the current directory of the caller. *)
Inductive event : Type :=
| EvRun (name : string)
| EvMkdir (path : string)
| EvWrite (path : string)
| EvInsert (id : Z)
| EvStatus (id : Z) (s : string)
| EvDelete (id : Z)
| EvPopen (cwd : string) (argv : list string)
| EvPopenNoCwd (argv : list string)
| EvPrint (msg : string).

Record St : Type := mkSt {
  self : GenericJob;
  world : World;
  journal : list event
}.

(** ** The monad *)

Inductive outcome (A : Type) : Type :=
| Return (a : A)
| Raise (e : exn)
| OutOfFuel.
Arguments Return {A} a.
Arguments Raise {A} e.
Arguments OutOfFuel {A}.

Definition M (A : Type) : Type := St -> outcome A * St.

Definition ret {A} (a : A) : M A := fun st => (Return a, st).

Definition bind {A B} (m : M A) (k : A -> M B) : M B :=
  fun st =>
    match m st with
    | (Return a, st') => k a st'
    | (Raise e, st') => (Raise e, st')
    | (OutOfFuel, st') => (OutOfFuel, st')
    end.

Definition raise {A} (e : exn) : M A := fun st => (Raise e, st).
Definition out_of_fuel {A} : M A := fun st => (OutOfFuel, st).

Declare Scope monad_scope.
Delimit Scope monad_scope with monad.
Notation "x <- m ;; k" := (bind m (fun x => k))
  (at level 100, m at next level, right associativity) : monad_scope.
Notation "m ;; k" := (bind m (fun _ => k))
  (at level 100, right associativity) : monad_scope.
Local Open Scope monad_scope.

Definition get_self : M GenericJob := fun st => (Return (self st), st).
Definition get_world : M World := fun st => (Return (world st), st).
Definition set_self (j : GenericJob) : M unit :=
  fun st => (Return tt, mkSt j (world st) (journal st)).
Definition set_world (w : World) : M unit :=
  fun st => (Return tt, mkSt (self st) w (journal st)).
Definition emit (e : event) : M unit :=
  fun st => (Return tt, mkSt (self st) (world st) (e :: journal st)).

(** [try: m except CalledProcessError/AssertionError/...: h] restricted to
    the exceptions selected by [sel]. *)
Definition try_except {A} (sel : exn -> bool) (m : M A) (h : exn -> M A) : M A :=
  fun st =>
    match m st with
    | (Raise e, st') => if sel e then h e st' else (Raise e, st')
    | r => r
    end.

(** A method call on another object [o]: the callee runs with [o] as its
    [self]; the caller's object is back in place afterwards, whatever the
    outcome. *)
Definition with_object {A} (o : GenericJob) (m : M A) : M A :=
  fun st =>
    let '(r, st') := m (mkSt o (world st) (journal st)) in
    (r, mkSt (self st) (world st') (journal st')).

Fixpoint for_each {A} (l : list A) (body : A -> M unit) : M unit :=
  match l with
  | [] => ret tt
  | x :: rest => body x ;; for_each rest body
  end.

(** ** Field updates of the job object *)

Definition set_job_id (i : option Z) (j : GenericJob) : GenericJob :=
  mkJob (job_name j) i (status j) (master_id j) (parent_id j) (server j)
        (executable_path j) (executable_mpi j) (lib_available j) (lib_enabled j)
        (restart_file_list j) (working_directory j) (process j).

Definition set_status (s : JobStatus) (j : GenericJob) : GenericJob :=
  mkJob (job_name j) (job_id j) s (master_id j) (parent_id j) (server j)
        (executable_path j) (executable_mpi j) (lib_available j) (lib_enabled j)
        (restart_file_list j) (working_directory j) (process j).

Definition set_master_id (m : option Z) (j : GenericJob) : GenericJob :=
  mkJob (job_name j) (job_id j) (status j) m (parent_id j) (server j)
        (executable_path j) (executable_mpi j) (lib_available j) (lib_enabled j)
        (restart_file_list j) (working_directory j) (process j).

Definition set_parent_id (p : option Z) (j : GenericJob) : GenericJob :=
  mkJob (job_name j) (job_id j) (status j) (master_id j) p (server j)
        (executable_path j) (executable_mpi j) (lib_available j) (lib_enabled j)
        (restart_file_list j) (working_directory j) (process j).

Definition set_server (s : Server) (j : GenericJob) : GenericJob :=
  mkJob (job_name j) (job_id j) (status j) (master_id j) (parent_id j) s
        (executable_path j) (executable_mpi j) (lib_available j) (lib_enabled j)
        (restart_file_list j) (working_directory j) (process j).

Definition set_executable_mpi (b : bool) (j : GenericJob) : GenericJob :=
  mkJob (job_name j) (job_id j) (status j) (master_id j) (parent_id j) (server j)
        (executable_path j) b (lib_available j) (lib_enabled j)
        (restart_file_list j) (working_directory j) (process j).

Definition set_restart_file_list (l : list string) (j : GenericJob) : GenericJob :=
  mkJob (job_name j) (job_id j) (status j) (master_id j) (parent_id j) (server j)
        (executable_path j) (executable_mpi j) (lib_available j) (lib_enabled j)
        l (working_directory j) (process j).

Definition set_process (b : bool) (j : GenericJob) : GenericJob :=
  mkJob (job_name j) (job_id j) (status j) (master_id j) (parent_id j) (server j)
        (executable_path j) (executable_mpi j) (lib_available j) (lib_enabled j)
        (restart_file_list j) (working_directory j) b.

Definition modify_self (f : GenericJob -> GenericJob) : M unit :=
  fun st => (Return tt, mkSt (f (self st)) (world st) (journal st)).

(** ** Field updates of the world *)

Definition set_db (d : gmap Z DbRow) (w : World) : World :=
  mkWorld d (next_id w) (files w) (dirs w) (hdf w) (clock w).
Definition set_next_id (n : Z) (w : World) : World :=
  mkWorld (db w) n (files w) (dirs w) (hdf w) (clock w).
Definition set_files (f : gmap string string) (w : World) : World :=
  mkWorld (db w) (next_id w) f (dirs w) (hdf w) (clock w).
Definition set_dirs (d : gset string) (w : World) : World :=
  mkWorld (db w) (next_id w) (files w) d (hdf w) (clock w).
Definition set_hdf (h : gmap string HdfJob) (w : World) : World :=
  mkWorld (db w) (next_id w) (files w) (dirs w) h (clock w).
Definition set_clock (c : Z) (w : World) : World :=
  mkWorld (db w) (next_id w) (files w) (dirs w) (hdf w) c.

Definition modify_world (f : World -> World) : M unit :=
  fun st => (Return tt, mkSt (self st) (f (world st)) (journal st)).

(** ** File system *)

(** [os.path.isfile] *)
Definition isfile (w : World) (f : string) : bool :=
  bool_decide (is_Some (files w !! f)).

(** [os.path.isdir] *)
Definition isdir (w : World) (d : string) : bool :=
  bool_decide (d ∈ dirs w).

(** [open(path, "w").write(content)] *)
Definition write_file (path content : string) : M unit :=
  modify_world (fun w => set_files (<[path := content]> (files w)) w) ;;
  emit (EvWrite path).

(** ** [GenericJob.restart_file_list] *)

Module RestartFiles.

(** The getter returns the stored list; it does not consult the file
    system. *)
Definition restart_file_list_get : M (list string) :=
  j <- get_self ;; ret (restart_file_list j).

(** One turn of the setter's loop: [assert os.path.isfile(f)], then
    [append]; an [AssertionError] becomes an [IOError]. *)
Definition restart_file_list_append (f : string) : M unit :=
  w <- get_world ;;
  if isfile w f
  then modify_self (fun j => set_restart_file_list (restart_file_list j ++ [f])%list j)
  else raise (IOError ("File: " ++ f ++ " does not exist")%string).

(** The setter: [job.restart_file_list = filenames]. *)
Definition restart_file_list_set (filenames : list string) : M unit :=
  for_each filenames restart_file_list_append.

End RestartFiles.

(** ** The job table *)

Module Db.

(** Modelled from the spec: the accessor of the shared job table
    ([project.db], pyiron_base/core/settings/database.py, not under src/).
    The spec gives its interface: [get(id) -> status], [set(id, status)],
    [insert(record) -> id], [get_children(parent_id) -> [id]],
    [delete(id)]; an id is never reused.  An update of a missing row
    changes nothing. *)
Definition get_item_by_id (id : Z) : M (option DbRow) :=
  w <- get_world ;; ret (db w !! id).

(** Modelled from the spec: [db.get_item_by_id(id)['status']], the spec's
    [get(id) -> status]; for an unknown id the accessor gives [None], and
    subscripting it is a [TypeError]. *)
Definition get_status (id : Z) : M string :=
  r <- get_item_by_id id ;;
  match r with
  | Some row => ret (row_status row)
  | None => raise (TypeError "'NoneType' object is not subscriptable")
  end.

Definition get_timestart (id : Z) : M Z :=
  r <- get_item_by_id id ;;
  match r with
  | Some row => ret (row_timestart row)
  | None => raise (TypeError "'NoneType' object is not subscriptable")
  end.

Definition row_set_status (s : string) (r : DbRow) : DbRow :=
  mkRow (row_job r) s (row_masterid r) (row_parentid r) (row_timestart r)
        (row_timestop r) (row_totalcputime r).

Definition row_set_timestart (t : Z) (r : DbRow) : DbRow :=
  mkRow (row_job r) (row_status r) (row_masterid r) (row_parentid r) t
        (row_timestop r) (row_totalcputime r).

Definition row_set_runtime (stop total : Z) (r : DbRow) : DbRow :=
  mkRow (row_job r) (row_status r) (row_masterid r) (row_parentid r)
        (row_timestart r) (Some stop) (Some total).

Definition set_status_in (id : Z) (s : string) (w : World) : World :=
  set_db (alter (row_set_status s) id (db w)) w.

(** Modelled from the spec: [db.item_update({'status': s}, id)], the
    spec's [set(id, status)]. *)
Definition item_update_status (s : string) (id : Z) : M unit :=
  modify_world (set_status_in id s) ;;
  emit (EvStatus id s).

(** [db.item_update({'timestart': t}, id)] *)
Definition item_update_timestart (t : Z) (id : Z) : M unit :=
  modify_world (fun w => set_db (alter (row_set_timestart t) id (db w)) w).

(** [db.item_update({'timestop': stop, 'totalcputime': total}, id)] *)
Definition item_update_runtime (stop total : Z) (id : Z) : M unit :=
  modify_world (fun w => set_db (alter (row_set_runtime stop total) id (db w)) w).

(** Modelled from the spec: [db.add_item_dict(row)], the spec's
    [insert(record) -> id]; the id is fresh. *)
Definition add_item_dict (row : DbRow) : M Z :=
  w <- get_world ;;
  let id := next_id w in
  set_world (set_next_id (id + 1) (set_db (<[id := row]> (db w)) w)) ;;
  emit (EvInsert id) ;;
  ret id.

(** Modelled from the spec: [db.delete_item(id)], the spec's [delete(id)]. *)
Definition delete_item (id : Z) : M unit :=
  modify_world (fun w => set_db (delete id (db w)) w) ;;
  emit (EvDelete id).

(** Modelled from the spec: the ids of
    [db.get_items_dict({'parentid': str(id)})], the spec's
    [get_children(parent_id) -> [id]]; the table gives them in no
    particular order. *)
Definition ids_with_parent (p : Z) (d : gmap Z DbRow) : list Z :=
  (map_to_list (filter (fun kv => row_parentid kv.2 = Some p) d)).*1.

End Db.

(** [datetime.now()], in seconds. *)
Definition now : M Z :=
  w <- get_world ;;
  set_world (set_clock (clock w + 1) w) ;;
  ret (clock w).

(** ** [JobStatus] *)

Module Status.

(** Modelled from the spec: the class [JobStatus]
    (pyiron_base/objects/job/jobstatus.py, not under src/).  The spec has
    the status "persisted in the shared store, not only in memory" and a
    job "created in memory as initialized": the constructor defaults to
    'initialized', and [status.X = True] sets the string in memory and,
    when the status object carries a job id, in the job table too. *)
Definition new (initial_status : option string) (id : option Z) : JobStatus :=
  mkJobStatus (match initial_status with
               | Some s => s
               | None => "initialized"
               end) id.

(** Modelled from the spec: the setters [status.X = True] of [JobStatus]
    (not under src/): the string changes in the object and, when the status
    object carries a job id, in the persisted record. *)
Definition set (s : string) : M unit :=
  j <- get_self ;;
  set_self (set_status (mkJobStatus s (status_job_id (status j))) j) ;;
  if_id (status_job_id (status j)) (Db.item_update_status s) (ret tt).

(** [status.finished], [status.suspended], ...: the boolean views. *)
Definition is_ (s : string) (j : GenericJob) : bool :=
  String.eqb (status_string (status j)) s.

End Status.

(** ** Persistence of the job object *)

(** [to_hdf]: [_executable_activate_mpi] (more than one core switches the
    executable to MPI), then type, server and restart files are stored. *)
Definition _executable_activate_mpi : M unit :=
  j <- get_self ;;
  if 1 <? cores (server j) then modify_self (set_executable_mpi true) else ret tt.

Definition hdf_of (j : GenericJob) : HdfJob :=
  mkHdf (server j) (restart_file_list j) (executable_path j) (executable_mpi j)
        (working_directory j).

Definition to_hdf : M unit :=
  _executable_activate_mpi ;;
  j <- get_self ;;
  modify_world (fun w => set_hdf (<[job_name j := hdf_of j]> (hdf w)) w).

(** [server.to_hdf(hdf5)]: only the server part of the stored object is
    rewritten. *)
Definition hdf_set_server (sv : Server) (h : HdfJob) : HdfJob :=
  mkHdf sv (hdf_restart_file_list h) (hdf_executable_path h)
        (hdf_executable_mpi h) (hdf_working_directory h).

Definition server_to_hdf : M unit :=
  j <- get_self ;;
  modify_world (fun w =>
    set_hdf (match hdf w !! job_name j with
             | Some h => <[job_name j := hdf_set_server (server j) h]> (hdf w)
             | None => <[job_name j := hdf_of j]> (hdf w)
             end) w).

(** Modelled from the spec: reading the object store ([project_hdf5],
    objects/generic/hdfio.py, not under src/), the spec's [load() -> state];
    an object that was never stored cannot be read. *)
Definition hdf_read (name : string) : M HdfJob :=
  w <- get_world ;;
  match hdf w !! name with
  | Some h => ret h
  | None => raise (IOError "hdf file does not exist")
  end.

(** [from_hdf]: server and restart files are read back. *)
Definition from_hdf : M unit :=
  j <- get_self ;;
  h <- hdf_read (job_name j) ;;
  set_self (set_restart_file_list (hdf_restart_file_list h)
             (set_server (hdf_server h) j)).

(** Modelled from the spec: the job object that [project.load(id)] builds
    (the loader, objects/job/path.py, is not under src/); a job is
    "rehydrated" from its persisted record: name, status, master and parent
    come from the job table, the rest from the object store. *)
Definition job_of_record (id : Z) (row : DbRow) (h : HdfJob) : GenericJob :=
  mkJob (row_job row) (Some id)
        (Status.new (Some (row_status row)) (Some id))
        (row_masterid row) (row_parentid row)
        (hdf_server h) (hdf_executable_path h) (hdf_executable_mpi h)
        false false (hdf_restart_file_list h)
        (hdf_working_directory h) false.

(** Modelled from the spec: [project.load(id)]; an unknown id gives
    [None], on which the caller's method call fails. *)
Definition project_load (id : Z) : M GenericJob :=
  w <- get_world ;;
  match db w !! id with
  | None => raise (OtherException "'NoneType' object has no attribute")
  | Some row =>
      match hdf w !! row_job row with
      | None => raise (IOError "hdf file does not exist")
      | Some h => ret (job_of_record id row h)
      end
  end.

(** The path [p] lies in the directory [d]. *)
Definition inside (d : string) (p : string) : bool :=
  String.prefix (d ++ "/")%string p.

(** Modelled from the spec: what [JobCore.remove] (objects/job/core.py,
    not under src/) removes outside the job table, "all persisted
    artifacts": the working directory with the files in it and the stored
    object. *)
Definition remove_artifacts (j : GenericJob) (w : World) : World :=
  set_hdf (delete (job_name j) (hdf w))
    (set_dirs (dirs w ∖ {[working_directory j]})
      (set_files (filter (fun kv => inside (working_directory j) kv.1 = false)
                         (files w)) w)).

(** Modelled from the spec: [JobCore.remove] "removes all persisted
    artifacts and the record", the record being the row of a job that has
    an id. *)
Definition remove : M unit :=
  j <- get_self ;;
  modify_world (remove_artifacts j) ;;
  if_id (job_id j) Db.delete_item (ret tt).

(** ** Extension points and external collaborators *)

(** The methods of [GenericJob] that job types override. *)
Class JobType : Type := {
  validate_ready_to_run : M unit;
  write_input : M unit;
  collect_output : M unit;
  collect_logfiles : M unit;
  run_if_lib : M (option Z);
  _run_if_refresh : M unit;
  _run_if_busy : M unit;
  _before_successor_calc : GenericJob -> M GenericJob
}.

(** A command handed to [subprocess]: a shell line or an argument vector. *)
Inductive command : Type :=
| Shell (line : string)
| Argv (args : list string).

(** The queue's answer to [queue_id_table]: the call may fail; otherwise it
    gives [None] or a table from keys to (queue id, queue state). *)
Inductive queue_answer : Type :=
| QueueFails (e : exn)
| QueueTable (t : option (list (string * (string * string)))).

(** What the engine consumes but does not define: the operating system,
    the batch queue and the project's view of existing jobs. *)
Class Environment : Type := {
  check_if_job_exists : GenericJob -> World -> bool;
  subprocess_run : command -> string -> World -> Z * string * World;
  init_scheduler_run : GenericJob -> option Z -> list string * bool;
  scheduler_popen : list string -> World -> string * World;
  queue_job_info : GenericJob -> World -> option string;
  process_communicate : GenericJob -> World -> World;
  queue_id_table : Z -> World -> queue_answer
}.

(** ** Arguments of [run] *)

Record RunArgs : Type := mkArgs {
  run_again : bool;
  repair : bool;
  debug : bool;
  run_mode_override : option Runmode;
  que_wait_for : option Z
}.

Definition default_args : RunArgs := mkArgs false false false None None.

(** ** Small helpers *)

(** A method call on another object that also hands back the callee as
    the call left it. *)
Definition call_on {A} (o : GenericJob) (m : M A) : M (A * GenericJob) :=
  fun st =>
    match m (mkSt o (world st) (journal st)) with
    | (Return a, st') => (Return (a, self st'), mkSt (self st) (world st') (journal st'))
    | (Raise e, st') => (Raise e, mkSt (self st) (world st') (journal st'))
    | (OutOfFuel, st') => (OutOfFuel, mkSt (self st) (world st') (journal st'))
    end.

Definition set_run_mode (m : Runmode) (j : GenericJob) : GenericJob :=
  set_server (mkServer m (cores (server j)) (queue_id (server j))
                       (send_to_db (server j))) j.

Definition set_queue_id (q : option string) (j : GenericJob) : GenericJob :=
  set_server (mkServer (run_mode (server j)) (cores (server j)) q
                       (send_to_db (server j))) j.

Definition nl : string := String (ascii_of_nat 10) EmptyString.

Definition str_Z (z : Z) : string := pretty z.

Definition str_id (i : option Z) : string :=
  match i with
  | Some z => str_Z z
  | None => "None"
  end.

Definition str_bool (b : bool) : string := if b then "True" else "False".

Definition is_CalledProcessError (e : exn) : bool :=
  match e with
  | CalledProcessError _ => true
  | _ => false
  end.

Definition exn_output (e : exn) : string :=
  match e with
  | CalledProcessError out => out
  | _ => ""
  end.

(** The three [except] clauses of [run]. *)
Definition caught_by_run (e : exn) : bool :=
  match e with
  | GeneratorExit => false
  | _ => true
  end.

(** ** The engine: [GenericJob] *)

Section Engine.

Context {JT : JobType} {Env : Environment}.

(** [refresh_job_status]: with a job id, the status object is rebuilt from
    the job table. *)
Definition refresh_job_status : M unit :=
  j <- get_self ;;
  if_id (job_id j)
    (fun id =>
       s <- Db.get_status id ;;
       modify_self (set_status (Status.new (Some s) (Some id))))
    (ret tt).

Definition drop_status_to_aborted : M unit :=
  refresh_job_status ;;
  j <- get_self ;;
  if negb (Status.is_ "finished" j || Status.is_ "suspended" j)
  then Status.set "aborted"
  else ret tt.


Definition reset_job_id (i : option Z) : M unit :=
  modify_self (set_job_id i) ;;
  modify_self (fun j => set_status (Status.new None (job_id j)) j).

Definition db_entry : M DbRow :=
  j <- get_self ;;
  t <- now ;;
  ret (mkRow (job_name j) (status_string (status j)) (master_id j) (parent_id j)
             t None None).

Definition save : M Z :=
  to_hdf ;;
  e <- db_entry ;;
  id <- Db.add_item_dict e ;;
  modify_self (set_job_id (Some id)) ;;
  refresh_job_status ;;
  ret id.

(** Modelled from the spec: [project_hdf5.create_working_directory()]
    (objects/generic/hdfio.py, not under src/) "builds the working
    directory". *)
Definition create_working_directory : M unit :=
  j <- get_self ;;
  modify_world (fun w => set_dirs (dirs w ∪ {[working_directory j]}) w) ;;
  emit (EvMkdir (working_directory j)).

(** [shutil.copy(src, directory)] *)
Definition shutil_copy (src dst_dir : string) : M unit :=
  w <- get_world ;;
  match files w !! src with
  | Some c => write_file (posixpath_join dst_dir (basename src)) c
  | None => raise (IOError ("No such file or directory: " ++ src)%string)
  end.

Definition _copy_restart_files : M unit :=
  j <- get_self ;;
  w <- get_world ;;
  if isdir w (working_directory j)
  then for_each (restart_file_list j)
                (fun f => shutil_copy f (working_directory j))
  else raise (ValueError
         "The working directory is not yet available to copy restart files").

Definition run_wrapper_text (wd : string) (id : option Z) (dbg : bool) : string :=
  ("import sys" ++ nl ++
   "from pyiron_base.objects.job.wrapper import JobWrapper" ++ nl ++
   nl ++
   "debug = " ++ str_bool dbg ++ nl ++
   "job = JobWrapper(working_directory='" ++ wd ++ "'," ++ nl ++
   "                 job_id= " ++ str_id id ++ " ," ++ nl ++
   "                 debug=" ++ str_bool dbg ++ " )" ++ nl ++
   "job.run()" ++ nl)%string.

Definition _write_run_wrapper (dbg : bool) : M unit :=
  j <- get_self ;;
  write_file (posixpath_join (working_directory j) "run_job.py")
             (run_wrapper_text (working_directory j) (job_id j) dbg).

(** *** Chain coordination *)

Definition _calculate_predecessor (run : RunArgs -> M unit) : M unit :=
  j <- get_self ;;
  match parent_id j with
  | Some pid =>
      s <- Db.get_status pid ;;
      if String.eqb s "initialized" || String.eqb s "created"
      then
        Status.set "suspended" ;;
        parent_job <- project_load pid ;;
        with_object parent_job (run default_args)
      else ret tt
  | None => ret tt
  end.

(** [sorted([job["id"] for job in db.get_items_dict({'parentid': str(job_id)})])] *)
Definition successor_ids (j : GenericJob) (w : World) : list Z :=
  match job_id j with
  | Some id => merge_sort Z.le (Db.ids_with_parent id (db w))
  | None => []
  end.

(** The body of the loop of [_calculate_successor]. *)
Definition wake_child (run : RunArgs -> M unit) (child_id : Z) : M unit :=
  s <- Db.get_status child_id ;;
  if String.eqb s "suspended"
  then
    child <- project_load child_id ;;
    r <- call_on child (Status.set "created") ;;
    child' <- _before_successor_calc r.2 ;;
    with_object child' (run default_args)
  else ret tt.

Definition _calculate_successor (run : RunArgs -> M unit) : M unit :=
  j <- get_self ;;
  w <- get_world ;;
  for_each (successor_ids j w) (wake_child run).

Definition _create_job_structure (run : RunArgs -> M unit) (dbg : bool) : M unit :=
  create_working_directory ;;
  _copy_restart_files ;;
  write_input ;;
  id <- save ;;
  modify_self (set_job_id (Some id)) ;;
  j <- get_self ;;
  emit (EvPrint ("The job " ++ job_name j ++ " was saved and received the ID: "
                 ++ str_id (job_id j))%string) ;;
  _write_run_wrapper dbg ;;
  Status.set "created" ;;
  _calculate_predecessor run.

(** *** Master coordination *)

Fixpoint update_master (fuel : nat) : M unit :=
  match fuel with
  | O => out_of_fuel
  | S fuel' =>
      j <- get_self ;;
      match master_id j with
      | Some mid =>
          s <- Db.get_status mid ;;
          if String.eqb s "suspended"
          then
            Db.item_update_status "refresh" mid ;;
            master_job <- project_load mid ;;
            r <- call_on master_job _run_if_refresh ;;
            (if Runmode_eqb (run_mode (server j)) thread && process r.2
             then modify_world (process_communicate r.2)
             else ret tt) ;;
            s2 <- Db.get_status mid ;;
            if String.eqb s2 "busy"
            then
              Db.item_update_status "suspended" mid ;;
              update_master fuel'
            else ret tt
          else
            s' <- Db.get_status mid ;;
            if String.eqb s' "refresh"
            then Db.item_update_status "busy" mid
            else ret tt
      | None => ret tt
      end
  end.

(** *** Execution strategies *)

(** [subprocess.check_output]: a non-zero exit status raises
    [CalledProcessError] carrying the captured output. *)
Definition check_output (cmd : command) (cwd : string) : M string :=
  w <- get_world ;;
  let r := subprocess_run cmd cwd w in
  set_world r.2 ;;
  if r.1.1 =? 0 then ret r.1.2 else raise (CalledProcessError r.1.2).

Definition modal_command (j : GenericJob) : command :=
  if (cores (server j) =? 1) || negb (executable_mpi j)
  then Shell (executable_path j)
  else Argv [executable_path j; str_Z (cores (server j))].

Definition modal_failure (e : exn) : M string :=
  Status.set "aborted" ;;
  j <- get_self ;;
  write_file (posixpath_join (working_directory j) "error.msg") (exn_output e) ;;
  raise (RuntimeError "Job aborted").

Definition run_if_modal (run : RunArgs -> M unit) : M unit :=
  Status.set "running" ;;
  t <- now ;;
  j <- get_self ;;
  match job_id j with
  | Some id => Db.item_update_timestart t id
  | None => ret tt
  end ;;
  out <- try_except is_CalledProcessError
           (check_output (modal_command j) (working_directory j))
           modal_failure ;;
  Status.set "collect" ;;
  run default_args.

Definition run_if_non_modal : M unit :=
  j <- get_self ;;
  let file_name := posixpath_join (working_directory j) "run_job.py" in
  try_except is_CalledProcessError
    (write_file (posixpath_join (working_directory j) "out.txt") "" ;;
     write_file (posixpath_join (working_directory j) "error.txt") "" ;;
     emit (EvPopen (working_directory j) ["python"; file_name]) ;;
     modify_self (set_process true))
    (fun e => Status.set "aborted" ;; raise (ValueError "run_job.py crashed")).

(** The message of [run_if_manually]: [format] binds to the last literal
    only, so the placeholder is printed as it stands. *)
Definition manual_message : string :=
  ("You have selected to start the job manually. " ++
   "To run it, go into the working directory {} and " ++
   "call 'python run_job.py' ")%string.

Definition run_if_manually : M unit :=
  emit (EvPrint manual_message).

(** [run_if_scheduler]: the submit command is started by
    [subprocess.Popen(queue_options, stdout=subprocess.PIPE, ...)], without
    [cwd]; [print] puts its separator between the text and the queue id. *)
Definition run_if_scheduler (wait_for : option Z) : M (option string) :=
  j <- get_self ;;
  let opts := init_scheduler_run j wait_for in
  try_except is_CalledProcessError
    (w <- get_world ;;
     let r := scheduler_popen opts.1 w in
     set_world r.2 ;;
     emit (EvPopenNoCwd opts.1) ;;
     if opts.2
     then
       modify_self (set_queue_id (Some r.1)) ;;
       server_to_hdf ;;
       emit (EvPrint ("Queue system id: " ++ " " ++ r.1)%string) ;;
       ret (Some r.1)
     else ret None)
    (fun e => Status.set "aborted" ;; raise (ValueError "run_queue.sh crashed")).

Definition send_to_database : M unit := ret tt.

(** *** The handlers of the dispatcher *)

Definition _run_if_new (run : RunArgs -> M unit) (dbg : bool)
    (wait_for : option Z) : M unit :=
  j <- get_self ;;
  w <- get_world ;;
  if check_if_job_exists j w
  then emit (EvPrint "job exists already and therefore was not created!")
  else if lib_available j && lib_enabled j
  then
    id <- run_if_lib ;;
    modify_self (set_job_id id) ;;
    refresh_job_status ;;
    Status.set "finished" ;;
    j' <- get_self ;;
    emit (EvPrint ("The job " ++ job_name j' ++ " is available and has ID: "
                   ++ str_id (job_id j'))%string) ;;
    run default_args
  else
    _create_job_structure run dbg ;;
    run (mkArgs false false false None wait_for).

Definition _run_if_created (run : RunArgs -> M unit) (wait_for : option Z)
    : M (option string) :=
  Status.set "submitted" ;;
  j <- get_self ;;
  match run_mode (server j) with
  | manual => run_if_manually ;; ret None
  | modal => run_if_modal run ;; ret None
  | non_modal | thread => run_if_non_modal ;; ret None
  | queue => run_if_scheduler wait_for
  end.

Definition _run_if_submitted (run : RunArgs -> M unit) : M unit :=
  j <- get_self ;;
  w <- get_world ;;
  if Runmode_eqb (run_mode (server j)) queue
     && bool_decide (queue_job_info j w = None)
  then run (mkArgs true false false None None)
  else emit (EvPrint ("Job " ++ str_id (job_id j) ++ " is waiting in the que!")%string).

Definition _run_if_running (run : RunArgs -> M unit) : M unit :=
  j <- get_self ;;
  w <- get_world ;;
  if Runmode_eqb (run_mode (server j)) queue
     && bool_decide (queue_job_info j w = None)
  then run (mkArgs true false false None None)
  else emit (EvPrint ("Job " ++ str_id (job_id j) ++ " is running!")%string).

(** [_runtime]: the elapsed seconds between the stored start and now. *)
Definition _runtime : M (Z * Z) :=
  j <- get_self ;;
  match job_id j with
  | Some id =>
      start_time <- Db.get_timestart id ;;
      stop_time <- now ;;
      ret (stop_time, (stop_time - start_time) `mod` 86400)
  | None => raise (TypeError "'NoneType' object is not subscriptable")
  end.

Definition _run_if_collect (update_master_rec : M unit)
    (run : RunArgs -> M unit) : M unit :=
  collect_output ;;
  collect_logfiles ;;
  rt <- _runtime ;;
  j <- get_self ;;
  match job_id j with
  | Some id => Db.item_update_runtime rt.1 rt.2 id
  | None => ret tt
  end ;;
  Status.set "finished" ;;
  update_master_rec ;;
  _calculate_successor run ;;
  send_to_database.

Definition _run_if_suspended (run : RunArgs -> M unit) : M unit :=
  Status.set "refresh" ;;
  run default_args.

Definition _run_if_finished (update_master_rec : M unit)
    (run : RunArgs -> M unit) (again : bool) : M unit :=
  if again
  then
    j <- get_self ;;
    let parent := parent_id j in
    modify_self (set_parent_id None) ;;
    remove ;;
    modify_self (set_job_id None) ;;
    Status.set "initialized" ;;
    modify_self (set_parent_id parent) ;;
    run default_args
  else
    from_hdf ;;
    update_master_rec.

(** *** [run] *)

(** Lines 495-507: validation, the [run_again] reset and the [repair]
    override; the result is the status string the dispatch goes by. *)
Definition run_reset : M unit :=
  j <- get_self ;;
  let master := master_id j in
  let parent := parent_id j in
  remove ;;
  reset_job_id None ;;
  modify_self (set_master_id master) ;;
  modify_self (set_parent_id parent).

Definition run_prologue (args : RunArgs) : M string :=
  validate_ready_to_run ;;
  j <- get_self ;;
  emit (EvRun (job_name j)) ;;
  let status0 := status_string (status j) in
  match run_mode_override args with
  | Some m => modify_self (set_run_mode m)
  | None => ret tt
  end ;;
  j1 <- get_self ;;
  status1 <- (if run_again args && truthy (job_id j1)
              then run_reset ;; ret "initialized"
              else ret status0) ;;
  j2 <- get_self ;;
  if repair args && truthy (job_id j2) && negb (Status.is_ "finished" j2)
  then ret "created"
  else ret status1.

(** Lines 508-528: the chain of comparisons on the status string. *)
Definition dispatch (update_master_rec : M unit) (run : RunArgs -> M unit)
    (args : RunArgs) (st : string) : M unit :=
  if String.eqb st "initialized"
  then _run_if_new run (debug args) (que_wait_for args)
  else if String.eqb st "created"
  then _run_if_created run (que_wait_for args) ;; ret tt
  else if String.eqb st "submitted" then _run_if_submitted run
  else if String.eqb st "running" then _run_if_running run
  else if String.eqb st "collect" then _run_if_collect update_master_rec run
  else if String.eqb st "suspend" then _run_if_suspended run
  else if String.eqb st "refresh" then _run_if_refresh
  else if String.eqb st "busy" then _run_if_busy
  else if String.eqb st "finished"
  then _run_if_finished update_master_rec run (run_again args)
  else ret tt.

(** The body of the [try] block. *)
Definition run_body (update_master_rec : M unit) (run : RunArgs -> M unit)
    (args : RunArgs) : M unit :=
  st <- run_prologue args ;;
  dispatch update_master_rec run args st.

(** The three [except] clauses: drop the status, then re-raise. *)
Definition run_guard (body : M unit) : M unit :=
  try_except caught_by_run body
    (fun e => drop_status_to_aborted ;; raise e).

Fixpoint run (fuel : nat) (args : RunArgs) : M unit :=
  match fuel with
  | O => out_of_fuel
  | S fuel' => run_guard (run_body (update_master fuel') (run fuel') args)
  end.

End Engine.

(** ** [Project]: reconciliation with the queue *)

Module Project.

Section Reconcile.

Context {Env : Environment}.

(** The loop over the queue's listings: every listing that is not in
    state 'r' forces the record to 'aborted'. *)
Definition abort_unless_running (job_id : Z)
    (entry : string * (string * string)) : M unit :=
  if negb (String.eqb entry.2.2 "r")
  then Db.item_update_status "aborted" job_id
  else ret tt.

Definition status_in (s : string) (l : list string) : bool :=
  existsb (String.eqb s) l.

(** [queue_id_table(job_id)] as a call that may raise. *)
Definition query_queue (id : Z)
    : M (option (list (string * (string * string)))) :=
  w <- get_world ;;
  match queue_id_table id w with
  | QueueFails e => raise e
  | QueueTable t => ret t
  end.

Definition refresh_job_status_based_on_job_id (job_id : option Z)
    (que_mode : bool) : M unit :=
  if_id job_id
    (fun id =>
       s <- Db.get_status id ;;
       if (negb que_mode && negb (status_in s ["finished"]))
          || (que_mode && status_in s ["running"; "submitted"])
       then
         queue_status <- try_except is_Exception (query_queue id)
                           (fun _ => ret None) ;;
         match queue_status with
         | Some (entry :: rest) =>
             for_each (entry :: rest) (abort_unless_running id)
         | Some [] | None =>
             Db.item_update_status "aborted" id
         end
       else ret tt)
    (ret tt).

End Reconcile.

End Project.

(** ** Vocabulary of the statements *)

(** The state with [l] appended to the restart file list. *)
Definition appended (l : list string) (st : St) : St :=
  mkSt (set_restart_file_list (restart_file_list (self st) ++ l)%list (self st))
       (world st) (journal st).

(** The queue has no listing for the job, or only listings that are not in
    the running state 'r'. *)
Definition not_listed_as_running (a : queue_answer) : bool :=
  match a with
  | QueueFails _ => true
  | QueueTable None => true
  | QueueTable (Some l) => forallb (fun e => negb (String.eqb e.2.2 "r")) l
  end.

(** The state after [db.item_update({'status': s}, id)]. *)
Definition with_status (id : Z) (s : string) (st : St) : St :=
  mkSt (self st) (Db.set_status_in id s (world st)) (EvStatus id s :: journal st).

(** The state after the wait of [update_master] for the master's process:
    in thread mode, and when the master holds a process, the world is what
    the process leaves. *)
Definition waited {Env : Environment} (j master_job : GenericJob) (st : St) : St :=
  if Runmode_eqb (run_mode (server j)) thread && process master_job
  then mkSt (self st) (process_communicate master_job (world st)) (journal st)
  else st.

(** The state in which the dispatch starts when [run] neither resets nor
    repairs: the run mode overridden if asked for, the call journalled. *)
Definition entered (args : RunArgs) (st : St) : St :=
  mkSt (match run_mode_override args with
        | Some m => set_run_mode m (self st)
        | None => self st
        end)
       (world st)
       (EvRun (job_name (self st)) :: journal st).

(** The state after [n] calls of [run] in a row. *)
Definition run_repeatedly {JT : JobType} {Env : Environment}
    (fuel : nat) (args : RunArgs) (n : nat) (st : St) : St :=
  Nat.iter n (fun s => (run fuel args s).2) st.

(** Validation passes, as [GenericJob.validate_ready_to_run] does. *)
Definition validation_passes {JT : JobType} : Prop :=
  forall st, validate_ready_to_run st = (Return tt, st).

(** The status strings the dispatch of [run] compares with. *)
Definition dispatched (s : string) : bool :=
  existsb (String.eqb s)
    ["initialized"; "created"; "submitted"; "running"; "collect"; "suspend";
     "refresh"; "busy"; "finished"].

(** The state [drop_status_to_aborted] leaves when the job has the id [id]
    and [row] is its persisted record: the status object is rebuilt from
    the record; unless that status is 'finished' or 'suspended', 'aborted'
    is written to the object and to the record. *)
Definition dropped (id : Z) (row : DbRow) (st : St) : St :=
  if Project.status_in (row_status row) ["finished"; "suspended"]
  then mkSt (set_status (Status.new (Some (row_status row)) (Some id)) (self st))
            (world st) (journal st)
  else with_status id "aborted"
         (mkSt (set_status (mkJobStatus "aborted" (Some id)) (self st))
               (world st) (journal st)).

(** The world after [remove] of the job [j] with id [id]. *)
Definition removed (j : GenericJob) (id : Z) (w : World) : World :=
  set_db (delete id (db (remove_artifacts j w))) (remove_artifacts j w).

(** The job object after the [run_again] reset: no id, a new status
    object, master and parent as they were. *)
Definition reset_job (j : GenericJob) : GenericJob :=
  set_parent_id (parent_id j)
    (set_master_id (master_id j)
       (set_status (Status.new None None) (set_job_id None j))).

(** The two links of a job to other jobs. *)
Definition links (j : GenericJob) : option Z * option Z :=
  (master_id j, parent_id j).

(** A computation that leaves the links of its [self] as they are,
    whatever its outcome. *)
Definition keeps_links {A} (m : M A) : Prop :=
  forall st, links (self (m st).2) = links (self st).

(** The extension points of a job type leave the links alone. *)
Definition hooks_keep_links {JT : JobType} : Prop :=
  keeps_links validate_ready_to_run
  /\ keeps_links write_input
  /\ keeps_links collect_output
  /\ keeps_links collect_logfiles
  /\ keeps_links run_if_lib
  /\ keeps_links _run_if_refresh
  /\ keeps_links _run_if_busy
  /\ forall child, keeps_links (_before_successor_calc child).

(** The state in which [run_if_modal] launches the workload: status
    'running' (in the record too, for a status object with an id), the
    start time taken from the clock and, for a job with an id, stored. *)
Definition modal_launch (st : St) : St :=
  let st1 := (Status.set "running" st).2 in
  let t := clock (world st1) in
  let w2 := set_clock (t + 1) (world st1) in
  mkSt (self st1)
       (match job_id (self st1) with
        | Some id => set_db (alter (Db.row_set_timestart t) id (db w2)) w2
        | None => w2
        end)
       (journal st1).

(** The job table after a status object with the id [sid] has written the
    status [s]. *)
Definition status_written (sid : option Z) (s : string) (d : gmap Z DbRow)
    : gmap Z DbRow :=
  if_id sid (fun id => alter (Db.row_set_status s) id d) d.

(** Lines 1080-1086 of [_create_job_structure]: all it does before the
    predecessor is looked at. *)
Definition build_job_structure {JT : JobType} (dbg : bool) : M unit :=
  create_working_directory ;;
  _copy_restart_files ;;
  write_input ;;
  id <- save ;;
  modify_self (set_job_id (Some id)) ;;
  j <- get_self ;;
  emit (EvPrint ("The job " ++ job_name j ++ " was saved and received the ID: "
                 ++ str_id (job_id j))%string) ;;
  _write_run_wrapper dbg ;;
  Status.set "created".

(** Lines 924-928 of [_run_if_collect]: all it does before the successors
    are looked at. *)
Definition collect_and_finish {JT : JobType} (update_master_rec : M unit) : M unit :=
  collect_output ;;
  collect_logfiles ;;
  rt <- _runtime ;;
  j <- get_self ;;
  match job_id j with
  | Some id => Db.item_update_runtime rt.1 rt.2 id
  | None => ret tt
  end ;;
  Status.set "finished" ;;
  update_master_rec.

(** The state after [self.status.suspended = True] of the saved job [id]. *)
Definition suspended (id : Z) (st : St) : St :=
  with_status id "suspended"
    (mkSt (set_status (mkJobStatus "suspended" (Some id)) (self st))
          (world st) (journal st)).

(** The child object after [child.status.created = True]. *)
Definition created_child (c : Z) (row : DbRow) (h : HdfJob) : GenericJob :=
  set_status (mkJobStatus "created" (Some c)) (job_of_record c row h).

#[global] Instance event_eq_dec : EqDecision event.
Proof. solve_decision. Defined.

(** In the chronological journal [l], the first [a] comes before the
    first [b]. *)
Fixpoint first_index (e : event) (l : list event) : option nat :=
  match l with
  | [] => None
  | x :: rest =>
      if bool_decide (x = e) then Some 0%nat
      else S <$> first_index e rest
  end.

Definition precedes (a b : event) (l : list event) : bool :=
  match first_index a l, first_index b l with
  | Some i, Some k => (i <? k)%nat
  | _, _ => false
  end.

(** ** Concrete job types, environments and states *)

Module Examples.

(** [GenericJob] as it stands: the abstract methods raise. *)
Definition refresh_not_supported : M unit :=
  j <- get_self ;;
  raise (NotImplementedError
    ("Refresh is not supported for this job type for job  " ++ str_id (job_id j))%string).

Definition base_job : JobType := {|
  validate_ready_to_run := ret tt;
  write_input :=
    raise (NotImplementedError "write procedure must be defined for derived Hamilton!");
  collect_output :=
    raise (NotImplementedError "read procedure must be defined for derived Hamilton!");
  collect_logfiles :=
    raise (NotImplementedError
             "collect_logfiles() should be implemented in the derived class");
  run_if_lib :=
    raise (NotImplementedError
             "This function needs to be implemented in the specific class.");
  _run_if_refresh := refresh_not_supported;
  _run_if_busy := refresh_not_supported;
  _before_successor_calc := fun child => ret child
|}.

(** A job type in the manner of ExampleJob: the input is one file, the
    output needs no collecting, a refresh does nothing. *)
Definition example_job : JobType := {|
  validate_ready_to_run := ret tt;
  write_input :=
    j <- get_self ;;
    write_file (posixpath_join (working_directory j) "input.inp") "alat 3.2";
  collect_output := ret tt;
  collect_logfiles := ret tt;
  run_if_lib := ret None;
  _run_if_refresh := ret tt;
  _run_if_busy := ret tt;
  _before_successor_calc := fun child => ret child
|}.

(** An operating system on which the executable named "false" exits with
    status 1 and every other one with status 0, and a queue that lists
    nothing. *)
Definition quiet_env : Environment := {|
  check_if_job_exists := fun _ _ => false;
  subprocess_run := fun cmd _ w =>
    match cmd with
    | Shell "false" => (1, "segmentation fault", w)
    | _ => (0, "done", w)
    end;
  init_scheduler_run := fun _ _ => (["qsub"; "run_queue.sh"], true);
  scheduler_popen := fun _ w => ("4711", w);
  queue_job_info := fun _ _ => None;
  process_communicate := fun _ w => w;
  queue_id_table := fun _ _ => QueueTable None
|}.

Definition server0 : Server := mkServer modal 1 None false.

Definition wd_of (name : string) : string :=
  ("/home/pyiron/" ++ name ++ "_hdf5/" ++ name)%string.

(** A job as its constructor leaves it. *)
Definition new_job (name exe : string) : GenericJob :=
  mkJob name None (Status.new None None) None None server0 exe false
        false false [] (wd_of name) false.

(** A job loaded from row [id] with status [s]. *)
Definition stored_job (name : string) (id : Z) (s : string) : GenericJob :=
  mkJob name (Some id) (Status.new (Some s) (Some id)) None None server0
        "true" false false false [] (wd_of name) false.

Definition row0 (name s : string) (master parent : option Z) : DbRow :=
  mkRow name s master parent 0 None None.

Definition hdf0 (name : string) : HdfJob :=
  mkHdf server0 [] "true" false (wd_of name).

Definition empty_world : World := mkWorld ∅ 1 ∅ ∅ ∅ 0.

(** A file system holding the single file "b.chk". *)
Definition one_file_world : World :=
  mkWorld ∅ 1 {[ "b.chk" := "checkpoint" ]} ∅ ∅ 0.

Definition one_file_state : St := mkSt (new_job "job_a" "true") one_file_world [].

(** A record left at 'running' under id 7. *)
Definition stale_world : World :=
  mkWorld {[ 7 := row0 "job_q" "running" None None ]} 8 ∅ ∅
          {[ "job_q" := hdf0 "job_q" ]} 0.

Definition stale_state : St := mkSt (new_job "project" "true") stale_world [].

(** A master with id 1 and its finished child with id 2. *)
Definition master_world (s : string) : World :=
  mkWorld {[ 1 := row0 "master" s None None;
             2 := row0 "child" "finished" (Some 1) None ]}
          3 ∅ ∅
          {[ "master" := hdf0 "master"; "child" := hdf0 "child" ]} 0.

Definition child_job : GenericJob :=
  mkJob "child" (Some 2) (Status.new (Some "finished") (Some 2)) (Some 1) None
        server0 "true" false false false [] (wd_of "child") false.

Definition child_state (s : string) : St := mkSt child_job (master_world s) [].

(** A master type whose refresh handler, the first time it runs, is
    overtaken by a sibling that completes meanwhile and marks the master
    'busy'; the clock tells the first run from the later ones. *)
Definition overtaken_master : JobType := {|
  validate_ready_to_run := ret tt;
  write_input := ret tt;
  collect_output := ret tt;
  collect_logfiles := ret tt;
  run_if_lib := ret None;
  _run_if_refresh :=
    j <- get_self ;;
    w <- get_world ;;
    if clock w =? 0
    then (now ;;
          match job_id j with
          | Some id => Db.item_update_status "busy" id
          | None => ret tt
          end)
    else ret tt;
  _run_if_busy := ret tt;
  _before_successor_calc := fun child => ret child
|}.

(** The call of the overtaken master's refresh handler by the child. *)
Definition overtaken_call : outcome (unit * GenericJob) * St :=
  call_on (job_of_record 1 (Db.row_set_status "refresh"
                              (row0 "master" "suspended" None None))
                         (hdf0 "master"))
          (_run_if_refresh (JobType := overtaken_master))
          (with_status 1 "refresh" (child_state "suspended")).

Definition overtaken_master_after : GenericJob :=
  match overtaken_call.1 with
  | Return r => r.2
  | _ => child_job
  end.

(** A job persisted under id 5, loaded with the status of its record. *)
Definition stored_world (s : string) : World :=
  mkWorld {[ 5 := row0 "job_s" s None None ]} 6 ∅ {[ wd_of "job_s" ]}
          {[ "job_s" := hdf0 "job_s" ]} 0.

Definition stored_state (s : string) : St :=
  mkSt (stored_job "job_s" 5 s) (stored_world s) [].

(** A finished job under id 3 with master 1 and parent 2. *)
Definition linked_world : World :=
  mkWorld {[ 1 := row0 "master" "suspended" None None;
             2 := row0 "first" "finished" (Some 1) None;
             3 := row0 "second" "finished" (Some 1) (Some 2) ]}
          4
          {[ posixpath_join (wd_of "second") "run_job.py" := "job.run()" ]}
          {[ wd_of "second" ]}
          {[ "master" := hdf0 "master"; "first" := hdf0 "first";
             "second" := hdf0 "second" ]} 0.

Definition linked_job : GenericJob :=
  mkJob "second" (Some 3) (Status.new (Some "finished") (Some 3))
        (Some 1) (Some 2) server0 "true" false false false []
        (wd_of "second") false.

Definition linked_state : St := mkSt linked_job linked_world [].

(** The job under id 5, submitted, with the executable [exe]. *)
Definition submitted_state (exe : string) : St :=
  mkSt (mkJob "job_s" (Some 5) (Status.new (Some "submitted") (Some 5))
              None None server0 exe false false false [] (wd_of "job_s") false)
       (stored_world "submitted") [].

(** A new job of the example type with the executable [exe]. *)
Definition fresh_state (exe : string) : St :=
  mkSt (new_job "job_a" exe) empty_world [].

(** A chain: job_a is persisted under id 1 as 'created' and has not run;
    job_b is new and has job_a as its parent. *)
Definition chain_world : World :=
  mkWorld {[ 1 := row0 "job_a" "created" None None ]} 2 ∅ {[ wd_of "job_a" ]}
          {[ "job_a" := hdf0 "job_a" ]} 0.

Definition job_b : GenericJob :=
  mkJob "job_b" None (Status.new None None) None (Some 1) server0 "true"
        false false false [] (wd_of "job_b") false.

Definition chain_state : St := mkSt job_b chain_world [].

(** job_b once it is saved under id 2 and 'created', job_a still waiting. *)
Definition chain_saved_world : World :=
  mkWorld {[ 1 := row0 "job_a" "created" None None;
             2 := row0 "job_b" "created" None (Some 1) ]}
          3 ∅ {[ wd_of "job_a"; wd_of "job_b" ]}
          {[ "job_a" := hdf0 "job_a"; "job_b" := hdf0 "job_b" ]} 0.

Definition job_b_saved : GenericJob :=
  mkJob "job_b" (Some 2) (Status.new (Some "created") (Some 2)) None (Some 1)
        server0 "true" false false false [] (wd_of "job_b") false.

Definition chain_saved_state : St := mkSt job_b_saved chain_saved_world [].

(** job_a at its collect step, job_b suspended behind it. *)
Definition chain_collect_world : World :=
  mkWorld {[ 1 := row0 "job_a" "finished" None None;
             2 := row0 "job_b" "suspended" None (Some 1) ]}
          3 ∅ {[ wd_of "job_a"; wd_of "job_b" ]}
          {[ "job_a" := hdf0 "job_a"; "job_b" := hdf0 "job_b" ]} 0.

Definition chain_collect_state : St :=
  mkSt (stored_job "job_a" 1 "finished") chain_collect_world [].

(** job_a at its collect step with two suspended successors, job_b and
    job_c; job_c is also the master of job_b. *)
Definition siblings_world : World :=
  mkWorld {[ 1 := row0 "job_a" "collect" None None;
             2 := row0 "job_b" "suspended" (Some 3) (Some 1);
             3 := row0 "job_c" "suspended" None (Some 1) ]}
          4 ∅ {[ wd_of "job_a"; wd_of "job_b"; wd_of "job_c" ]}
          {[ "job_a" := hdf0 "job_a"; "job_b" := hdf0 "job_b";
             "job_c" := hdf0 "job_c" ]} 0.

Definition siblings_state : St :=
  mkSt (stored_job "job_a" 1 "collect") siblings_world [].

End Examples.

(** * Further code of the two files *)

(** ** Python strings *)

(** [s.split(c)] for a separator of one character: never an empty list. *)
Fixpoint str_split (c : ascii) (s : string) : list string :=
  match s with
  | EmptyString => [EmptyString]
  | String x rest =>
      if Ascii.eqb x c then EmptyString :: str_split c rest
      else match str_split c rest with
           | piece :: pieces => String x piece :: pieces
           | [] => [String x EmptyString]
           end
  end.

(** [needle in hay] for two strings. *)
Fixpoint str_in (needle hay : string) : bool :=
  String.prefix needle hay
  || match hay with
     | EmptyString => false
     | String _ rest => str_in needle rest
     end.

(** [s.replace(a, b)] for two characters. *)
Fixpoint str_replace (a b : ascii) (s : string) : string :=
  match s with
  | EmptyString => EmptyString
  | String x rest =>
      String (if Ascii.eqb x a then b else x) (str_replace a b rest)
  end.

(** [template.format(arg)] for a template whose only braces are the fields
    [{}]: the first field takes the argument; a second field has no
    argument left, which is an [IndexError] ([None]). *)
Fixpoint str_format (template : string) (args : list string) : option string :=
  match template with
  | EmptyString => Some EmptyString
  | String x rest =>
      match rest with
      | String y rest' =>
          if Ascii.eqb x "{"%char && Ascii.eqb y "}"%char
          then match args with
               | a :: args' => String.append a <$> str_format rest' args'
               | [] => None
               end
          else String x <$> str_format rest args
      | EmptyString => Some (String x EmptyString)
      end
  end.

(** ** [Project]: names of files and directories *)

Module ProjectNames.

(** [Project._is_hdf5_dir(item)] *)
Definition _is_hdf5_dir (item : string) : bool :=
  let it := str_split "_"%char item in
  if (1 <? length it)%nat
  then if str_in "hdf5" (List.last it EmptyString) then true else false
  else false.

(** [Project.list_files(extension)]: [walk] is the list of file names
    [next(os.walk(self.path))[2]], or [None] when the walk yields nothing
    ([StopIteration]); [filter_] is [self._filter]. *)
Definition list_files (filter_ : list string) (walk : option (list string))
    (extension : option string) : list string :=
  if negb (bool_decide ("nodes" ∈ filter_)) then []
  else
    match walk with
    | None => []
    | Some files_ =>
        match extension with
        | None => files_
        | Some ext =>
            List.map (fun f => String.concat "." (removelast (str_split "."%char f)))
                     (List.filter
                        (fun f => str_in (List.last (str_split "."%char f) EmptyString) ext)
                        files_)
        end
    end.

(** The first statement of [Project.create_job]:
    [job_name = job_name.replace('.', '_')]. *)
Definition create_job_name (job_name : string) : string :=
  str_replace "."%char "_"%char job_name.

End ProjectNames.

(** ** [Project.refresh_job_status_based_on_queue_status] *)

(** A job is named by its name or by its id. *)
Inductive job_specifier : Type :=
| ByName (name : string)
| ById (id : Z).

(** The lookup of a job id in the job table ([get_job_id] of
    core/settings/jobtable.py, not under src/): [None] when no job
    matches. *)
Class JobTable : Type := {
  get_job_id : job_specifier -> World -> option Z
}.

Definition refresh_job_status_based_on_queue_status
    {Env : Environment} {JTab : JobTable}
    (spec : job_specifier) (status_arg : string) : M unit :=
  if negb (String.eqb status_arg "running")
  then raise (NotImplementedError "")
  else
    w <- get_world ;;
    Project.refresh_job_status_based_on_job_id (get_job_id spec w) true.

(** ** Further methods of [GenericJob] *)

(** The argument of a setter before its type is checked. *)
Inductive pyval : Type :=
| PyNone
| PyBool (b : bool)
| PyInt (z : Z)
| PyStr (s : string).

Definition set_lib_enabled (b : bool) (j : GenericJob) : GenericJob :=
  mkJob (job_name j) (job_id j) (status j) (master_id j) (parent_id j) (server j)
        (executable_path j) (executable_mpi j) (lib_available j) b
        (restart_file_list j) (working_directory j) (process j).

(** The getter and the setter of [library_activated]. *)
Definition library_activated (j : GenericJob) : bool := lib_enabled j.

Definition library_activated_set (library_activated_bool : pyval) : M unit :=
  match library_activated_bool with
  | PyBool b =>
      j <- get_self ;;
      if lib_available j then modify_self (set_lib_enabled b) else ret tt
  | _ =>
      raise (TypeError
        "The library mode can either be activated or disabled [True, False].")
  end.

(** [job_file_name(file_name, cwd=None)]: [not cwd] holds for [None] and
    for the empty string. *)
Definition job_file_name (file_name : string) (cwd : option string)
    (j : GenericJob) : string :=
  let cwd' := match cwd with
              | Some d => if String.eqb d "" then working_directory j else d
              | None => working_directory j
              end in
  posixpath_join cwd' file_name.

(** The argument of [print] in [run_if_manually] and [_run_manually], as
    the expression is written: [+] joins the three literals after
    [.format] has been applied to the last of them. *)
Definition manual_message_as_written (wd : string) : option string :=
  (fun last_ =>
     ("You have selected to start the job manually. " ++
      "To run it, go into the working directory {} and " ++ last_)%string)
  <$> str_format "call 'python run_job.py' " [wd].

(** [del self.a]: an [AttributeError] when the object has no attribute
    [a]. *)
Definition del_attr (a : string) (attrs : gset string) : exn + gset string :=
  if bool_decide (a ∈ attrs)
  then inr (attrs ∖ {[a]})
  else inl (OtherException ("AttributeError: " ++ a)%string).

Fixpoint del_attrs (l : list string) (attrs : gset string) : exn + gset string :=
  match l with
  | [] => inr attrs
  | a :: rest =>
      match del_attr a attrs with
      | inr attrs' => del_attrs rest attrs'
      | inl e => inl e
      end
  end.

(** [clear_job]: the [del] statements in their order, on the set of the
    attributes the object has. *)
Definition clear_job_statements : list string :=
  ["__name__"; "__version__"; "_executable"; "_name"; "_server"; "_logger";
   "_parent_id"; "_master_id"; "_import_directory"; "_lib"; "_status";
   "_restart_file_list"; "_job_id"; "_status"].

Definition clear_job (attrs : gset string) : exn + gset string :=
  del_attrs clear_job_statements attrs.

(** The attributes [JobCore.__init__] and [GenericJob.__init__] give an
    object. *)
Definition constructed_attributes : gset string :=
  list_to_set
    ["__name__"; "__version__"; "_executable"; "_name"; "_server"; "_logger";
     "_parent_id"; "_master_id"; "_import_directory"; "_lib"; "_status";
     "_restart_file_list"; "_job_id"; "_process"; "_hdf5"].

(** [suspend]: store the object, mark it 'suspended', clear it. *)
Definition suspend : M unit :=
  to_hdf ;;
  Status.set "suspended" ;;
  match clear_job constructed_attributes with
  | inr _ => ret tt
  | inl e => raise e
  end.



(** ** Vocabulary of the further statements *)

(** Every id of the job table lies below the next id to be given out. *)
Definition ids_below_next (w : World) : Prop :=
  forall k row, db w !! k = Some row -> k < next_id w.

(** The queue lists the job, and every listing is in the running state. *)
Definition listed_as_running (a : queue_answer) : bool :=
  match a with
  | QueueTable (Some (entry :: rest)) =>
      forallb (fun e => String.eqb e.2.2 "r") (entry :: rest)
  | _ => false
  end.

(** ['c' not in s] for a character. *)
Definition lacks (c : ascii) (s : string) : Prop :=
  str_in (String c EmptyString) s = false.

(** ** Concrete states for the further statements *)

Module MoreExamples.

Import Examples.

(** A queue that lists job 7 twice, once running and once in error. *)
Definition mixed_queue_env : Environment := {|
  check_if_job_exists := fun _ _ => false;
  subprocess_run := fun _ _ w => (0, "done", w);
  init_scheduler_run := fun _ _ => (["qsub"; "run_queue.sh"], true);
  scheduler_popen := fun _ w => ("4711", w);
  queue_job_info := fun _ _ => Some "r";
  process_communicate := fun _ w => w;
  queue_id_table := fun _ _ =>
    QueueTable (Some [("a", ("4711", "r")); ("b", ("4712", "Eqw"))])
|}.

(** A job table in which names and ids are looked up as they stand. *)
Definition plain_job_table : JobTable := {|
  get_job_id := fun spec w =>
    match spec with
    | ById id => if bool_decide (is_Some (db w !! id)) then Some id else None
    | ByName name =>
        head (map_to_list (filter (fun kv => row_job kv.2 = name) (db w))).*1
    end
|}.

(** A record left at 'submitted' under id 7. *)
Definition stale_submitted_state : St :=
  mkSt (new_job "project" "true")
       (mkWorld {[ 7 := row0 "job_q" "submitted" None None ]} 8 ∅ ∅
                {[ "job_q" := hdf0 "job_q" ]} 0)
       [].

End MoreExamples.

(** * Properties *)

(** ** Equations of the primitive steps *)

Section Steps.

Lemma set_status_in_twice id s w :
  Db.set_status_in id s (Db.set_status_in id s w) = Db.set_status_in id s w.
Proof.
  unfold Db.set_status_in, set_db. cbn. f_equal.
  apply map_eq. intros k. rewrite !lookup_alter.
  case_decide; [|done]. rewrite decide_True by done.
  by destruct (db w !! id).
Qed.

Lemma set_status_in_lookup id s w row :
  db w !! id = Some row ->
  db (Db.set_status_in id s w) !! id = Some (Db.row_set_status s row).
Proof.
  intros H. unfold Db.set_status_in. cbn. rewrite lookup_alter.
  rewrite decide_True by done. by rewrite H.
Qed.

Lemma set_status_in_other id s w k :
  k <> id -> db (Db.set_status_in id s w) !! k = db w !! k.
Proof.
  intros H. unfold Db.set_status_in. cbn. rewrite lookup_alter.
  by rewrite decide_False.
Qed.

Lemma item_update_status_eq s id st :
  Db.item_update_status s id st
  = (Return tt, mkSt (self st) (Db.set_status_in id s (world st))
                     (EvStatus id s :: journal st)).
Proof. reflexivity. Qed.

Lemma get_status_eq id row st :
  db (world st) !! id = Some row ->
  Db.get_status id st = (Return (row_status row), st).
Proof.
  intros H. unfold Db.get_status, Db.get_item_by_id, bind, get_world, ret.
  cbn. by rewrite H.
Qed.

Lemma get_status_missing id st :
  db (world st) !! id = None ->
  Db.get_status id st
  = (Raise (TypeError "'NoneType' object is not subscriptable"), st).
Proof.
  intros H. unfold Db.get_status, Db.get_item_by_id, bind, get_world, ret.
  cbn. by rewrite H.
Qed.

Lemma project_load_eq id row h st :
  db (world st) !! id = Some row ->
  hdf (world st) !! row_job row = Some h ->
  project_load id st = (Return (job_of_record id row h), st).
Proof.
  intros Hrow Hh. unfold project_load, bind, get_world, ret. cbn.
  by rewrite Hrow, Hh.
Qed.

Lemma bind_eq {A B} (m : M A) (k : A -> M B) st :
  bind m k st
  = match m st with
    | (Return a, st') => k a st'
    | (Raise e, st') => (Raise e, st')
    | (OutOfFuel, st') => (OutOfFuel, st')
    end.
Proof. reflexivity. Qed.

Lemma bind_return {A B} (m : M A) (k : A -> M B) st a st' :
  m st = (Return a, st') -> bind m k st = k a st'.
Proof. intros H. unfold bind. by rewrite H. Qed.

Lemma bind_raise {A B} (m : M A) (k : A -> M B) st e st' :
  m st = (Raise e, st') -> bind m k st = (Raise e, st').
Proof. intros H. unfold bind. by rewrite H. Qed.

Lemma status_set_eq s st :
  Status.set s st
  = if_id (status_job_id (status (self st)))
      (fun id =>
         (Return tt,
          with_status id s
            (mkSt (set_status (mkJobStatus s (status_job_id (status (self st))))
                              (self st))
                  (world st) (journal st))))
      (Return tt,
       mkSt (set_status (mkJobStatus s (status_job_id (status (self st)))) (self st))
            (world st) (journal st)).
Proof.
  unfold Status.set, if_id, bind, get_self, set_self. cbn.
  destruct (status_job_id (status (self st))) as [z|]; [|done].
  by destruct (z =? 0).
Qed.

End Steps.

(** ** The restart file list *)

Section RestartFileList.

Import RestartFiles.

Lemma appended_nil st : appended [] st = st.
Proof.
  destruct st as [[] w jr]. unfold appended, set_restart_file_list. cbn.
  by rewrite app_nil_r.
Qed.

Lemma appended_cons f l st : appended l (appended [f] st) = appended (f :: l) st.
Proof.
  unfold appended, set_restart_file_list. cbn. by rewrite <- app_assoc.
Qed.

Lemma append_existing st f :
  isfile (world st) f = true ->
  restart_file_list_append f st = (Return tt, appended [f] st).
Proof.
  intros Hf. unfold restart_file_list_append, bind, get_world. cbn. by rewrite Hf.
Qed.

Lemma append_missing st f :
  isfile (world st) f = false ->
  restart_file_list_append f st
  = (Raise (IOError ("File: " ++ f ++ " does not exist")%string), st).
Proof.
  intros Hf. unfold restart_file_list_append, bind, get_world. cbn. by rewrite Hf.
Qed.

(** The loop runs through a prefix of existing files and stops at the
    first missing one. *)
Lemma set_stops_at_first_missing st pre f post :
  Forall (fun g => isfile (world st) g = true) pre ->
  isfile (world st) f = false ->
  restart_file_list_set (pre ++ f :: post) st
  = (Raise (IOError ("File: " ++ f ++ " does not exist")%string), appended pre st).
Proof.
  revert st. induction pre as [|g pre IH]; intros st Hpre Hf; cbn.
  - unfold restart_file_list_set. cbn. unfold bind.
    rewrite append_missing by done. by rewrite appended_nil.
  - apply Forall_cons in Hpre as [Hg Hpre].
    unfold restart_file_list_set in *. cbn. unfold bind at 1.
    rewrite append_existing by done.
    rewrite IH by done. by rewrite appended_cons.
Qed.






(** C10.  The setter is not atomic: when the assigned list has a missing
    file, the entries before the first missing one (all existing) are in
    [restart_file_list] when the [IOError] is raised, behind what the list
    held, and they stay there; nothing else of the state changes. *)
Theorem restart_file_list_set_not_atomic
    (st : St) (pre : list string) (f : string) (post : list string) :
  Forall (fun g => isfile (world st) g = true) pre ->
  isfile (world st) f = false ->
  restart_file_list_set (pre ++ f :: post) st
  = (Raise (IOError ("File: " ++ f ++ " does not exist")%string), appended pre st)
  /\ restart_file_list (self (appended pre st))
     = (restart_file_list (self st) ++ pre)%list
  /\ forall (later : World) (jr : list event),
       restart_file_list_get (mkSt (self (appended pre st)) later jr)
       = (Return (restart_file_list (self st) ++ pre)%list,
          mkSt (self (appended pre st)) later jr).
Proof.
  intros Hpre Hf. split; [by apply set_stops_at_first_missing|].
  split; [reflexivity|]. intros later jr. reflexivity.
Qed.

(** C10 at the list ["b.chk"; "a.chk"; "b.chk"]: the first "b.chk" is kept. *)
Lemma restart_file_list_set_not_atomic_witness :
  restart_file_list_set (["b.chk"] ++ "a.chk" :: ["b.chk"]) Examples.one_file_state
  = (Raise (IOError "File: a.chk does not exist"),
     appended ["b.chk"] Examples.one_file_state).
Proof.
  apply (restart_file_list_set_not_atomic Examples.one_file_state
           ["b.chk"] "a.chk" ["b.chk"]).
  - constructor; [reflexivity | constructor].
  - reflexivity.
Defined.

End RestartFileList.

(** ** Reconciliation with the queue *)

Section Reconciliation.

Import Project.
Context {Env : Environment}.

(** The loop over the listings returns, keeps the caller's object, and has
    written 'aborted' exactly when some listing is not in state 'r'. *)
Lemma abort_loop id (l : list (string * (string * string))) st :
  exists jr,
    for_each l (abort_unless_running id) st
    = (Return tt,
       mkSt (self st)
            (if forallb (fun e => String.eqb e.2.2 "r") l
             then world st else Db.set_status_in id "aborted" (world st))
            jr).
Proof.
  revert st. induction l as [|e l IH]; intros st.
  - exists (journal st). by destruct st.
  - cbn [for_each forallb]. unfold bind at 1, abort_unless_running at 1.
    destruct (String.eqb e.2.2 "r") eqn:He; cbn [negb andb].
    + unfold ret at 1. destruct (IH st) as [jr ->]. by exists jr.
    + rewrite item_update_status_eq.
      destruct (IH (mkSt (self st) (Db.set_status_in id "aborted" (world st))
                         (EvStatus id "aborted" :: journal st))) as [jr Hjr].
      rewrite Hjr. cbn [self world journal]. exists jr.
      destruct (forallb _ l); [done|]. by rewrite set_status_in_twice.
Qed.

(** C7.  For a job id with a persisted record, [reconcile(job_id)] (the
    call with the default [que_mode]) returns without raising whenever the
    queue query answers or fails with an error; if the persisted status is
    'running' or 'submitted' and the queue has no listing for the job (the
    query fails, gives nothing, or gives an empty table) or only listings
    that are not in the running state, the record's status becomes
    'aborted' and nothing else of the world changes; if the persisted
    status is anything else, the state is left as it was. *)
Theorem reconcile_forces_aborted (st : St) (id : Z) (row : DbRow) :
  id <> 0 ->
  db (world st) !! id = Some row ->
  (forall e, queue_id_table id (world st) = QueueFails e -> is_Exception e = true) ->
  let r := refresh_job_status_based_on_job_id (Some id) true st in
  r.1 = Return tt
  /\ self r.2 = self st
  /\ (status_in (row_status row) ["running"; "submitted"] = true ->
      not_listed_as_running (queue_id_table id (world st)) = true ->
      world r.2 = Db.set_status_in id "aborted" (world st)
      /\ db (world r.2) !! id = Some (Db.row_set_status "aborted" row)
      /\ forall k, k <> id -> db (world r.2) !! k = db (world st) !! k)
  /\ (status_in (row_status row) ["running"; "submitted"] = false -> r.2 = st).
Proof.
  intros Hid Hrow Hfail. cbn zeta.
  unfold refresh_job_status_based_on_job_id, if_id.
  destruct (Z.eqb_spec id 0) as [|_]; [done|].
  unfold bind at 1. unfold Db.get_status, Db.get_item_by_id, bind, get_world, ret.
  cbn -[status_in]. rewrite Hrow. cbn -[status_in].
  destruct (status_in (row_status row) ["running"; "submitted"]) eqn:Hs.
  2:{ cbn. repeat split; try done. }
  cbn -[for_each]. unfold try_except, query_queue, bind, get_world.
  cbn -[for_each].
  destruct (queue_id_table id (world st)) as [e|[[|entry rest]|]] eqn:Hq;
    cbn -[for_each].
  - rewrite (Hfail e eq_refl). cbn.
    repeat split; try done.
    + by apply set_status_in_lookup.
    + intros k Hk. by apply set_status_in_other.
  - repeat split; try done.
    + by apply set_status_in_lookup.
    + intros k Hk. by apply set_status_in_other.
  - destruct (abort_loop id (entry :: rest) st) as [jr Hjr].
    cbn [for_each] in Hjr. unfold bind in Hjr. rewrite Hjr. cbn.
    split; [done|]. split; [done|]. split; [|done].
    intros _ Hnot.
    apply andb_true_iff in Hnot as [Hentry Hrest].
    apply negb_true_iff in Hentry. rewrite Hentry. cbn.
    split; [done|]. split.
    + by apply set_status_in_lookup.
    + intros k Hk. by apply set_status_in_other.
  - repeat split; try done.
    + by apply set_status_in_lookup.
    + intros k Hk. by apply set_status_in_other.
Qed.

End Reconciliation.

(** C7 on a record persisted as 'running' whose queue identifier the queue
    no longer lists. *)
Lemma reconcile_forces_aborted_witness :
  let r := Project.refresh_job_status_based_on_job_id
             (Env := Examples.quiet_env) (Some 7) true Examples.stale_state in
  r.1 = Return tt
  /\ db (world r.2) !! 7
     = Some (Db.row_set_status "aborted" (Examples.row0 "job_q" "running" None None)).
Proof.
  pose proof (reconcile_forces_aborted (Env := Examples.quiet_env)
                Examples.stale_state 7
                (Examples.row0 "job_q" "running" None None)) as H.
  destruct H as (Hret & _ & Hab & _).
  - lia.
  - reflexivity.
  - intros e He. vm_compute in He. discriminate He.
  - split; [exact Hret|]. apply Hab; reflexivity.
Defined.

(** ** The wake protocol between a child and its master *)

Section MasterCoordinator.

Context {JT : JobType} {Env : Environment}.

(** C1.  [update_master] of a job that has reached 'finished', by the
    persisted status of its master [mid]:
    - without a master id nothing happens;
    - 'suspended': the status is set to 'refresh', the master is loaded and
      its refresh handler invoked on it (and, in thread mode, its process
      awaited); if the persisted status is 'busy' after that, it is set
      back to 'suspended' and the protocol runs again from there,
      otherwise the protocol ends;
    - 'refresh': the status is set to 'busy', and nothing else changes;
    - any other status: the state is left as it was. *)
Theorem update_master_protocol (fuel : nat) (st : St) :
  (master_id (self st) = None -> update_master (S fuel) st = (Return tt, st))
  /\
  (forall (mid : Z) (row : DbRow),
     master_id (self st) = Some mid ->
     db (world st) !! mid = Some row ->
     (row_status row = "suspended" ->
      forall (h : HdfJob) (master_job' : GenericJob) (st2 : St) (row2 : DbRow),
        hdf (world st) !! row_job row = Some h ->
        call_on (job_of_record mid (Db.row_set_status "refresh" row) h)
                _run_if_refresh (with_status mid "refresh" st)
        = (Return (tt, master_job'), st2) ->
        db (world (waited (self st) master_job' st2)) !! mid = Some row2 ->
        update_master (S fuel) st
        = if String.eqb (row_status row2) "busy"
          then update_master fuel
                 (with_status mid "suspended" (waited (self st) master_job' st2))
          else (Return tt, waited (self st) master_job' st2))
     /\
     (row_status row = "refresh" ->
      update_master (S fuel) st = (Return tt, with_status mid "busy" st)
      /\ db (world (with_status mid "busy" st)) !! mid
         = Some (Db.row_set_status "busy" row)
      /\ forall k, k <> mid ->
           db (world (with_status mid "busy" st)) !! k = db (world st) !! k)
     /\
     (row_status row <> "suspended" -> row_status row <> "refresh" ->
      update_master (S fuel) st = (Return tt, st))).
Proof.
  split.
  - intros Hm. cbn [update_master]. unfold bind, get_self. cbn. by rewrite Hm.
  - intros mid row Hm Hrow.
    assert (update_master (S fuel) st
            = (s <- Db.get_status mid ;;
               if String.eqb s "suspended"
               then
                 Db.item_update_status "refresh" mid ;;
                 master_job <- project_load mid ;;
                 r <- call_on master_job _run_if_refresh ;;
                 (if Runmode_eqb (run_mode (server (self st))) thread && process r.2
                  then modify_world (process_communicate r.2)
                  else ret tt) ;;
                 s2 <- Db.get_status mid ;;
                 if String.eqb s2 "busy"
                 then Db.item_update_status "suspended" mid ;; update_master fuel
                 else ret tt
               else
                 s' <- Db.get_status mid ;;
                 if String.eqb s' "refresh"
                 then Db.item_update_status "busy" mid
                 else ret tt) st) as ->.
    { cbn [update_master]. unfold bind at 1, get_self. cbn. by rewrite Hm. }
    rewrite (bind_return _ _ _ _ _ (get_status_eq _ _ _ Hrow)).
    split; [|split].
    + intros Hs h master_job' st2 row2 Hh Hcall Hrow2.
      rewrite Hs. cbn [String.eqb Ascii.eqb Bool.eqb andb].
      rewrite bind_eq, item_update_status_eq.
      fold (with_status mid "refresh" st).
      assert (db (world (with_status mid "refresh" st)) !! mid
              = Some (Db.row_set_status "refresh" row)) as Hrow1
        by by apply set_status_in_lookup.
      erewrite bind_return; [|exact (project_load_eq _ _ h _ Hrow1 Hh)].
      erewrite bind_return; [|exact Hcall].
      cbn [snd].
      assert ((if Runmode_eqb (run_mode (server (self st))) thread
                  && process master_job'
               then modify_world (process_communicate master_job')
               else ret tt) st2
              = (Return tt, waited (self st) master_job' st2)) as Hwait.
      { unfold waited. destruct (_ && _); [done|]. by destruct st2. }
      erewrite bind_return; [|exact Hwait].
      rewrite (bind_return _ _ _ _ _ (get_status_eq _ _ _ Hrow2)).
      destruct (String.eqb (row_status row2) "busy"); [|done].
      by rewrite bind_eq, item_update_status_eq.
    + intros Hs. rewrite Hs. cbn [String.eqb Ascii.eqb Bool.eqb andb].
      rewrite (bind_return _ _ _ _ _ (get_status_eq _ _ _ Hrow)).
      rewrite Hs. cbn [String.eqb Ascii.eqb Bool.eqb andb].
      rewrite item_update_status_eq. split; [done|]. split.
      * by apply set_status_in_lookup.
      * intros k Hk. by apply set_status_in_other.
    + intros Hs1 Hs2.
      apply String.eqb_neq in Hs1, Hs2. rewrite Hs1.
      rewrite (bind_return _ _ _ _ _ (get_status_eq _ _ _ Hrow)).
      by rewrite Hs2.
Qed.

End MasterCoordinator.

(** C1 at a child (id 2) of master 1: a suspended master that a sibling
    overtakes is set back to 'suspended' and served again; a master in
    'refresh' is marked 'busy'; a finished master is left alone; and for a
    job without a master nothing happens. *)
Lemma update_master_protocol_witness :
  update_master (JT := Examples.overtaken_master) (Env := Examples.quiet_env)
                2 (Examples.child_state "suspended")
  = update_master (JT := Examples.overtaken_master) (Env := Examples.quiet_env)
                  1 (with_status 1 "suspended" Examples.overtaken_call.2)
  /\ update_master (JT := Examples.base_job) (Env := Examples.quiet_env)
                   1 (Examples.child_state "refresh")
     = (Return tt, with_status 1 "busy" (Examples.child_state "refresh"))
  /\ update_master (JT := Examples.base_job) (Env := Examples.quiet_env)
                   1 (Examples.child_state "finished")
     = (Return tt, Examples.child_state "finished")
  /\ update_master (JT := Examples.base_job) (Env := Examples.quiet_env)
                   1 (Examples.stored_state "finished")
     = (Return tt, Examples.stored_state "finished").
Proof.
  split; [|split; [|split]].
  - exact (proj1 (proj2 (update_master_protocol
                           (JT := Examples.overtaken_master)
                           (Env := Examples.quiet_env)
                           1 (Examples.child_state "suspended"))
                        1 (Examples.row0 "master" "suspended" None None)
                        eq_refl eq_refl)
                 eq_refl (Examples.hdf0 "master")
                 Examples.overtaken_master_after
                 Examples.overtaken_call.2
                 (Db.row_set_status "busy"
                    (Examples.row0 "master" "suspended" None None))
                 eq_refl eq_refl eq_refl).
  - apply (proj1 (proj2 (proj2 (update_master_protocol
                           (JT := Examples.base_job)
                           (Env := Examples.quiet_env)
                           0 (Examples.child_state "refresh"))
                        1 (Examples.row0 "master" "refresh" None None)
                        eq_refl eq_refl))).
    reflexivity.
  - apply (proj2 (proj2 (proj2 (update_master_protocol
                           (JT := Examples.base_job)
                           (Env := Examples.quiet_env)
                           0 (Examples.child_state "finished"))
                        1 (Examples.row0 "master" "finished" None None)
                        eq_refl eq_refl))).
    + discriminate.
    + discriminate.
  - apply (proj1 (update_master_protocol
                    (JT := Examples.base_job) (Env := Examples.quiet_env)
                    0 (Examples.stored_state "finished"))).
    reflexivity.
Defined.

(** The replay in full: with fuel for two rounds the overtaken master is
    served twice and the protocol returns. *)
Example update_master_replays_the_wake :
  let r := update_master (JT := Examples.overtaken_master)
                         (Env := Examples.quiet_env)
                         2 (Examples.child_state "suspended") in
  r.1 = Return tt
  /\ journal r.2 = [EvStatus 1 "refresh"; EvStatus 1 "suspended";
                    EvStatus 1 "busy"; EvStatus 1 "refresh"].
Proof. by vm_compute. Qed.

(** ** The dispatcher *)

Section Dispatcher.

Context {JT : JobType} {Env : Environment}.

(** Without [run_again] and [repair] the prologue hands the status string
    of the job to the dispatch. *)
Lemma run_prologue_plain (args : RunArgs) (st : St) :
  validate_ready_to_run st = (Return tt, st) ->
  run_again args = false ->
  repair args = false ->
  run_prologue args st
  = (Return (status_string (status (self st))), entered args st).
Proof.
  intros Hv Ha Hr. unfold run_prologue.
  rewrite (bind_return _ _ _ _ _ Hv).
  unfold bind, get_self, emit, modify_self, ret, entered.
  rewrite Ha, Hr. cbn.
  by destruct (run_mode_override args).
Qed.

(** A status string outside the comparisons of the dispatch selects no
    handler. *)
Lemma dispatch_none um rec args s :
  dispatched s = false -> dispatch um rec args s = ret tt.
Proof.
  unfold dispatched. cbn [existsb]. intros H.
  repeat (apply orb_false_iff in H as [? H]).
  unfold dispatch.
  repeat match goal with
         | Heq : String.eqb s _ = false |- _ => rewrite Heq; clear Heq
         end.
  done.
Qed.

Lemma run_without_handler (fuel : nat) (args : RunArgs) (st : St) :
  validate_ready_to_run st = (Return tt, st) ->
  run_again args = false ->
  repair args = false ->
  dispatched (status_string (status (self st))) = false ->
  run (S fuel) args st = (Return tt, entered args st).
Proof.
  intros Hv Ha Hr Hd. cbn [run]. unfold run_guard, try_except, run_body.
  rewrite (bind_return _ _ _ _ _ (run_prologue_plain _ _ Hv Ha Hr)).
  by rewrite dispatch_none.
Qed.


(** C8.  From 'aborted', [run] without [run_again] and [repair] selects no
    handler and returns; the world (the persisted record in it) and the
    job's status are as before, and so they are after any number of such
    calls, each of which returns.  (Validation is taken to pass, as it does
    in [GenericJob].) *)
Theorem run_from_aborted_is_noop (fuel : nat) (args : RunArgs) (st : St) :
  validation_passes ->
  run_again args = false ->
  repair args = false ->
  status_string (status (self st)) = "aborted" ->
  (forall um rec, dispatch um rec args "aborted" = ret tt)
  /\ run (S fuel) args st = (Return tt, entered args st)
  /\ forall n,
       let st' := run_repeatedly (S fuel) args n st in
       world st' = world st
       /\ status (self st') = status (self st)
       /\ (run (S fuel) args st').1 = Return tt.
Proof.
  intros Hv Ha Hr Hs. split; [done|].
  assert (forall s, status_string (status (self s)) = "aborted" ->
                    run (S fuel) args s = (Return tt, entered args s)) as Hrun.
  { intros s Hs'. apply run_without_handler; try done. by rewrite Hs'. }
  split; [by apply Hrun|].
  assert (forall s, status (self (entered args s)) = status (self s)) as Hkeep.
  { intros s. unfold entered. cbn. by destruct (run_mode_override args). }
  intros n. cbn zeta.
  assert (world (run_repeatedly (S fuel) args n st) = world st
          /\ status (self (run_repeatedly (S fuel) args n st)) = status (self st))
    as [Hw Hst].
  { induction n as [|n [IHw IHs]]; [done|].
    unfold run_repeatedly in *. rewrite Nat.iter_succ.
    rewrite Hrun by (by rewrite IHs). cbn [snd].
    rewrite Hkeep. by split. }
  split; [done|]. split; [done|].
  rewrite Hrun; [done|]. by rewrite Hst.
Qed.

(** C2, where the code departs from the spec.  The dispatch compares the
    status string with 'suspend', while a suspended job carries
    'suspended': [run] with default arguments selects no handler for it,
    [_run_if_suspended] is not reached, and the job's status and the world
    stay as they were, 'suspended' and not 'refresh'.  (Validation is
    taken to pass.) *)
Theorem run_from_suspended_stays_suspended (fuel : nat) (st : St) :
  validation_passes ->
  status_string (status (self st)) = "suspended" ->
  run (S fuel) default_args st = (Return tt, entered default_args st)
  /\ status_string (status (self (entered default_args st))) = "suspended"
  /\ world (entered default_args st) = world st
  /\ (forall um rec args, dispatch um rec args "suspended" = ret tt)
  /\ (forall um rec args,
        dispatch um rec args "suspend" = _run_if_suspended rec).
Proof.
  intros Hv Hs. split.
  - apply run_without_handler; try done. by rewrite Hs.
  - by repeat split.
Qed.

End Dispatcher.

(** C8 on the job persisted under id 5 as 'aborted'. *)
Lemma run_from_aborted_is_noop_witness :
  run (JT := Examples.base_job) (Env := Examples.quiet_env)
      1 default_args (Examples.stored_state "aborted")
  = (Return tt, entered default_args (Examples.stored_state "aborted")).
Proof.
  apply (run_from_aborted_is_noop (JT := Examples.base_job)
           (Env := Examples.quiet_env) 0 default_args
           (Examples.stored_state "aborted")).
  - intros st. reflexivity.
  - reflexivity.
  - reflexivity.
  - reflexivity.
Defined.

(** C2 on the job persisted under id 5 as 'suspended': after [run()] the
    job and its record are still 'suspended'. *)
Lemma run_from_suspended_stays_suspended_witness :
  let r := run (JT := Examples.base_job) (Env := Examples.quiet_env)
               1 default_args (Examples.stored_state "suspended") in
  r.1 = Return tt
  /\ status_string (status (self r.2)) = "suspended"
  /\ (row_status <$> db (world r.2) !! 5) = Some "suspended".
Proof.
  destruct (run_from_suspended_stays_suspended (JT := Examples.base_job)
              (Env := Examples.quiet_env) 0 (Examples.stored_state "suspended"))
    as (Hrun & Hst & Hw & _).
  - intros st. reflexivity.
  - reflexivity.
  - cbn zeta. rewrite Hrun. cbn [fst snd]. split; [done|]. split; [exact Hst|].
    rewrite Hw. reflexivity.
Defined.

(** ** The guard of [run] and the signal handler *)

Section SignalGuard.

Context {JT : JobType} {Env : Environment}.

Lemma drop_status_to_aborted_eq (st : St) (id : Z) (row : DbRow) :
  job_id (self st) = Some id ->
  id <> 0 ->
  db (world st) !! id = Some row ->
  drop_status_to_aborted st = (Return tt, dropped id row st).
Proof.
  intros Hid Hnz Hrow.
  unfold drop_status_to_aborted, refresh_job_status.
  rewrite bind_eq. rewrite bind_eq. unfold get_self at 1. rewrite Hid.
  unfold if_id. destruct (Z.eqb_spec id 0) as [|_]; [done|].
  rewrite (bind_return _ _ _ _ _ (get_status_eq _ _ _ Hrow)).
  unfold modify_self at 1. rewrite bind_eq. unfold get_self at 1.
  cbn [self world journal].
  unfold dropped, Project.status_in, Status.is_. cbn [existsb].
  cbn [status set_status Status.new status_string].
  rewrite orb_false_r.
  destruct (String.eqb (row_status row) "finished"
            || String.eqb (row_status row) "suspended"); cbn [negb].
  - done.
  - rewrite status_set_eq. cbn [self status set_status status_job_id Status.new].
    unfold if_id. destruct (Z.eqb_spec id 0) as [|_]; [done|].
    reflexivity.
Qed.


End SignalGuard.


(** ** The [run_again] reset *)

Section RunAgain.

Context {JT : JobType} {Env : Environment}.

Lemma remove_eq (st : St) (id : Z) :
  job_id (self st) = Some id ->
  id <> 0 ->
  remove st
  = (Return tt,
     mkSt (self st) (removed (self st) id (world st)) (EvDelete id :: journal st)).
Proof.
  intros Hid Hnz. unfold remove.
  rewrite bind_eq. unfold get_self at 1. rewrite bind_eq.
  unfold modify_world at 1. rewrite Hid. unfold if_id.
  destruct (Z.eqb_spec id 0) as [|_]; [done|]. reflexivity.
Qed.

Lemma run_reset_eq (st : St) (id : Z) :
  job_id (self st) = Some id ->
  id <> 0 ->
  run_reset st
  = (Return tt,
     mkSt (reset_job (self st)) (removed (self st) id (world st))
          (EvDelete id :: journal st)).
Proof.
  intros Hid Hnz. unfold run_reset.
  rewrite bind_eq. unfold get_self at 1.
  rewrite (bind_return _ _ _ _ _ (remove_eq _ _ Hid Hnz)).
  reflexivity.
Qed.

(** What [remove] leaves of the job in the world: nothing. *)
Lemma removed_nothing_left (j : GenericJob) (id : Z) (w : World) :
  db (removed j id w) !! id = None
  /\ hdf (removed j id w) !! job_name j = None
  /\ (working_directory j ∉ dirs (removed j id w))
  /\ forall p, inside (working_directory j) p = true ->
               files (removed j id w) !! p = None.
Proof.
  unfold removed, remove_artifacts. cbn. repeat split.
  - apply lookup_delete_eq.
  - apply lookup_delete_eq.
  - apply not_elem_of_difference. right. by apply elem_of_singleton.
  - intros p Hp. apply map_lookup_filter_None. right.
    intros c _. cbn [fst]. by rewrite Hp.
Qed.

End RunAgain.

(** ** The links of a job are left alone *)

Section Links.

Lemma keeps_ret {A} (a : A) : keeps_links (ret a).
Proof. by intros st. Qed.

Lemma keeps_raise {A} (e : exn) : keeps_links (raise (A := A) e).
Proof. by intros st. Qed.

Lemma keeps_out_of_fuel {A} : keeps_links (out_of_fuel (A := A)).
Proof. by intros st. Qed.

Lemma keeps_get_self : keeps_links get_self.
Proof. by intros st. Qed.

Lemma keeps_get_world : keeps_links get_world.
Proof. by intros st. Qed.

Lemma keeps_set_world w : keeps_links (set_world w).
Proof. by intros st. Qed.

Lemma keeps_modify_world f : keeps_links (modify_world f).
Proof. by intros st. Qed.

Lemma keeps_emit e : keeps_links (emit e).
Proof. by intros st. Qed.

Lemma keeps_modify_self f :
  (forall j, links (f j) = links j) -> keeps_links (modify_self f).
Proof. intros H st. apply H. Qed.

Lemma keeps_bind {A B} (m : M A) (k : A -> M B) :
  keeps_links m -> (forall a, keeps_links (k a)) -> keeps_links (bind m k).
Proof.
  intros Hm Hk st. specialize (Hm st). unfold bind.
  destruct (m st) as [[a|e|] st']; cbn in *; [|done|done].
  by rewrite Hk.
Qed.

Lemma keeps_try_except {A} sel (m : M A) (h : exn -> M A) :
  keeps_links m -> (forall e, keeps_links (h e)) ->
  keeps_links (try_except sel m h).
Proof.
  intros Hm Hh st. specialize (Hm st). unfold try_except.
  destruct (m st) as [[a|e|] st']; cbn in *; [done| |done].
  destruct (sel e); [|done]. by rewrite Hh.
Qed.

Lemma keeps_with_object {A} o (m : M A) : keeps_links (with_object o m).
Proof. intros st. unfold with_object. by destruct (m _). Qed.

Lemma keeps_call_on {A} o (m : M A) : keeps_links (call_on o m).
Proof. intros st. unfold call_on. by destruct (m _) as [[]]. Qed.

Lemma keeps_for_each {A} (l : list A) (body : A -> M unit) :
  (forall x, keeps_links (body x)) -> keeps_links (for_each l body).
Proof.
  intros H. induction l as [|x l IH]; cbn [for_each].
  - apply keeps_ret.
  - apply keeps_bind; [apply H | by intros _].
Qed.

Lemma keeps_if_id {A} (i : option Z) (yes : Z -> M A) (no : M A) :
  (forall z, keeps_links (yes z)) -> keeps_links no ->
  keeps_links (if_id i yes no).
Proof.
  intros Hy Hn. unfold if_id. destruct i as [z|]; [|done].
  by destruct (z =? 0).
Qed.

End Links.

(** One step of a proof that a computation keeps the links: a rule of the
    monad, a case split on what the code branches on, or a fact at hand. *)
Ltac keeps_step :=
  lazymatch goal with
  | |- keeps_links (bind _ _) => apply keeps_bind; [|intros ?]
  | |- keeps_links (ret _) => apply keeps_ret
  | |- keeps_links (raise _) => apply keeps_raise
  | |- keeps_links out_of_fuel => apply keeps_out_of_fuel
  | |- keeps_links get_self => apply keeps_get_self
  | |- keeps_links get_world => apply keeps_get_world
  | |- keeps_links (set_world _) => apply keeps_set_world
  | |- keeps_links (modify_world _) => apply keeps_modify_world
  | |- keeps_links (emit _) => apply keeps_emit
  | |- keeps_links (modify_self _) => apply keeps_modify_self; by intros []
  | |- keeps_links (try_except _ _ _) => apply keeps_try_except; [|intros ?]
  | |- keeps_links (with_object _ _) => apply keeps_with_object
  | |- keeps_links (call_on _ _) => apply keeps_call_on
  | |- keeps_links (for_each _ _) => apply keeps_for_each; intros ?
  | |- keeps_links (if_id _ _ _) => apply keeps_if_id; [intros ?|]
  | |- keeps_links (if ?b then _ else _) => destruct b
  | |- keeps_links (match ?x with _ => _ end) => destruct x
  | |- keeps_links (let _ := _ in _) => cbv zeta
  | |- keeps_links _ => first [eassumption | by eauto]
  end.

Ltac keeps := repeat keeps_step.

Section LinksOfTheEngine.

Context {JT : JobType} {Env : Environment}.
Hypothesis Hhooks : hooks_keep_links.

Lemma keeps_item_update_status s id : keeps_links (Db.item_update_status s id).
Proof. unfold Db.item_update_status. keeps. Qed.

Lemma keeps_get_status id : keeps_links (Db.get_status id).
Proof. unfold Db.get_status, Db.get_item_by_id. keeps. Qed.

Lemma keeps_status_set s : keeps_links (Status.set s).
Proof.
  intros st. rewrite status_set_eq. unfold if_id.
  destruct (status_job_id _) as [z|]; [|done]. by destruct (z =? 0).
Qed.

Lemma keeps_now : keeps_links now.
Proof. unfold now. keeps. Qed.

Lemma keeps_write_file p c : keeps_links (write_file p c).
Proof. unfold write_file. keeps. Qed.

Lemma keeps_project_load id : keeps_links (project_load id).
Proof. unfold project_load. keeps. Qed.

Lemma keeps_refresh_job_status : keeps_links refresh_job_status.
Proof.
  unfold refresh_job_status. keeps; try apply keeps_get_status.
Qed.

Lemma keeps_drop_status_to_aborted : keeps_links drop_status_to_aborted.
Proof.
  unfold drop_status_to_aborted. keeps;
    first [apply keeps_refresh_job_status | apply keeps_status_set].
Qed.

Lemma remove_keeps_self st : self (remove st).2 = self st.
Proof.
  unfold remove, bind, get_self, modify_world, if_id. cbn.
  destruct (job_id (self st)) as [z|]; [|done]. by destruct (z =? 0).
Qed.

Lemma remove_returns st : (remove st).1 = Return tt.
Proof.
  unfold remove, bind, get_self, modify_world, if_id. cbn.
  destruct (job_id (self st)) as [z|]; [|done]. by destruct (z =? 0).
Qed.

Lemma keeps_remove : keeps_links remove.
Proof. intros st. by rewrite remove_keeps_self. Qed.

Lemma keeps_run_reset : keeps_links run_reset.
Proof.
  intros st. unfold run_reset. rewrite bind_eq. unfold get_self at 1.
  rewrite bind_eq.
  pose proof (remove_keeps_self st) as Hs. pose proof (remove_returns st) as Hr.
  destruct (remove st) as [r st']. cbn in Hs, Hr. subst r.
  cbn. by rewrite Hs.
Qed.

Lemma keeps_to_hdf : keeps_links to_hdf.
Proof. unfold to_hdf, _executable_activate_mpi. keeps. Qed.

Lemma keeps_server_to_hdf : keeps_links server_to_hdf.
Proof. unfold server_to_hdf. keeps. Qed.

Lemma keeps_from_hdf : keeps_links from_hdf.
Proof.
  intros st. unfold from_hdf, hdf_read, bind, get_self, get_world, set_self.
  cbn. by destruct (hdf (world st) !! job_name (self st)).
Qed.

Lemma keeps_save : keeps_links save.
Proof.
  unfold save, db_entry, Db.add_item_dict. keeps;
    first [apply keeps_to_hdf | apply keeps_now | apply keeps_refresh_job_status].
Qed.

Lemma keeps_copy_restart_files : keeps_links _copy_restart_files.
Proof.
  unfold _copy_restart_files, shutil_copy. keeps; apply keeps_write_file.
Qed.

Lemma keeps_update_master fuel : keeps_links (update_master fuel).
Proof.
  induction fuel as [|fuel IH]; cbn [update_master]; [apply keeps_out_of_fuel|].
  keeps; first [apply keeps_get_status | apply keeps_item_update_status
               | apply keeps_project_load | exact IH].
Qed.

Section WithRun.

Variable rec : RunArgs -> M unit.
Hypothesis Hrec : forall a, keeps_links (rec a).
Variable um : M unit.
Hypothesis Hum : keeps_links um.

Lemma keeps_calculate_predecessor : keeps_links (_calculate_predecessor rec).
Proof.
  unfold _calculate_predecessor. keeps;
    first [apply keeps_get_status | apply keeps_status_set
          | apply keeps_project_load].
Qed.

Lemma keeps_calculate_successor : keeps_links (_calculate_successor rec).
Proof.
  destruct Hhooks as (_ & _ & _ & _ & _ & _ & _ & Hb).
  unfold _calculate_successor, wake_child. keeps;
    first [apply keeps_get_status | apply keeps_project_load | apply Hb].
Qed.

Lemma keeps_create_job_structure dbg :
  keeps_links (_create_job_structure rec dbg).
Proof.
  destruct Hhooks as (_ & Hw & _).
  unfold _create_job_structure, create_working_directory, _write_run_wrapper.
  keeps;
    first [apply keeps_copy_restart_files | exact Hw | apply keeps_save
          | apply keeps_write_file | apply keeps_status_set
          | apply keeps_calculate_predecessor].
Qed.

Lemma keeps_run_if_modal : keeps_links (run_if_modal rec).
Proof.
  unfold run_if_modal, check_output, modal_failure, Db.item_update_timestart.
  keeps;
    first [apply keeps_status_set | apply keeps_now | apply keeps_write_file
          | apply Hrec].
Qed.

Lemma keeps_run_if_created wait : keeps_links (_run_if_created rec wait).
Proof.
  unfold _run_if_created, run_if_manually, run_if_non_modal, run_if_scheduler.
  keeps;
    first [apply keeps_status_set | apply keeps_run_if_modal
          | apply keeps_write_file | apply keeps_server_to_hdf].
Qed.

Lemma keeps_run_if_new dbg wait : keeps_links (_run_if_new rec dbg wait).
Proof.
  destruct Hhooks as (_ & _ & _ & _ & Hl & _).
  unfold _run_if_new. keeps;
    first [exact Hl | apply keeps_refresh_job_status | apply keeps_status_set
          | apply keeps_create_job_structure | apply Hrec].
Qed.

Lemma keeps_run_if_collect : keeps_links (_run_if_collect um rec).
Proof.
  destruct Hhooks as (_ & _ & Ho & Hlg & _).
  unfold _run_if_collect, _runtime, Db.get_timestart, Db.get_item_by_id,
    Db.item_update_runtime, send_to_database.
  keeps;
    first [exact Ho | exact Hlg | apply keeps_now | apply keeps_status_set
          | exact Hum | apply keeps_calculate_successor].
Qed.

Lemma keeps_run_if_finished again : keeps_links (_run_if_finished um rec again).
Proof.
  unfold _run_if_finished. destruct again.
  - intros st. rewrite bind_eq. unfold get_self at 1.
    rewrite bind_eq. unfold modify_self at 1. rewrite bind_eq.
    set (st0 := mkSt (set_parent_id None (self st)) (world st) (journal st)).
    pose proof (remove_keeps_self st0) as Hs.
    pose proof (remove_returns st0) as Hr.
    destruct (remove st0) as [r st1]. cbn in Hs, Hr. subst r.
    rewrite bind_eq. unfold modify_self at 1. rewrite bind_eq.
    rewrite status_set_eq. cbn [self world journal].
    unfold if_id.
    destruct (status_job_id _) as [z|]; [destruct (z =? 0)|];
      rewrite bind_eq; unfold modify_self at 1; cbn [self world journal with_status];
      rewrite Hrec; cbn; by rewrite Hs.
  - keeps; first [apply keeps_from_hdf | exact Hum].
Qed.

Lemma keeps_run_prologue args : keeps_links (run_prologue args).
Proof.
  destruct Hhooks as (Hv & _).
  unfold run_prologue. keeps; first [exact Hv | apply keeps_run_reset].
Qed.

Lemma keeps_dispatch args s : keeps_links (dispatch um rec args s).
Proof.
  destruct Hhooks as (_ & _ & _ & _ & _ & Hrf & Hb & _).
  unfold dispatch, _run_if_submitted, _run_if_running, _run_if_suspended.
  keeps;
    first [apply keeps_run_if_new | apply keeps_run_if_created
          | apply keeps_run_if_collect | apply keeps_status_set
          | exact Hrf | exact Hb | apply keeps_run_if_finished | apply Hrec].
Qed.

End WithRun.

(** Whatever the arguments, the fuel and the outcome, [run] leaves the
    master and the parent of the job as they were. *)
Lemma keeps_run fuel : forall args, keeps_links (run fuel args).
Proof.
  induction fuel as [|fuel IH]; intros args; cbn [run].
  - apply keeps_out_of_fuel.
  - unfold run_guard, run_body. keeps;
      first [apply keeps_run_prologue | apply keeps_dispatch; try done
            | apply keeps_drop_status_to_aborted].
    apply keeps_update_master.
Qed.

End LinksOfTheEngine.

Section RunAgainClaim.

Context {JT : JobType} {Env : Environment}.

Lemma entered_job_id args st : job_id (self (entered args st)) = job_id (self st).
Proof. unfold entered. cbn. by destruct (run_mode_override args). Qed.

Lemma entered_links args st : links (self (entered args st)) = links (self st).
Proof. unfold entered. cbn. by destruct (run_mode_override args). Qed.

Lemma run_prologue_again (args : RunArgs) (st : St) (id : Z) :
  validate_ready_to_run st = (Return tt, st) ->
  run_again args = true ->
  job_id (self st) = Some id ->
  id <> 0 ->
  run_prologue args st
  = (Return "initialized",
     mkSt (reset_job (self (entered args st)))
          (removed (self (entered args st)) id (world st))
          (EvDelete id :: journal (entered args st))).
Proof.
  intros Hv Ha Hid Hnz. unfold run_prologue.
  rewrite (bind_return _ _ _ _ _ Hv).
  rewrite bind_eq. unfold get_self at 1. rewrite bind_eq. unfold emit at 1.
  assert (forall k : unit -> M string,
            bind match run_mode_override args with
                 | Some m => modify_self (set_run_mode m)
                 | None => ret tt
                 end k
                 (mkSt (self st) (world st) (EvRun (job_name (self st)) :: journal st))
            = k tt (entered args st)) as ->.
  { intros k. unfold entered. by destruct (run_mode_override args). }
  rewrite bind_eq. unfold get_self at 1.
  rewrite Ha, entered_job_id, Hid. cbn [truthy andb].
  destruct (Z.eqb_spec id 0) as [|_]; [done|]. cbn [negb].
  rewrite bind_eq, bind_eq.
  rewrite (run_reset_eq (entered args st) id) by (by rewrite ?entered_job_id).
  unfold ret at 1. rewrite bind_eq. unfold get_self at 1.
  cbn [self job_id reset_job set_parent_id set_master_id set_status set_job_id truthy].
  by rewrite andb_false_r.
Qed.

(** C4.  For a job with an id, [run(run_again=True)] first removes the
    job's artifacts (stored object, working directory and the files in it)
    and its record, clears the id and makes the status 'initialized', with
    master and parent as they were; the dispatch then goes on from there as
    for a new job.  And when the call is over, however it ends, master and
    parent are still what they were before it (extension points leaving
    them alone).  (Validation is taken to pass.) *)
Theorem run_again_resets_and_keeps_links
    (fuel : nat) (args : RunArgs) (st : St) (id : Z) :
  validate_ready_to_run st = (Return tt, st) ->
  run_again args = true ->
  job_id (self st) = Some id ->
  id <> 0 ->
  let st1 := mkSt (reset_job (self (entered args st)))
                  (removed (self (entered args st)) id (world st))
                  (EvDelete id :: journal (entered args st)) in
  run_prologue args st = (Return "initialized", st1)
  /\ run (S fuel) args st
     = run_guard (_run_if_new (run fuel) (debug args) (que_wait_for args)) st1
  /\ job_id (self st1) = None
  /\ status (self st1) = mkJobStatus "initialized" None
  /\ master_id (self st1) = master_id (self st)
  /\ parent_id (self st1) = parent_id (self st)
  /\ db (world st1) !! id = None
  /\ hdf (world st1) !! job_name (self st) = None
  /\ (working_directory (self st) ∉ dirs (world st1))
  /\ (forall p, inside (working_directory (self st)) p = true ->
                files (world st1) !! p = None)
  /\ (hooks_keep_links ->
      master_id (self (run (S fuel) args st).2) = master_id (self st)
      /\ parent_id (self (run (S fuel) args st).2) = parent_id (self st)).
Proof.
  intros Hv Ha Hid Hnz st1.
  pose proof (run_prologue_again args st id Hv Ha Hid Hnz) as Hp.
  fold st1 in Hp.
  pose proof (entered_links args st) as Hl. unfold links in Hl.
  injection Hl as Hm Hpa.
  assert (job_name (self (entered args st)) = job_name (self st)
          /\ working_directory (self (entered args st))
             = working_directory (self st)) as [Hn Hwd].
  { unfold entered. cbn. by destruct (run_mode_override args). }
  destruct (removed_nothing_left (self (entered args st)) id (world st))
    as (Hdb & Hhdf & Hdirs & Hfiles).
  rewrite Hn in Hhdf. rewrite Hwd in Hdirs, Hfiles.
  split; [done|]. split.
  { cbn [run]. unfold run_guard, try_except, run_body.
    by rewrite (bind_return _ _ _ _ _ Hp). }
  do 8 (split; [done|]).
  intros Hhooks.
  pose proof (keeps_run Hhooks (S fuel) args st) as Hk. unfold links in Hk.
  injection Hk as Hk1 Hk2. by split.
Qed.

End RunAgainClaim.

(** C4 on the finished job 3 with master 1 and parent 2: after the reset
    the record is gone, the id cleared, the status 'initialized', and the
    links are 1 and 2; at the end of the whole call (here the job type
    cannot write its input and the call raises) they still are. *)
Lemma run_again_resets_and_keeps_links_witness :
  let args := mkArgs true false false None None in
  let st1 := (run_prologue (JT := Examples.base_job) args Examples.linked_state).2 in
  let st2 := (run (JT := Examples.base_job) (Env := Examples.quiet_env)
                  3 args Examples.linked_state).2 in
  (job_id (self st1) = None
   /\ status (self st1) = mkJobStatus "initialized" None
   /\ master_id (self st1) = Some 1
   /\ parent_id (self st1) = Some 2
   /\ db (world st1) !! 3 = None)
  /\ master_id (self st2) = Some 1
  /\ parent_id (self st2) = Some 2.
Proof.
  intros args st1 st2.
  destruct (run_again_resets_and_keeps_links (JT := Examples.base_job)
              (Env := Examples.quiet_env) 2 args Examples.linked_state 3)
    as (Hp & _ & Hid & Hst & Hm & Hpa & Hdb & _ & _ & _ & Hk).
  - reflexivity.
  - reflexivity.
  - reflexivity.
  - lia.
  - split.
    + subst st1. rewrite Hp. cbn [snd]. repeat split; assumption.
    + apply Hk. unfold hooks_keep_links. cbn.
      repeat split; try (by intros st); by intros child st.
Defined.

(** ** Modal execution *)

Section ProcessExecutor.

Context {JT : JobType} {Env : Environment}.

(** The status setter always returns; what it changes. *)
Lemma status_set_returns (s : string) (st : St) :
  Status.set s st = (Return tt, (Status.set s st).2).
Proof.
  rewrite status_set_eq. unfold if_id.
  destruct (status_job_id _) as [z|]; [|done]. by destruct (z =? 0).
Qed.

Lemma status_set_self (s : string) (st : St) :
  self (Status.set s st).2
  = set_status (mkJobStatus s (status_job_id (status (self st)))) (self st).
Proof.
  rewrite status_set_eq. unfold if_id.
  destruct (status_job_id _) as [z|]; [|done]. by destruct (z =? 0).
Qed.

Lemma status_set_world (s : string) (st : St) :
  world (Status.set s st).2
  = set_db (status_written (status_job_id (status (self st))) s (db (world st)))
           (world st).
Proof.
  rewrite status_set_eq. unfold status_written, if_id.
  destruct (status_job_id _) as [z|]; [destruct (z =? 0)|];
    cbn; by destruct (world st).
Qed.

Lemma modal_launch_eq (k : GenericJob -> M unit) (st : St) :
  (Status.set "running" ;;
   t <- now ;;
   j <- get_self ;;
   match job_id j with
   | Some id' => Db.item_update_timestart t id'
   | None => ret tt
   end ;;
   k j) st
  = k (self (modal_launch st)) (modal_launch st).
Proof.
  rewrite (bind_return _ _ _ _ _ (status_set_returns "running" st)).
  unfold modal_launch. cbv zeta.
  destruct (Status.set "running" st).2 as [j1 w1 jr1].
  unfold now, Db.item_update_timestart, bind, get_world, set_world, get_self,
    modify_world, ret.
  cbn [self world journal].
  by destruct (job_id j1).
Qed.

Lemma modal_launch_self (st : St) :
  self (modal_launch st)
  = set_status (mkJobStatus "running" (status_job_id (status (self st)))) (self st).
Proof. unfold modal_launch. cbn [self]. apply status_set_self. Qed.

(** C5.  [run_if_modal], the workload being launched in the state
    [modal_launch st].  If the workload exits non-zero, its captured output
    is written to the file 'error.msg' of the working directory, the status
    of the job (and of its record, through the status object) is 'aborted',
    and a [RuntimeError] is raised.  If it exits zero, the status of the job
    (and of its record) is set to 'collect', the file system is as the
    workload left it (no 'error.msg' is written), and [run] is called
    again, where the dispatch selects [_run_if_collect]. *)
Theorem run_if_modal_outcomes (rec : RunArgs -> M unit) (st : St) :
  let st0 := modal_launch st in
  let r := subprocess_run (modal_command (self st0)) (working_directory (self st))
                          (world st0) in
  let error_file := posixpath_join (working_directory (self st)) "error.msg" in
  let sid := status_job_id (status (self st)) in
  (r.1.1 <> 0 ->
   exists st',
     run_if_modal rec st = (Raise (RuntimeError "Job aborted"), st')
     /\ files (world st') = <[error_file := r.1.2]> (files r.2)
     /\ files (world st') !! error_file = Some r.1.2
     /\ status_string (status (self st')) = "aborted"
     /\ db (world st') = status_written sid "aborted" (db r.2))
  /\
  (r.1.1 = 0 ->
   exists st',
     run_if_modal rec st = rec default_args st'
     /\ status_string (status (self st')) = "collect"
     /\ db (world st') = status_written sid "collect" (db r.2)
     /\ files (world st') = files r.2
     /\ forall fuel,
          validate_ready_to_run st' = (Return tt, st') ->
          run (S fuel) default_args st'
          = run_guard (_run_if_collect (update_master fuel) (run fuel))
                      (entered default_args st')).
Proof.
  intros st0 r error_file sid.
  assert (run_if_modal rec st
          = (out <- try_except is_CalledProcessError
                      (check_output (modal_command (self st0))
                                    (working_directory (self st0)))
                      modal_failure ;;
             Status.set "collect" ;;
             rec default_args) st0) as ->.
  { unfold run_if_modal.
    exact (modal_launch_eq
      (fun j => out <- try_except is_CalledProcessError
                  (check_output (modal_command j) (working_directory j))
                  modal_failure ;;
                Status.set "collect" ;;
                rec default_args) st). }
  pose proof (modal_launch_self st) as Hself. fold st0 in Hself.
  assert (status_job_id (status (self st0)) = sid) as Hsid0
    by (by rewrite Hself).
  assert (working_directory (self st0) = working_directory (self st)) as Hwd
    by (by rewrite Hself).
  rewrite Hwd.
  assert (check_output (modal_command (self st0)) (working_directory (self st)) st0
          = (if r.1.1 =? 0 then Return r.1.2 else Raise (CalledProcessError r.1.2),
             mkSt (self st0) r.2 (journal st0))) as Hco.
  { unfold check_output, bind, get_world, set_world, ret, raise. cbv zeta.
    fold r. by destruct (r.1.1 =? 0). }
  rewrite bind_eq. unfold try_except. rewrite Hco.
  split; intros Hcode.
  - destruct (Z.eqb_spec r.1.1 0) as [|_]; [done|].
    cbn [is_CalledProcessError].
    unfold modal_failure.
    rewrite (bind_return _ _ _ _ _ (status_set_returns "aborted" _)).
    set (st2 := (Status.set "aborted" (mkSt (self st0) r.2 (journal st0))).2).
    assert (self st2 = set_status (mkJobStatus "aborted" sid) (self st0)) as Hs2.
    { unfold st2. rewrite status_set_self. cbn [self]. by rewrite Hsid0. }
    assert (world st2 = set_db (status_written sid "aborted" (db r.2)) r.2) as Hw2.
    { unfold st2. rewrite status_set_world. cbn [self world]. by rewrite Hsid0. }
    unfold bind, get_self, write_file, modify_world, emit, raise.
    cbn [self world journal exn_output].
    eexists. split; [reflexivity|]. cbn [self world].
    rewrite Hs2, Hw2. cbn [files set_files set_db working_directory set_status db
                             status status_string].
    rewrite Hwd. fold error_file.
    split; [done|]. split; [apply lookup_insert_eq|]. by split.
  - rewrite Hcode. cbn [Z.eqb].
    rewrite (bind_return _ _ _ _ _ (status_set_returns "collect" _)).
    set (st2 := (Status.set "collect" (mkSt (self st0) r.2 (journal st0))).2).
    assert (self st2 = set_status (mkJobStatus "collect" sid) (self st0)) as Hs2.
    { unfold st2. rewrite status_set_self. cbn [self]. by rewrite Hsid0. }
    assert (world st2 = set_db (status_written sid "collect" (db r.2)) r.2) as Hw2.
    { unfold st2. rewrite status_set_world. cbn [self world]. by rewrite Hsid0. }
    exists st2. split; [reflexivity|]. rewrite Hs2, Hw2.
    split; [done|]. split; [done|]. split; [done|].
    intros fuel Hv. cbn [run]. unfold run_guard at 1, try_except, run_body.
    rewrite (bind_return _ _ _ _ _
               (run_prologue_plain default_args _ Hv eq_refl eq_refl)).
    by rewrite Hs2.
Qed.

End ProcessExecutor.

(** C5 on the submitted job 5: with the executable "false" (exit status 1)
    the output is in 'error.msg', the record is 'aborted' and a
    [RuntimeError] comes out; with "true" (exit status 0) the job is handed
    to [run] again in 'collect' and no 'error.msg' exists. *)
Lemma run_if_modal_outcomes_witness :
  let rec := run (JT := Examples.example_job) (Env := Examples.quiet_env) 3 in
  let error_file := "/home/pyiron/job_s_hdf5/job_s/error.msg" in
  (exists st',
     run_if_modal (Env := Examples.quiet_env) rec (Examples.submitted_state "false")
     = (Raise (RuntimeError "Job aborted"), st')
     /\ files (world st') !! error_file = Some "segmentation fault"
     /\ status_string (status (self st')) = "aborted"
     /\ (row_status <$> db (world st') !! 5) = Some "aborted")
  /\
  (exists st',
     run_if_modal (Env := Examples.quiet_env) rec (Examples.submitted_state "true")
     = rec default_args st'
     /\ status_string (status (self st')) = "collect"
     /\ files (world st') !! error_file = None).
Proof.
  intros rec error_file. split.
  - destruct (proj1 (run_if_modal_outcomes (JT := Examples.example_job)
                       (Env := Examples.quiet_env) rec
                       (Examples.submitted_state "false")))
      as (st' & Hrun & _ & Hfile & Hst & Hdb).
    + vm_compute. discriminate.
    + exists st'. split; [exact Hrun|]. split; [exact Hfile|].
      split; [exact Hst|]. rewrite Hdb. reflexivity.
  - destruct (proj2 (run_if_modal_outcomes (JT := Examples.example_job)
                       (Env := Examples.quiet_env) rec
                       (Examples.submitted_state "true")))
      as (st' & Hrun & Hst & _ & Hfiles & _).
    + reflexivity.
    + exists st'. split; [exact Hrun|]. split; [exact Hst|].
      rewrite Hfiles. reflexivity.
Defined.

(** The two modal runs of a new job from start to end: the workload that
    exits zero leaves the job 'finished' and no 'error.msg'; the one that
    exits non-zero leaves it 'aborted' with its output in 'error.msg', and
    [run] raises. *)
Example modal_run_succeeds :
  let r := run (JT := Examples.example_job) (Env := Examples.quiet_env)
               4 default_args (Examples.fresh_state "true") in
  r.1 = Return tt
  /\ status_string (status (self r.2)) = "finished"
  /\ (row_status <$> db (world r.2) !! 1) = Some "finished"
  /\ files (world r.2) !! "/home/pyiron/job_a_hdf5/job_a/error.msg" = None.
Proof. by vm_compute. Qed.

Example modal_run_fails :
  let r := run (JT := Examples.example_job) (Env := Examples.quiet_env)
               4 default_args (Examples.fresh_state "false") in
  r.1 = Raise (RuntimeError "Job aborted")
  /\ status_string (status (self r.2)) = "aborted"
  /\ (row_status <$> db (world r.2) !! 1) = Some "aborted"
  /\ files (world r.2) !! "/home/pyiron/job_a_hdf5/job_a/error.msg"
     = Some "segmentation fault".
Proof. by vm_compute. Qed.

(** ** Chains: predecessor and successors *)

Section ChainCoordinator.

Context {JT : JobType} {Env : Environment}.

Lemma bind_return_inv {A B} (m : M A) (k : A -> M B) st b st' :
  bind m k st = (Return b, st') ->
  exists a st1, m st = (Return a, st1) /\ k a st1 = (Return b, st').
Proof.
  unfold bind. destruct (m st) as [[a|e|] st1]; [|done|done].
  intros H. by exists a, st1.
Qed.

Lemma bind_assoc {A B C} (m : M A) (k : A -> M B) (h : B -> M C) st :
  bind (bind m k) h st = bind m (fun a => bind (k a) h) st.
Proof. unfold bind. by destruct (m st) as [[a|e|] st1]. Qed.

Lemma bind_ext {A B} (m : M A) (k1 k2 : A -> M B) st :
  (forall a st', k1 a st' = k2 a st') -> bind m k1 st = bind m k2 st.
Proof. intros H. unfold bind. destruct (m st) as [[a|e|] st1]; by rewrite ?H. Qed.

(** The predecessor is looked at when the rest of the job structure is
    built. *)
Lemma create_job_structure_split rec dbg st :
  _create_job_structure rec dbg st
  = (build_job_structure dbg ;; _calculate_predecessor rec) st.
Proof.
  unfold _create_job_structure, build_job_structure. symmetry.
  repeat (rewrite bind_assoc; apply bind_ext; intros ? ?).
  reflexivity.
Qed.

Lemma build_job_structure_leaves_wrapper dbg st st1 :
  build_job_structure dbg st = (Return tt, st1) ->
  isfile (world st1) (posixpath_join (working_directory (self st1)) "run_job.py")
  = true
  /\ status_string (status (self st1)) = "created".
Proof.
  unfold build_job_structure. intros H.
  apply bind_return_inv in H as (a1 & s1 & _ & H).
  apply bind_return_inv in H as (a2 & s2 & _ & H).
  apply bind_return_inv in H as (a3 & s3 & _ & H).
  apply bind_return_inv in H as (id & s4 & _ & H).
  apply bind_return_inv in H as (a5 & s5 & _ & H).
  apply bind_return_inv in H as (j & s6 & _ & H).
  apply bind_return_inv in H as (a7 & s7 & _ & H).
  apply bind_return_inv in H as (a8 & s8 & Hw & H).
  unfold _write_run_wrapper, write_file, bind, get_self, modify_world, emit in Hw.
  cbn in Hw. simplify_eq.
  rewrite status_set_eq in H. unfold if_id in H. cbn [self world journal] in H.
  assert (forall p c w, isfile (set_files (<[p := c]> (files w)) w) p = true) as Hf.
  { intros p c w. unfold isfile. cbn. rewrite lookup_insert_eq.
    by apply bool_decide_eq_true_2. }
  destruct (status_job_id (status (self s7))) as [z|];
    [destruct (z =? 0)|]; simplify_eq; cbn; (split; [apply Hf | done]).
Qed.

Lemma successor_ids_elem (j : GenericJob) (w : World) (id c : Z) :
  job_id j = Some id ->
  c ∈ successor_ids j w
  <-> exists row, db w !! c = Some row /\ row_parentid row = Some id.
Proof.
  intros Hid. unfold successor_ids, Db.ids_with_parent. rewrite Hid.
  rewrite merge_sort_Permutation. rewrite list_elem_of_fmap. split.
  - intros ([c' row] & -> & Hin). apply elem_of_map_to_list in Hin.
    apply map_lookup_filter_Some in Hin as [Hrow Hp]. by exists row.
  - intros (row & Hrow & Hp). exists (c, row). split; [done|].
    apply elem_of_map_to_list. by apply map_lookup_filter_Some.
Qed.

Lemma successor_ids_sorted (j : GenericJob) (w : World) :
  Sorted Z.le (successor_ids j w).
Proof.
  unfold successor_ids. destruct (job_id j); [|constructor].
  apply (Sorted_merge_sort Z.le).
Qed.

Lemma status_set_saved (s : string) (st : St) (id : Z) :
  status_job_id (status (self st)) = Some id ->
  id <> 0 ->
  Status.set s st
  = (Return tt,
     with_status id s
       (mkSt (set_status (mkJobStatus s (Some id)) (self st))
             (world st) (journal st))).
Proof.
  intros Hsid Hnz. rewrite status_set_eq, Hsid. unfold if_id.
  by destruct (Z.eqb_spec id 0).
Qed.

(** C6, as amended.  The predecessor is looked at as the last step of
    [_create_job_structure], when the working artifacts are built (the run
    wrapper is in the working directory and the status is 'created'): if
    the job has a parent whose persisted status is 'initialized' or
    'created', the job marks itself 'suspended' and [run] is called on the
    parent as loaded; without a parent, or with a parent in another
    status, nothing happens.  At collect, when the job is finished and its
    master served, the jobs whose parent is this job are gone through in
    ascending order of their ids; each one whose persisted status is
    'suspended' when its turn comes is loaded, marked 'created', passed to
    [_before_successor_calc], and [run] is called on it; the others are
    passed over. *)
Theorem chain_coordination
    (rec : RunArgs -> M unit) (um : M unit) (dbg : bool) (st : St) :
  _create_job_structure rec dbg st
  = (build_job_structure dbg ;; _calculate_predecessor rec) st
  /\ (forall st1,
        build_job_structure dbg st = (Return tt, st1) ->
        isfile (world st1)
               (posixpath_join (working_directory (self st1)) "run_job.py") = true
        /\ status_string (status (self st1)) = "created")
  /\ (parent_id (self st) = None ->
      _calculate_predecessor rec st = (Return tt, st))
  /\ (forall (id pid : Z) (row : DbRow),
        status_job_id (status (self st)) = Some id ->
        id <> 0 ->
        pid <> id ->
        parent_id (self st) = Some pid ->
        db (world st) !! pid = Some row ->
        (Project.status_in (row_status row) ["initialized"; "created"] = true ->
         forall h, hdf (world st) !! row_job row = Some h ->
           _calculate_predecessor rec st
           = with_object (job_of_record pid row h) (rec default_args)
                         (suspended id st))
        /\ (Project.status_in (row_status row) ["initialized"; "created"] = false ->
            _calculate_predecessor rec st = (Return tt, st)))
  /\ _run_if_collect um rec st
     = (collect_and_finish um ;; _calculate_successor rec ;; send_to_database) st
  /\ _calculate_successor rec st
     = for_each (successor_ids (self st) (world st)) (wake_child rec) st
  /\ Sorted Z.le (successor_ids (self st) (world st))
  /\ (forall id, job_id (self st) = Some id ->
        forall c, c ∈ successor_ids (self st) (world st)
                  <-> exists row, db (world st) !! c = Some row
                                  /\ row_parentid row = Some id)
  /\ (forall (c : Z) (row : DbRow),
        db (world st) !! c = Some row ->
        (row_status row = "suspended" ->
         c <> 0 ->
         forall h child' st',
           hdf (world st) !! row_job row = Some h ->
           _before_successor_calc (created_child c row h)
                                  (with_status c "created" st)
           = (Return child', st') ->
           wake_child rec c st = with_object child' (rec default_args) st')
        /\ (row_status row <> "suspended" ->
            wake_child rec c st = (Return tt, st))).
Proof.
  split; [apply create_job_structure_split|].
  split; [apply build_job_structure_leaves_wrapper|].
  split.
  { intros Hp. unfold _calculate_predecessor, bind, get_self. by rewrite Hp. }
  split.
  { intros id pid row Hsid Hnz Hne Hp Hrow.
    assert (_calculate_predecessor rec st
            = (if Project.status_in (row_status row) ["initialized"; "created"]
               then
                 Status.set "suspended" ;;
                 parent_job <- project_load pid ;;
                 with_object parent_job (rec default_args)
               else ret tt) st) as ->.
    { unfold _calculate_predecessor. rewrite bind_eq. unfold get_self at 1.
      rewrite Hp. rewrite (bind_return _ _ _ _ _ (get_status_eq _ _ _ Hrow)).
      unfold Project.status_in. cbn [existsb]. by rewrite orb_false_r. }
    split; intros ->.
    - intros h Hh.
      rewrite (bind_return _ _ _ _ _ (status_set_saved "suspended" st id Hsid Hnz)).
      fold (suspended id st).
      assert (db (world (suspended id st)) !! pid = Some row) as Hrow'.
      { unfold suspended, with_status. cbn [world].
        by rewrite set_status_in_other. }
      by rewrite (bind_return _ _ _ _ _ (project_load_eq _ _ h _ Hrow' Hh)).
    - done. }
  split.
  { unfold _run_if_collect, collect_and_finish. symmetry.
    repeat (rewrite bind_assoc; apply bind_ext; intros ? ?).
    reflexivity. }
  split; [reflexivity|].
  split; [apply successor_ids_sorted|].
  split; [intros id Hid c; by apply successor_ids_elem|].
  intros c row Hrow. unfold wake_child.
  rewrite (bind_return _ _ _ _ _ (get_status_eq _ _ _ Hrow)).
  split.
  - intros -> Hnz h child' st' Hh Hhook.
    cbn [String.eqb Ascii.eqb Bool.eqb andb].
    rewrite (bind_return _ _ _ _ _ (project_load_eq _ _ h _ Hrow Hh)).
    assert (call_on (job_of_record c row h) (Status.set "created") st
            = (Return (tt, created_child c row h), with_status c "created" st))
      as Hcall.
    { unfold call_on.
      by rewrite (status_set_saved "created"
                    (mkSt (job_of_record c row h) (world st) (journal st))
                    c eq_refl Hnz). }
    rewrite (bind_return _ _ _ _ _ Hcall). cbn [snd].
    by rewrite (bind_return _ _ _ _ _ Hhook).
  - intros Hs. apply String.eqb_neq in Hs. by rewrite Hs.
Qed.

End ChainCoordinator.

(** C6 on the chain of job_a (id 1) and job_b (id 2): job_b, saved and
    'created' behind a parent that has not run, suspends itself and runs
    the parent; job_a at collect wakes the suspended job_b. *)
Lemma chain_coordination_witness :
  let rec := run (JT := Examples.example_job) (Env := Examples.quiet_env) 5 in
  _calculate_predecessor rec Examples.chain_saved_state
  = with_object (job_of_record 1 (Examples.row0 "job_a" "created" None None)
                               (Examples.hdf0 "job_a"))
                (rec default_args)
                (suspended 2 Examples.chain_saved_state)
  /\ wake_child (JT := Examples.example_job) rec 2 Examples.chain_collect_state
     = with_object (created_child 2 (Examples.row0 "job_b" "suspended" None (Some 1))
                                  (Examples.hdf0 "job_b"))
                   (rec default_args)
                   (with_status 2 "created" Examples.chain_collect_state).
Proof.
  intros rec.
  pose proof (chain_coordination (JT := Examples.example_job)
                rec (ret tt) false
                Examples.chain_saved_state) as (_ & _ & _ & Hpred & _).
  pose proof (chain_coordination (JT := Examples.example_job)
                rec (ret tt) false
                Examples.chain_collect_state)
    as (_ & _ & _ & _ & _ & _ & _ & _ & Hwake).
  split.
  - exact (proj1 (Hpred 2 1 (Examples.row0 "job_a" "created" None None)
                        eq_refl ltac:(lia) ltac:(lia) eq_refl eq_refl)
                 eq_refl (Examples.hdf0 "job_a") eq_refl).
  - exact (proj1 (Hwake 2 (Examples.row0 "job_b" "suspended" None (Some 1))
                        eq_refl)
                 eq_refl ltac:(lia) (Examples.hdf0 "job_b")
                 (created_child 2 (Examples.row0 "job_b" "suspended" None (Some 1))
                                  (Examples.hdf0 "job_b"))
                 (with_status 2 "created" Examples.chain_collect_state)
                 eq_refl eq_refl).
Defined.

(** C6 as the spec words it fails, in both halves.  The predecessor is
    not looked at before the working artifacts are built: in the run of the
    new job_b behind job_a, the working directory, the input and the run
    wrapper of job_b are written and its record is inserted before job_b is
    marked 'suspended' and job_a is run; the chain then runs to its end.
    And the successors are not selected by their status at the query: at
    the collect step of job_a, job_b (id 2) and job_c (id 3) both have
    job_a as parent and are both 'suspended'; job_b is woken first, and
    when it finishes it puts its master, job_c, into 'refresh'; when the
    turn of job_c comes it is no longer 'suspended', so it is neither
    marked 'created' nor run. *)
Lemma chain_coordination_as_worded_fails :
  (let r := run (JT := Examples.example_job) (Env := Examples.quiet_env)
                8 default_args Examples.chain_state in
   let chrono := rev (journal r.2) in
   r.1 = Return tt
   /\ take 9 chrono
      = [EvRun "job_b";
         EvMkdir "/home/pyiron/job_b_hdf5/job_b";
         EvWrite "/home/pyiron/job_b_hdf5/job_b/input.inp";
         EvInsert 2;
         EvPrint "The job job_b was saved and received the ID: 2";
         EvWrite "/home/pyiron/job_b_hdf5/job_b/run_job.py";
         EvStatus 2 "created";
         EvStatus 2 "suspended";
         EvRun "job_a"]
   /\ precedes (EvMkdir "/home/pyiron/job_b_hdf5/job_b")
               (EvStatus 2 "suspended") chrono = true
   /\ precedes (EvWrite "/home/pyiron/job_b_hdf5/job_b/run_job.py")
               (EvRun "job_a") chrono = true
   /\ precedes (EvStatus 2 "suspended")
               (EvMkdir "/home/pyiron/job_b_hdf5/job_b") chrono = false
   /\ (row_status <$> db (world r.2) !! 1) = Some "finished"
   /\ (row_status <$> db (world r.2) !! 2) = Some "finished")
  /\ (let st := Examples.siblings_state in
      let r := run (JT := Examples.example_job) (Env := Examples.quiet_env)
                   8 default_args st in
      successor_ids (self st) (world st) = [2; 3]
      /\ (row_status <$> db (world st) !! 2) = Some "suspended"
      /\ (row_status <$> db (world st) !! 3) = Some "suspended"
      /\ r.1 = Return tt
      /\ rev (journal r.2)
         = [EvRun "job_a";
            EvStatus 1 "finished";
            EvStatus 2 "created";
            EvRun "job_b";
            EvStatus 2 "submitted";
            EvStatus 2 "running";
            EvStatus 2 "collect";
            EvRun "job_b";
            EvStatus 2 "finished";
            EvStatus 3 "refresh"]
      /\ (row_status <$> db (world r.2) !! 1) = Some "finished"
      /\ (row_status <$> db (world r.2) !! 2) = Some "finished"
      /\ (row_status <$> db (world r.2) !! 3) = Some "refresh"
      /\ bool_decide (EvStatus 3 "created" ∈ journal r.2) = false
      /\ bool_decide (EvRun "job_c" ∈ journal r.2) = false).
Proof. by vm_compute. Qed.

(** * Properties of the further code *)

(** ** Python strings *)

Section PythonStrings.

Lemma str_in_char_cons c x rest :
  str_in (String c EmptyString) (String x rest)
  = Ascii.eqb x c || str_in (String c EmptyString) rest.
Proof.
  cbn [str_in String.prefix].
  destruct (ascii_dec c x) as [->|Hne].
  - rewrite Ascii.eqb_refl. by destruct rest.
  - assert (Ascii.eqb x c = false) as ->; [|done].
    apply Ascii.eqb_neq. congruence.
Qed.

Lemma lacks_cons c x rest :
  lacks c (String x rest) <-> Ascii.eqb x c = false /\ lacks c rest.
Proof. unfold lacks. rewrite str_in_char_cons. apply orb_false_iff. Qed.

Lemma str_app_nil (s : string) : (EmptyString ++ s)%string = s.
Proof. reflexivity. Qed.

Lemma str_app_cons x (a b : string) :
  (String x a ++ b)%string = String x (a ++ b)%string.
Proof. reflexivity. Qed.

Lemma str_split_nonempty c s : str_split c s <> [].
Proof.
  destruct s as [|x rest]; cbn [str_split]; [done|].
  destruct (Ascii.eqb x c); [done|]. by destruct (str_split c rest).
Qed.

Lemma str_split_lacks c s : lacks c s -> str_split c s = [s].
Proof.
  induction s as [|x rest IH]; [done|].
  intros [Hx Hrest]%lacks_cons. cbn [str_split]. rewrite Hx, IH by done. done.
Qed.

(** Splitting at a separator: the pieces of what precedes it, then the
    pieces of what follows it. *)
Lemma str_split_app c a b :
  lacks c a ->
  str_split c (a ++ String c b)%string = a :: str_split c b.
Proof.
  induction a as [|x rest IH]; rewrite ?str_app_nil, ?str_app_cons;
    cbn [str_split].
  - by rewrite Ascii.eqb_refl.
  - intros [Hx Hrest]%lacks_cons. rewrite Hx, IH by done. done.
Qed.

Lemma str_split_last c a b :
  List.last (str_split c (a ++ String c b)%string) EmptyString
  = List.last (str_split c b) EmptyString
  /\ (1 < length (str_split c (a ++ String c b)%string))%nat.
Proof.
  induction a as [|x rest [IHl IHn]]; rewrite ?str_app_nil, ?str_app_cons;
    cbn [str_split].
  - rewrite Ascii.eqb_refl. split.
    + pose proof (str_split_nonempty c b). by destruct (str_split c b).
    + pose proof (str_split_nonempty c b). destruct (str_split c b); [done|].
      cbn. lia.
  - destruct (Ascii.eqb x c).
    + split.
      * pose proof (str_split_nonempty c (rest ++ String c b)).
        destruct (str_split c (rest ++ String c b)); [done|]. exact IHl.
      * cbn. lia.
    + destruct (str_split c (rest ++ String c b)) as [|p [|q ps]];
        cbn in *; [lia| lia |]. split; [exact IHl | lia].
Qed.

(** Every string lacks the separator or ends in a piece that lacks it. *)
Lemma str_last_piece c s :
  lacks c s
  \/ exists a b, s = (a ++ String c b)%string /\ lacks c b.
Proof.
  induction s as [|x rest IH]; [by left|].
  destruct IH as [Hl|(a & b & -> & Hb)].
  - destruct (Ascii.eqb x c) eqn:Hx.
    + right. exists EmptyString, rest. apply Ascii.eqb_eq in Hx as ->.
      by split.
    + left. by apply lacks_cons.
  - right. by exists (String x a), b.
Qed.

Lemma str_split_removelast c a b :
  lacks c b ->
  String.concat (String c EmptyString)
    (removelast (str_split c (a ++ String c b)%string)) = a.
Proof.
  intros Hb. revert a.
  assert (forall a, exists p ps,
            str_split c (a ++ String c b)%string = p :: ps ++ [b]
            /\ String.concat (String c EmptyString) (p :: ps) = a) as H.
  { induction a as [|x rest (p & ps & Hsp & Hcat)];
      rewrite ?str_app_nil, ?str_app_cons; cbn [str_split].
    - rewrite Ascii.eqb_refl, (str_split_lacks c b Hb).
      by exists EmptyString, [].
    - rewrite Hsp. destruct (Ascii.eqb x c) eqn:Hx.
      + apply Ascii.eqb_eq in Hx as ->.
        exists EmptyString, (p :: ps). split; [done|].
        rewrite <- Hcat. cbn. by destruct ps.
      + exists (String x p), ps. split; [done|].
        rewrite <- Hcat. cbn. by destruct ps. }
  intros a. destruct (H a) as (p & ps & -> & <-).
  rewrite app_comm_cons, removelast_last. done.
Qed.

End PythonStrings.

(** ** Names of files and directories in a project *)

Section ProjectNamesFacts.

Import ProjectNames.

(** X1.  [_is_hdf5_dir] looks only at what follows the last underscore of
    a name: a name with an underscore is taken for the directory of a
    pyiron object exactly when that last piece contains 'hdf5', and a name
    without underscore never is, 'hdf5' itself included.  So the directory
    [name ++ "_hdf5"] of any job is recognised, whatever the name. *)
Theorem is_hdf5_dir_last_piece (a b : string) :
  lacks "_"%char b ->
  _is_hdf5_dir (a ++ String "_"%char b)%string = str_in "hdf5" b
  /\ _is_hdf5_dir b = false
  /\ _is_hdf5_dir (a ++ "_hdf5")%string = true.
Proof.
  intros Hb. unfold _is_hdf5_dir. cbv zeta.
  destruct (str_split_last "_"%char a b) as [Hl Hn].
  split; [|split].
  - apply Nat.ltb_lt in Hn. rewrite Hn, Hl, (str_split_lacks _ _ Hb).
    cbn [List.last]. by destruct (str_in "hdf5" b).
  - by rewrite (str_split_lacks _ _ Hb).
  - destruct (str_split_last "_"%char a "hdf5") as [Hl' Hn'].
    apply Nat.ltb_lt in Hn'.
    change (a ++ "_hdf5")%string with (a ++ String "_"%char "hdf5")%string.
    by rewrite Hn', Hl'.
Qed.

Lemma is_hdf5_dir_last_piece_witness :
  _is_hdf5_dir ("my_job" ++ String "_"%char "hdf5")%string = str_in "hdf5" "hdf5"
  /\ _is_hdf5_dir "hdf5" = false
  /\ _is_hdf5_dir ("my_job" ++ "_hdf5")%string = true.
Proof. apply (is_hdf5_dir_last_piece "my_job" "hdf5"). reflexivity. Defined.

(** What the comprehension of [list_files] makes of one file name. *)
Lemma list_files_one_with_dot (ext base e : string) :
  lacks "."%char e ->
  String.concat "." (removelast (str_split "."%char (base ++ String "."%char e)%string))
  = base
  /\ str_in (List.last (str_split "."%char (base ++ String "."%char e)%string)
                       EmptyString) ext
     = str_in e ext.
Proof.
  intros He. split.
  - by apply (str_split_removelast "."%char).
  - destruct (str_split_last "."%char base e) as [-> _].
    by rewrite (str_split_lacks _ _ He).
Qed.

Lemma list_files_one_without_dot (ext f : string) :
  lacks "."%char f ->
  String.concat "." (removelast (str_split "."%char f)) = EmptyString
  /\ str_in (List.last (str_split "."%char f) EmptyString) ext = str_in f ext.
Proof. intros Hf. by rewrite (str_split_lacks _ _ Hf). Qed.

(** X2.  [list_files(extension)] with the filter 'nodes' on, over the file
    names of the directory: a name is listed exactly when some file
    [base.e] has it as its [base] (all that precedes the last dot) and [e]
    occurs in [extension] as a substring, not only when [e] equals it; and
    the empty name is listed for a file without a dot whose whole name
    occurs in [extension].  Without the filter 'nodes', or when the walk
    yields nothing, the list is empty. *)
Theorem list_files_by_extension
    (filter_ files_ : list string) (ext : string) (r : string) :
  (In "nodes" filter_ ->
   (In r (list_files filter_ (Some files_) (Some ext))
    <-> (exists base e,
           In (base ++ String "."%char e)%string files_
           /\ lacks "."%char e /\ str_in e ext = true /\ r = base)
        \/ (r = EmptyString
            /\ exists f, In f files_ /\ lacks "."%char f /\ str_in f ext = true)))
  /\ list_files filter_ None (Some ext) = []
  /\ (~ In "nodes" filter_ -> list_files filter_ (Some files_) (Some ext) = []).
Proof.
  split; [|split].
  - intros Hn. unfold list_files.
    rewrite bool_decide_eq_true_2 by (by apply list_elem_of_In). cbn [negb].
    rewrite in_map_iff. split.
    + intros (f & <- & Hin). apply List.filter_In in Hin as [Hin Hm].
      destruct (str_last_piece "."%char f) as [Hl|(base & e & -> & He)].
      * right. destruct (list_files_one_without_dot ext f Hl) as [Hs Hi].
        split; [done|]. exists f. by rewrite <- Hi.
      * left. destruct (list_files_one_with_dot ext base e He) as [Hs Hi].
        exists base, e. by rewrite <- Hi.
    + intros [(base & e & Hin & He & Hm & ->)|(-> & f & Hin & Hl & Hm)].
      * destruct (list_files_one_with_dot ext base e He) as [Hs Hi].
        exists (base ++ String "."%char e)%string. split; [done|].
        apply List.filter_In. by rewrite Hi.
      * destruct (list_files_one_without_dot ext f Hl) as [Hs Hi].
        exists f. split; [done|]. apply List.filter_In. by rewrite Hi.
  - unfold list_files. by destruct (negb _).
  - intros Hn. unfold list_files.
    rewrite bool_decide_eq_false_2; [done|]. by rewrite list_elem_of_In.
Qed.

(** X2 on a directory with a stored job, a log and a file named 'h': under
    the extension 'h5' the job is listed by its name, and so is the empty
    name, for the file 'h'. *)
Lemma list_files_by_extension_witness :
  In "job_a" (list_files ["groups"; "nodes"; "objects"]
                         (Some ["job_a.h5"; "run.log"; "h"]) (Some "h5"))
  /\ In EmptyString (list_files ["groups"; "nodes"; "objects"]
                                (Some ["job_a.h5"; "run.log"; "h"]) (Some "h5")).
Proof.
  assert (In "nodes" ["groups"; "nodes"; "objects"]) as Hn by (cbn; tauto).
  split.
  - apply (proj2 (proj1 (list_files_by_extension ["groups"; "nodes"; "objects"]
                           ["job_a.h5"; "run.log"; "h"] "h5" "job_a") Hn)).
    left. exists "job_a", "h5".
    split; [cbn; tauto|]. split; [reflexivity|]. split; reflexivity.
  - apply (proj2 (proj1 (list_files_by_extension ["groups"; "nodes"; "objects"]
                           ["job_a.h5"; "run.log"; "h"] "h5" EmptyString) Hn)).
    right. split; [done|]. exists "h".
    split; [cbn; tauto|]. split; reflexivity.
Defined.

(** X3.  The name [create_job] gives a job has no dot: every dot of the
    name asked for has become an underscore, the other characters and the
    length are kept, and a name without a dot is kept as it is. *)
Theorem create_job_name_has_no_dot (job_name : string) :
  lacks "."%char (create_job_name job_name)
  /\ String.length (create_job_name job_name) = String.length job_name
  /\ (forall i, String.get i (create_job_name job_name)
                = (fun x => if Ascii.eqb x "."%char then "_"%char else x)
                  <$> String.get i job_name)
  /\ create_job_name (create_job_name job_name) = create_job_name job_name
  /\ (lacks "."%char job_name -> create_job_name job_name = job_name).
Proof.
  unfold create_job_name. repeat split.
  - induction job_name as [|x rest IH]; [done|].
    cbn [str_replace]. apply lacks_cons. split; [|done].
    destruct (Ascii.eqb x "."%char) eqn:Hx; [done|exact Hx].
  - induction job_name as [|x rest IH]; [done|]. cbn. by rewrite IH.
  - induction job_name as [|x rest IH]; intros i; [done|].
    cbn [str_replace]. destruct i as [|i]; [done|]. cbn. apply IH.
  - induction job_name as [|x rest IH]; [done|].
    cbn [str_replace]. rewrite IH. f_equal.
    destruct (Ascii.eqb x "."%char) eqn:Hx; [done|]. by rewrite Hx.
  - induction job_name as [|x rest IH]; [done|].
    intros [Hx Hrest]%lacks_cons. cbn [str_replace]. by rewrite Hx, IH.
Qed.

Lemma create_job_name_has_no_dot_witness :
  create_job_name "job_a" = "job_a".
Proof.
  apply (create_job_name_has_no_dot "job_a"). reflexivity.
Defined.

End ProjectNamesFacts.

(** ** Reconciliation in both modes *)

Section ReconciliationModes.

Import Project.
Context {Env : Environment}.

(** What the reconciliation makes of a job id with a record. *)
Lemma reconcile_eq (que_mode : bool) (st : St) (id : Z) (row : DbRow) :
  id <> 0 ->
  db (world st) !! id = Some row ->
  (forall e, queue_id_table id (world st) = QueueFails e -> is_Exception e = true) ->
  exists jr,
    refresh_job_status_based_on_job_id (Some id) que_mode st
    = (Return tt,
       mkSt (self st)
            (if (if que_mode
                 then status_in (row_status row) ["running"; "submitted"]
                 else negb (status_in (row_status row) ["finished"]))
                && negb (listed_as_running (queue_id_table id (world st)))
             then Db.set_status_in id "aborted" (world st)
             else world st)
            jr).
Proof.
  intros Hid Hrow Hfail.
  unfold refresh_job_status_based_on_job_id, if_id.
  destruct (Z.eqb_spec id 0) as [|_]; [done|].
  rewrite (bind_return _ _ _ _ _ (get_status_eq _ _ _ Hrow)).
  assert ((negb que_mode && negb (status_in (row_status row) ["finished"])
           || que_mode && status_in (row_status row) ["running"; "submitted"])
          = (if que_mode
             then status_in (row_status row) ["running"; "submitted"]
             else negb (status_in (row_status row) ["finished"]))) as ->.
  { destruct que_mode; cbn [negb andb orb]; [done|]. by rewrite orb_false_r. }
  destruct (if que_mode then _ else _); cbn [andb].
  2:{ exists (journal st). by destruct st. }
  rewrite bind_eq. unfold try_except, query_queue.
  rewrite bind_eq. unfold get_world at 1.
  destruct (queue_id_table id (world st)) as [e|[[|entry rest]|]] eqn:Hq.
  - unfold raise at 1. rewrite (Hfail e eq_refl). unfold ret at 1.
    rewrite item_update_status_eq. by eexists.
  - unfold ret at 1. rewrite item_update_status_eq. by eexists.
  - unfold ret at 1.
    destruct (abort_loop id (entry :: rest) st) as [jr Hjr]. rewrite Hjr.
    exists jr. cbn [listed_as_running].
    by destruct (forallb _ (entry :: rest)).
  - unfold ret at 1. rewrite item_update_status_eq. by eexists.
Qed.

(** X4.  [refresh_job_status_based_on_job_id] in full, for a job id with a
    record and a queue query that answers or fails with an error.  The
    call returns.  It looks at the queue when the status is 'running' or
    'submitted' ([que_mode] on), or anything but 'finished' ([que_mode]
    off); it then leaves the world alone exactly when the queue lists the
    job and every listing is in state 'r', and otherwise sets the record
    to 'aborted': one listing that is not running is enough, whatever the
    others say.  A job id that is [None] or 0 is passed over. *)
Theorem reconcile_by_mode (que_mode : bool) (st : St) (id : Z) (row : DbRow) :
  id <> 0 ->
  db (world st) !! id = Some row ->
  (forall e, queue_id_table id (world st) = QueueFails e -> is_Exception e = true) ->
  let looks :=
    if que_mode then status_in (row_status row) ["running"; "submitted"]
    else negb (status_in (row_status row) ["finished"]) in
  let r := refresh_job_status_based_on_job_id (Some id) que_mode st in
  r.1 = Return tt
  /\ self r.2 = self st
  /\ world r.2
     = (if looks && negb (listed_as_running (queue_id_table id (world st)))
        then Db.set_status_in id "aborted" (world st)
        else world st)
  /\ refresh_job_status_based_on_job_id None que_mode st = (Return tt, st)
  /\ refresh_job_status_based_on_job_id (Some 0) que_mode st = (Return tt, st).
Proof.
  intros Hid Hrow Hfail looks r.
  destruct (reconcile_eq que_mode st id row Hid Hrow Hfail) as [jr Hr].
  unfold r. rewrite Hr. cbn [fst snd self world].
  split; [done|]. split; [done|]. split; [done|]. by split.
Qed.

(** X5.  [refresh_job_status_based_on_queue_status]: any [status] argument
    other than 'running' raises [NotImplementedError] and touches nothing;
    a job specifier that names no job is passed over; and with 'running'
    the job found is reconciled as by its id, so that a record left at
    'submitted' whose queue listing is gone is set to 'aborted' too. *)
Theorem refresh_by_queue_status {JTab : JobTable}
    (spec : job_specifier) (status_arg : string) (st : St) :
  (status_arg <> "running" ->
   refresh_job_status_based_on_queue_status spec status_arg st
   = (Raise (NotImplementedError ""), st))
  /\ (get_job_id spec (world st) = None ->
      refresh_job_status_based_on_queue_status spec "running" st = (Return tt, st))
  /\ (forall id row,
        get_job_id spec (world st) = Some id ->
        id <> 0 ->
        db (world st) !! id = Some row ->
        (forall e, queue_id_table id (world st) = QueueFails e ->
                   is_Exception e = true) ->
        status_in (row_status row) ["running"; "submitted"] = true ->
        listed_as_running (queue_id_table id (world st)) = false ->
        let r := refresh_job_status_based_on_queue_status spec "running" st in
        r.1 = Return tt
        /\ db (world r.2) !! id = Some (Db.row_set_status "aborted" row)).
Proof.
  unfold refresh_job_status_based_on_queue_status. split; [|split].
  - intros Hs. apply String.eqb_neq in Hs. by rewrite Hs.
  - intros Hn. cbn [String.eqb Ascii.eqb Bool.eqb negb].
    rewrite bind_eq. unfold get_world at 1. by rewrite Hn.
  - intros id row Hg Hid Hrow Hfail Hs Hq.
    cbn [String.eqb Ascii.eqb Bool.eqb negb]. cbv zeta.
    destruct (reconcile_eq true st id row Hid Hrow Hfail) as [jr Hr].
    assert ((w <- get_world ;;
             refresh_job_status_based_on_job_id (get_job_id spec w) true) st
            = (Return tt,
               mkSt (self st) (Db.set_status_in id "aborted" (world st)) jr))
      as ->.
    { rewrite bind_eq. unfold get_world at 1. by rewrite Hg, Hr, Hs, Hq. }
    split; [done|]. by apply set_status_in_lookup.
Qed.

End ReconciliationModes.

(** X4 on the record left at 'running' under id 7, with a queue that lists
    the job twice, once running and once in error: the record is set to
    'aborted'. *)
Lemma reconcile_by_mode_witness :
  let r := Project.refresh_job_status_based_on_job_id
             (Env := MoreExamples.mixed_queue_env) (Some 7) true
             Examples.stale_state in
  r.1 = Return tt
  /\ world r.2 = Db.set_status_in 7 "aborted" (world Examples.stale_state).
Proof.
  destruct (reconcile_by_mode (Env := MoreExamples.mixed_queue_env) true
              Examples.stale_state 7
              (Examples.row0 "job_q" "running" None None))
    as (Hret & _ & Hw & _).
  - lia.
  - reflexivity.
  - intros e He. discriminate He.
  - split; [exact Hret | exact Hw].
Defined.

(** X5 on the record left at 'submitted' under id 7, named by its name,
    with a queue that lists nothing. *)
Lemma refresh_by_queue_status_witness :
  refresh_job_status_based_on_queue_status
    (Env := Examples.quiet_env) (JTab := MoreExamples.plain_job_table)
    (ByName "job_q") "submitted" MoreExamples.stale_submitted_state
  = (Raise (NotImplementedError ""), MoreExamples.stale_submitted_state)
  /\ (let r := refresh_job_status_based_on_queue_status
                 (Env := Examples.quiet_env) (JTab := MoreExamples.plain_job_table)
                 (ByName "job_q") "running" MoreExamples.stale_submitted_state in
      r.1 = Return tt
      /\ db (world r.2) !! 7
         = Some (Db.row_set_status "aborted"
                   (Examples.row0 "job_q" "submitted" None None))).
Proof.
  pose proof (refresh_by_queue_status (Env := Examples.quiet_env)
                (JTab := MoreExamples.plain_job_table)) as H.
  split.
  - apply (proj1 (H (ByName "job_q") "submitted"
                    MoreExamples.stale_submitted_state)).
    discriminate.
  - apply (proj2 (proj2 (H (ByName "job_q") "running"
                           MoreExamples.stale_submitted_state))
                 7 (Examples.row0 "job_q" "submitted" None None)).
    + reflexivity.
    + lia.
    + reflexivity.
    + intros e He. discriminate He.
    + reflexivity.
    + reflexivity.
Defined.

(** ** Setters, names and messages of a job *)

Section JobAccessors.

(** X6.  The setter of [library_activated] takes only a boolean: any other
    value, the integer 1 included, raises [TypeError] and changes nothing.
    A boolean is stored only for a job type that has a library; otherwise
    it is dropped without a word.  The setter never touches the world, and
    it keeps "enabled only if available": a job type without a library
    never takes the library path of [_run_if_new]. *)
Theorem library_activated_setter (v : pyval) (st : St) :
  let r := library_activated_set v st in
  world r.2 = world st
  /\ lib_available (self r.2) = lib_available (self st)
  /\ match v with
     | PyBool b =>
         r.1 = Return tt
         /\ library_activated (self r.2)
            = (if lib_available (self st) then b
               else library_activated (self st))
     | _ =>
         r = (Raise (TypeError
                "The library mode can either be activated or disabled [True, False]."),
              st)
     end
  /\ ((lib_enabled (self st) = true -> lib_available (self st) = true) ->
      lib_available (self r.2) && lib_enabled (self r.2)
      = lib_enabled (self r.2)).
Proof.
  assert (forall j, (lib_enabled j = true -> lib_available j = true) ->
                    lib_available j && lib_enabled j = lib_enabled j) as Hkeep.
  { intros j Hinv. destruct (lib_enabled j); [by rewrite Hinv | apply andb_false_r]. }
  destruct v as [|b|z|s]; cbn zeta; unfold library_activated_set;
    try (split; [done|]; split; [done|]; split; [done|]; apply Hkeep).
  unfold bind, get_self, modify_self, ret, library_activated.
  destruct (lib_available (self st)) eqn:Ha; cbn; rewrite ?Ha.
  - by repeat split.
  - repeat split; try done. intros Hinv.
    destruct (lib_enabled (self st)) eqn:He; [|done].
    specialize (Hinv eq_refl). congruence.
Qed.

(** X6 on a new job, whose type has no library: activating the library
    mode is dropped, and 1 in place of [True] is refused. *)
Lemma library_activated_setter_witness :
  let st := Examples.fresh_state "true" in
  library_activated (self (library_activated_set (PyBool true) st).2) = false
  /\ (library_activated_set (PyInt 1) st).1
     = Raise (TypeError
         "The library mode can either be activated or disabled [True, False].")
  /\ lib_available (self (library_activated_set (PyBool true) st).2)
     && lib_enabled (self (library_activated_set (PyBool true) st).2)
     = lib_enabled (self (library_activated_set (PyBool true) st).2).
Proof.
  intros st.
  destruct (library_activated_setter (PyBool true) st) as (_ & _ & [_ Hb] & Hinv).
  destruct (library_activated_setter (PyInt 1) st) as (_ & _ & Hi & _).
  split; [exact Hb|]. split.
  - cbn zeta in Hi. by rewrite Hi.
  - apply Hinv. discriminate.
Defined.

Lemma str_app_assoc (a b c : string) :
  ((a ++ b) ++ c)%string = (a ++ (b ++ c))%string.
Proof.
  induction a as [|x a IH]; [done|]. rewrite !str_app_cons. by rewrite IH.
Qed.

(** X7.  [job_file_name(file_name, cwd)] always ends in [file_name]; an
    absolute [file_name] is returned as it stands, the directory being
    ignored; an empty [cwd] counts as none, the working directory of the
    job being taken; and a relative name is put behind the directory, with
    one slash between them unless the directory ends in one. *)
Theorem job_file_name_joins (file_name : string) (cwd : option string)
    (j : GenericJob) :
  (exists p, job_file_name file_name cwd j = (p ++ file_name)%string)
  /\ (starts_with_slash file_name = true ->
      job_file_name file_name cwd j = file_name)
  /\ job_file_name file_name (Some EmptyString) j = job_file_name file_name None j
  /\ (forall d,
        cwd = Some d ->
        d <> EmptyString ->
        starts_with_slash file_name = false ->
        job_file_name file_name cwd j
        = if ends_with_slash d then (d ++ file_name)%string
          else (d ++ "/" ++ file_name)%string).
Proof.
  unfold job_file_name, posixpath_join. cbv zeta. split; [|split; [|split]].
  - destruct (starts_with_slash file_name); [by exists EmptyString|].
    destruct (String.eqb _ ""); [by exists EmptyString|].
    destruct (ends_with_slash _); [by eexists|].
    eexists (_ ++ "/")%string. by rewrite str_app_assoc.
  - by intros ->.
  - done.
  - intros d -> Hd Hf. rewrite Hf.
    apply String.eqb_neq in Hd. by rewrite Hd, Hd.
Qed.

Lemma job_file_name_joins_witness :
  job_file_name "/etc/passwd" (Some "/home/pyiron/job_a_hdf5/job_a")
                (Examples.new_job "job_a" "true")
  = "/etc/passwd"
  /\ job_file_name "error.msg" (Some "/scratch") (Examples.new_job "job_a" "true")
     = "/scratch/error.msg".
Proof.
  split.
  - exact (proj1 (proj2 (job_file_name_joins "/etc/passwd"
                           (Some "/home/pyiron/job_a_hdf5/job_a")
                           (Examples.new_job "job_a" "true")))
                 eq_refl).
  - apply (proj2 (proj2 (proj2 (job_file_name_joins "error.msg" (Some "/scratch")
                                  (Examples.new_job "job_a" "true"))))
                 "/scratch"); [reflexivity | discriminate | reflexivity].
Defined.

(** X8.  The instruction that [run_if_manually] prints is the same for
    every job: [format] is applied to the last of the three literals only,
    which has no field, so the working directory never appears in the
    message and the field '{}' is printed as it stands. *)
Theorem manual_message_never_names_directory (wd : string) (st : St) :
  manual_message_as_written wd = Some manual_message
  /\ str_in "{}" manual_message = true
  /\ run_if_manually st
     = (Return tt,
        mkSt (self st) (world st) (EvPrint manual_message :: journal st)).
Proof. by repeat split. Qed.

End JobAccessors.

(** ** Suspending a job *)

Section Suspend.

Lemma del_attrs_absent (a : string) (l : list string) (attrs : gset string) :
  a ∉ attrs -> In a l -> exists e, del_attrs l attrs = inl e.
Proof.
  revert attrs. induction l as [|x l IH]; intros attrs Ha Hin; [done|].
  cbn [del_attrs]. unfold del_attr. case_bool_decide as Hx; [|by eexists].
  destruct Hin as [->|Hin]; [done|].
  apply IH; [|done]. intros [Ha' _]%elem_of_difference. done.
Qed.

(** A [del] of the same attribute twice cannot go through. *)
Lemma del_attrs_twice (a : string) (l1 l2 : list string) (attrs : gset string) :
  In a l2 -> exists e, del_attrs (l1 ++ a :: l2) attrs = inl e.
Proof.
  intros Hin. revert attrs. induction l1 as [|x l1 IH]; intros attrs.
  - cbn [app del_attrs]. unfold del_attr. case_bool_decide; [|by eexists].
    apply (del_attrs_absent a); [|done].
    intros [_ Hne]%elem_of_difference. apply Hne. by apply elem_of_singleton.
  - cbn [app del_attrs]. unfold del_attr. case_bool_decide; [|by eexists].
    apply IH.
Qed.

(** X9.  [clear_job] deletes the attribute [_status] twice, so it raises
    [AttributeError] whatever attributes the object has; on an object as
    the constructors leave it the error names [_status].  So [suspend]
    never returns: the object is stored, the status of the job (and of its
    record, when the status object has an id) is 'suspended', and then the
    error comes out. *)
Theorem suspend_always_raises (attrs : gset string) (st : St) :
  (exists e, clear_job attrs = inl e)
  /\ clear_job constructed_attributes
     = inl (OtherException "AttributeError: _status")
  /\ exists st',
       suspend st = (Raise (OtherException "AttributeError: _status"), st')
       /\ status_string (status (self st')) = "suspended"
       /\ hdf (world st') !! job_name (self st) = Some (hdf_of (self st'))
       /\ db (world st')
          = status_written (status_job_id (status (self st))) "suspended"
                           (db (world st)).
Proof.
  split; [|split].
  - apply (del_attrs_twice "_status"
             ["__name__"; "__version__"; "_executable"; "_name"; "_server";
              "_logger"; "_parent_id"; "_master_id"; "_import_directory"; "_lib"]
             ["_restart_file_list"; "_job_id"; "_status"]).
    cbn. tauto.
  - by vm_compute.
  - unfold suspend.
    assert (to_hdf st
            = (Return tt,
               mkSt (if 1 <? cores (server (self st))
                     then set_executable_mpi true (self st) else self st)
                    (set_hdf (<[job_name (self st)
                                := hdf_of (if 1 <? cores (server (self st))
                                           then set_executable_mpi true (self st)
                                           else self st)]>
                                (hdf (world st))) (world st))
                    (journal st))) as Hto.
    { unfold to_hdf, _executable_activate_mpi, bind, get_self, modify_self,
        modify_world, ret. cbn.
      by destruct (1 <? cores (server (self st))). }
    rewrite (bind_return _ _ _ _ _ Hto).
    set (st1 := mkSt _ _ _).
    assert (status_job_id (status (self st1)) = status_job_id (status (self st))
            /\ job_name (self st1) = job_name (self st)) as [Hsid Hn].
    { unfold st1. cbn. by destruct (1 <? cores (server (self st))). }
    rewrite (bind_return _ _ _ _ _ (status_set_returns "suspended" st1)).
    replace (clear_job constructed_attributes)
      with (@inl exn (gset string) (OtherException "AttributeError: _status"))
      by (by vm_compute).
    exists (Status.set "suspended" st1).2. split; [done|].
    rewrite status_set_self, status_set_world, Hsid.
    split; [done|]. split; [|done].
    cbn [world set_db hdf]. unfold st1.
    destruct (1 <? cores (server (self st))); cbn; by rewrite lookup_insert_eq.
Qed.

End Suspend.

(** ** Running a job through its library *)

Section LibraryRun.

Context {JT : JobType} {Env : Environment}.


End LibraryRun.


(** ** Job types that cannot refresh *)

Section NoRefresh.

Context {Env : Environment}.

(** X11.  [GenericJob] itself does not implement the states 'refresh' and
    'busy': [run] on a job of the base type that is in one of them raises
    [NotImplementedError] naming the job id, after the guard of [run] has
    dropped the status; unless the record says 'finished' or 'suspended',
    the record is 'aborted' afterwards. *)
Theorem run_refresh_not_supported
    (fuel : nat) (st : St) (id : Z) (row : DbRow) :
  status_string (status (self st)) = "refresh"
  \/ status_string (status (self st)) = "busy" ->
  job_id (self st) = Some id ->
  id <> 0 ->
  db (world st) !! id = Some row ->
  run (JT := Examples.base_job) (S fuel) default_args st
  = (Raise (NotImplementedError
       ("Refresh is not supported for this job type for job  " ++ str_Z id)%string),
     dropped id row (entered default_args st))
  /\ (Project.status_in (row_status row) ["finished"; "suspended"] = false ->
      db (world (dropped id row (entered default_args st))) !! id
      = Some (Db.row_set_status "aborted" row)).
Proof.
  intros Hs Hid Hnz Hrow. split.
  - cbn [run]. unfold run_guard, try_except, run_body.
    rewrite (bind_return _ _ _ _ _
               (run_prologue_plain (JT := Examples.base_job) default_args st
                  eq_refl eq_refl eq_refl)).
    assert (dispatch (JT := Examples.base_job) (update_master fuel) (run fuel)
                     default_args (status_string (status (self st)))
                     (entered default_args st)
            = (Raise (NotImplementedError
                 ("Refresh is not supported for this job type for job  "
                  ++ str_Z id)%string),
               entered default_args st)) as ->.
    { destruct Hs as [-> | ->]; unfold dispatch; cbn [String.eqb Ascii.eqb Bool.eqb andb];
        cbn [_run_if_refresh _run_if_busy Examples.base_job];
        unfold Examples.refresh_not_supported, bind, get_self, raise;
        cbn [self entered default_args run_mode_override]; by rewrite Hid. }
    cbn [caught_by_run].
    by rewrite (bind_return _ _ _ _ _
                  (drop_status_to_aborted_eq (entered default_args st) id row
                     Hid Hnz Hrow)).
  - intros Hnot. unfold dropped. rewrite Hnot.
    by apply set_status_in_lookup.
Qed.

(** X12.  [update_master] has no way back when the refresh handler of the
    master fails: the error comes out of [update_master] and the record of
    the master stays as the handler left it, 'refresh' if the handler did
    not write.  For a master of the base type, which cannot refresh, that
    is always so: the first child to finish gets [NotImplementedError] and
    leaves the master in 'refresh', the next one turns it to 'busy', and
    from then on no child does anything to it. *)
Theorem update_master_handler_failure {JT : JobType}
    (fuel : nat) (st : St) (mid : Z) (row : DbRow) (h : HdfJob) :
  master_id (self st) = Some mid ->
  db (world st) !! mid = Some row ->
  row_status row = "suspended" ->
  hdf (world st) !! row_job row = Some h ->
  (forall e st2,
     call_on (job_of_record mid (Db.row_set_status "refresh" row) h)
             _run_if_refresh (with_status mid "refresh" st)
     = (Raise e, st2) ->
     update_master (S fuel) st = (Raise e, st2))
  /\ update_master (JT := Examples.base_job) (S fuel) st
     = (Raise (NotImplementedError
          ("Refresh is not supported for this job type for job  "
           ++ str_Z mid)%string),
        with_status mid "refresh" st)
  /\ update_master (S fuel) (with_status mid "refresh" st)
     = (Return tt, with_status mid "busy" (with_status mid "refresh" st))
  /\ update_master (S fuel)
       (with_status mid "busy" (with_status mid "refresh" st))
     = (Return tt, with_status mid "busy" (with_status mid "refresh" st))
  /\ (row_status <$>
        db (world (with_status mid "busy" (with_status mid "refresh" st))) !! mid)
     = Some "busy".
Proof.
  intros Hm Hrow Hs Hh.
  assert (db (world (with_status mid "refresh" st)) !! mid
          = Some (Db.row_set_status "refresh" row)) as Hrow1
    by by apply set_status_in_lookup.
  assert (db (world (with_status mid "busy" (with_status mid "refresh" st))) !! mid
          = Some (Db.row_set_status "busy" (Db.row_set_status "refresh" row)))
    as Hrow2 by by apply set_status_in_lookup.
  assert (forall (JT' : JobType) e st2,
            call_on (job_of_record mid (Db.row_set_status "refresh" row) h)
                    (_run_if_refresh (JobType := JT'))
                    (with_status mid "refresh" st)
            = (Raise e, st2) ->
            update_master (JT := JT') (S fuel) st = (Raise e, st2)) as Hfail.
  { intros JT' e st2 Hcall. cbn [update_master].
    rewrite bind_eq. unfold get_self at 1. rewrite Hm.
    rewrite (bind_return _ _ _ _ _ (get_status_eq _ _ _ Hrow)), Hs.
    cbn [String.eqb Ascii.eqb Bool.eqb andb].
    rewrite bind_eq, item_update_status_eq.
    fold (with_status mid "refresh" st).
    rewrite (bind_return _ _ _ _ _ (project_load_eq _ _ h _ Hrow1 Hh)).
    by rewrite (bind_raise _ _ _ _ _ Hcall). }
  split; [apply Hfail|]. split; [by apply Hfail|]. split; [|split].
  - cbn [update_master]. rewrite bind_eq. unfold get_self at 1.
    cbn [self with_status]. rewrite Hm.
    rewrite (bind_return _ _ _ _ _ (get_status_eq _ _ _ Hrow1)).
    cbn [Db.row_set_status row_status String.eqb Ascii.eqb Bool.eqb andb].
    rewrite (bind_return _ _ _ _ _ (get_status_eq _ _ _ Hrow1)).
    by cbn [Db.row_set_status row_status String.eqb Ascii.eqb Bool.eqb andb].
  - cbn [update_master]. rewrite bind_eq. unfold get_self at 1.
    cbn [self with_status]. rewrite Hm.
    rewrite (bind_return _ _ _ _ _ (get_status_eq _ _ _ Hrow2)).
    cbn [Db.row_set_status row_status String.eqb Ascii.eqb Bool.eqb andb].
    rewrite (bind_return _ _ _ _ _ (get_status_eq _ _ _ Hrow2)).
    by cbn [Db.row_set_status row_status String.eqb Ascii.eqb Bool.eqb andb].
  - by rewrite Hrow2.
Qed.

End NoRefresh.

(** X11 on the job persisted under id 5 as 'refresh'. *)
Lemma run_refresh_not_supported_witness :
  let r := run (JT := Examples.base_job) (Env := Examples.quiet_env)
               1 default_args (Examples.stored_state "refresh") in
  r.1 = Raise (NotImplementedError
                 "Refresh is not supported for this job type for job  5")
  /\ (row_status <$> db (world r.2) !! 5) = Some "aborted".
Proof.
  destruct (run_refresh_not_supported (Env := Examples.quiet_env) 0
              (Examples.stored_state "refresh") 5
              (Examples.row0 "job_s" "refresh" None None))
    as (Hrun & Hab).
  - by left.
  - reflexivity.
  - lia.
  - reflexivity.
  - cbn zeta. rewrite Hrun. cbn [fst snd]. split; [reflexivity|].
    by rewrite (Hab eq_refl).
Defined.

(** X12 at the child 2 of the suspended master 1, the master being of the
    base type. *)
Lemma update_master_handler_failure_witness :
  update_master (JT := Examples.base_job) (Env := Examples.quiet_env)
                1 (Examples.child_state "suspended")
  = (Raise (NotImplementedError
       "Refresh is not supported for this job type for job  1"),
     with_status 1 "refresh" (Examples.child_state "suspended")).
Proof.
  exact (proj1 (proj2 (update_master_handler_failure
                         (Env := Examples.quiet_env) (JT := Examples.base_job)
                         0 (Examples.child_state "suspended") 1
                         (Examples.row0 "master" "suspended" None None)
                         (Examples.hdf0 "master")
                         eq_refl eq_refl eq_refl eq_refl))).
Defined.

(** ** More of the dispatcher *)

Section DispatcherModes.

Context {JT : JobType} {Env : Environment}.

(** X13.  [drop_status_to_aborted] is idempotent on the job and on the
    world: a second drop, as when a nested [run] and the outer [run] both
    catch the same exception, or when a signal arrives twice, returns and
    leaves the job object and the world as the first drop left them. *)
Theorem drop_status_to_aborted_idempotent (st : St) (id : Z) (row : DbRow) :
  job_id (self st) = Some id ->
  id <> 0 ->
  db (world st) !! id = Some row ->
  let r1 := drop_status_to_aborted st in
  let r2 := drop_status_to_aborted r1.2 in
  r1.1 = Return tt /\ r2.1 = Return tt
  /\ self r2.2 = self r1.2 /\ world r2.2 = world r1.2.
Proof.
  intros Hid Hnz Hrow r1 r2. subst r2 r1.
  rewrite (drop_status_to_aborted_eq st id row Hid Hnz Hrow). cbn [fst snd].
  destruct (Project.status_in (row_status row) ["finished"; "suspended"]) eqn:Hin.
  - assert (dropped id row st
            = mkSt (set_status (Status.new (Some (row_status row)) (Some id))
                               (self st))
                   (world st) (journal st)) as ->
      by (unfold dropped; by rewrite Hin).
    rewrite (drop_status_to_aborted_eq
               (mkSt (set_status (Status.new (Some (row_status row)) (Some id))
                                 (self st))
                     (world st) (journal st)) id row Hid Hnz Hrow).
    cbn [fst snd].
    unfold dropped. rewrite Hin. cbn. by destruct (self st).
  - assert (db (world (with_status id "aborted"
              (mkSt (set_status (mkJobStatus "aborted" (Some id)) (self st))
                    (world st) (journal st)))) !! id
            = Some (Db.row_set_status "aborted" row)) as Hrow'
      by by apply set_status_in_lookup.
    assert (dropped id row st
            = with_status id "aborted"
                (mkSt (set_status (mkJobStatus "aborted" (Some id)) (self st))
                      (world st) (journal st))) as ->
      by (unfold dropped; by rewrite Hin).
    rewrite (drop_status_to_aborted_eq
               (with_status id "aborted"
                  (mkSt (set_status (mkJobStatus "aborted" (Some id)) (self st))
                        (world st) (journal st))) id _ Hid Hnz Hrow').
    cbn [fst snd].
    unfold dropped. cbn [Db.row_set_status row_status Project.status_in existsb
                         String.eqb Ascii.eqb Bool.eqb andb orb].
    split; [done|]. split; [done|]. split.
    + cbn. by destruct (self st).
    + cbn [world with_status self journal]. apply set_status_in_twice.
Qed.

(** With [repair] and without [run_again] the dispatch goes by 'created'
    exactly when the job has an id and is not 'finished'. *)
Lemma run_prologue_repair (args : RunArgs) (st : St) :
  validate_ready_to_run st = (Return tt, st) ->
  run_again args = false ->
  repair args = true ->
  run_prologue args st
  = (Return (if truthy (job_id (self st))
                && negb (String.eqb (status_string (status (self st))) "finished")
             then "created"
             else status_string (status (self st))),
     entered args st).
Proof.
  intros Hv Ha Hr. unfold run_prologue.
  rewrite (bind_return _ _ _ _ _ Hv).
  unfold bind, get_self, emit, modify_self, ret, entered, Status.is_.
  rewrite Ha, Hr. cbn.
  destruct (run_mode_override args); cbn;
    by destruct (truthy (job_id (self st))
                 && negb (String.eqb (status_string (status (self st))) "finished")).
Qed.

(** X14.  [run(repair=True)] restarts a job that has an id from the
    'created' step whatever its status, 'finished' excepted: the job
    structure is not built again.  For a job without an id, or a finished
    one, [repair] changes nothing; and [run_again] wins over [repair],
    since the reset takes the id away before [repair] is looked at. *)
Theorem run_repair (fuel : nat) (args : RunArgs) (st : St) :
  validate_ready_to_run st = (Return tt, st) ->
  repair args = true ->
  (run_again args = false ->
   truthy (job_id (self st)) = true ->
   status_string (status (self st)) <> "finished" ->
   run (S fuel) args st
   = run_guard (_run_if_created (run fuel) (que_wait_for args) ;; ret tt)
               (entered args st))
  /\ (run_again args = false ->
      truthy (job_id (self st)) = false
      \/ status_string (status (self st)) = "finished" ->
      run (S fuel) args st
      = run (S fuel) (mkArgs false false (debug args) (run_mode_override args)
                             (que_wait_for args)) st)
  /\ (run_again args = true ->
      truthy (job_id (self st)) = true ->
      run (S fuel) args st
      = run (S fuel) (mkArgs true false (debug args) (run_mode_override args)
                             (que_wait_for args)) st).
Proof.
  intros Hv Hr. split; [|split].
  - intros Ha Ht Hs. cbn [run]. unfold run_guard, try_except, run_body.
    rewrite (bind_eq (run_prologue args)),
      (run_prologue_repair args st Hv Ha Hr), Ht.
    apply String.eqb_neq in Hs. rewrite Hs. cbn [negb andb].
    unfold dispatch. by cbn [String.eqb Ascii.eqb Bool.eqb andb].
  - intros Ha Hor. cbn [run]. unfold run_guard, try_except, run_body.
    rewrite (bind_eq (run_prologue args)),
      (run_prologue_repair args st Hv Ha Hr).
    rewrite (bind_eq (run_prologue (mkArgs _ _ _ _ _))),
      (run_prologue_plain (mkArgs false false (debug args)
                                  (run_mode_override args) (que_wait_for args))
                          st Hv eq_refl eq_refl).
    assert ((if truthy (job_id (self st))
                && negb (String.eqb (status_string (status (self st))) "finished")
             then "created" else status_string (status (self st)))
            = status_string (status (self st))) as ->.
    { destruct Hor as [-> | ->]; [done|]. by rewrite andb_false_r. }
    unfold dispatch, entered. cbn [debug que_wait_for run_again run_mode_override].
    by rewrite Ha.
  - intros Ha Ht.
    destruct (job_id (self st)) as [id|] eqn:Hid; [|done].
    assert (id <> 0) as Hnz.
    { cbn in Ht. intros ->. done. }
    cbn [run]. unfold run_guard, try_except, run_body.
    rewrite (bind_eq (run_prologue args)),
      (run_prologue_again args st id Hv Ha Hid Hnz).
    rewrite (bind_eq (run_prologue (mkArgs _ _ _ _ _))),
      (run_prologue_again (mkArgs true false (debug args)
                                  (run_mode_override args) (que_wait_for args))
                          st id Hv eq_refl Hid Hnz).
    unfold dispatch, entered. cbn [debug que_wait_for run_again run_mode_override].
    by cbn [String.eqb Ascii.eqb Bool.eqb andb].
Qed.

(** X15.  Three states in which [run()] only reports.  A new job whose
    name is taken is not created, and no error is raised; a 'submitted' or
    'running' job is left alone unless it runs in queue mode and the queue
    no longer lists it, in which case it is run again from scratch.  In the
    reporting cases the world and the job object are untouched: a job left
    'running' by a crash in modal mode is never restarted by [run()]. *)
Theorem run_only_reports (fuel : nat) (st : St) :
  validate_ready_to_run st = (Return tt, st) ->
  let s := status_string (status (self st)) in
  let lost :=
    Runmode_eqb (run_mode (server (self st))) queue
    && bool_decide (queue_job_info (self st) (world st) = None) in
  let says msg :=
    (Return tt,
     mkSt (self st) (world st)
          (EvPrint msg :: EvRun (job_name (self st)) :: journal st)) in
  (s = "initialized" ->
   check_if_job_exists (self st) (world st) = true ->
   run (S fuel) default_args st
   = says "job exists already and therefore was not created!")
  /\ (s = "submitted" -> lost = false ->
      run (S fuel) default_args st
      = says ("Job " ++ str_id (job_id (self st)) ++ " is waiting in the que!")%string)
  /\ (s = "running" -> lost = false ->
      run (S fuel) default_args st
      = says ("Job " ++ str_id (job_id (self st)) ++ " is running!")%string)
  /\ (s = "submitted" \/ s = "running" -> lost = true ->
      run (S fuel) default_args st
      = run_guard (run fuel (mkArgs true false false None None))
                  (mkSt (self st) (world st)
                        (EvRun (job_name (self st)) :: journal st))).
Proof.
  intros Hv s lost says. subst s lost says.
  assert (forall body : string -> M unit,
            run (S fuel) default_args st
            = run_guard (dispatch (update_master fuel) (run fuel) default_args
                                  (status_string (status (self st))))
                        (mkSt (self st) (world st)
                              (EvRun (job_name (self st)) :: journal st))) as Hrun.
  { intros _. cbn [run]. unfold run_guard, try_except, run_body.
    by rewrite (bind_eq (run_prologue default_args)),
      (run_prologue_plain default_args st Hv eq_refl eq_refl). }
  specialize (Hrun (fun _ => ret tt)). rewrite Hrun.
  split; [|split; [|split]].
  - intros -> Hex. unfold dispatch, run_guard, try_except.
    cbn [String.eqb Ascii.eqb Bool.eqb andb].
    unfold _run_if_new, bind, get_self, get_world. cbn [self world].
    by rewrite Hex.
  - intros -> Hl. unfold dispatch, run_guard, try_except.
    cbn [String.eqb Ascii.eqb Bool.eqb andb].
    unfold _run_if_submitted, bind, get_self, get_world. cbn [self world].
    by rewrite Hl.
  - intros -> Hl. unfold dispatch, run_guard, try_except.
    cbn [String.eqb Ascii.eqb Bool.eqb andb].
    unfold _run_if_running, bind, get_self, get_world. cbn [self world].
    by rewrite Hl.
  - intros [-> | ->] Hl; unfold dispatch, run_guard, try_except;
      cbn [String.eqb Ascii.eqb Bool.eqb andb];
      unfold _run_if_submitted, _run_if_running, bind, get_self, get_world;
      cbn [self world]; by rewrite Hl.
Qed.

End DispatcherModes.

(** X13 on the job persisted under id 5 as 'running'. *)
Lemma drop_status_to_aborted_idempotent_witness :
  let r1 := drop_status_to_aborted (Examples.stored_state "running") in
  let r2 := drop_status_to_aborted r1.2 in
  r1.1 = Return tt /\ r2.1 = Return tt
  /\ self r2.2 = self r1.2 /\ world r2.2 = world r1.2.
Proof.
  apply (drop_status_to_aborted_idempotent (Examples.stored_state "running") 5
           (Examples.row0 "job_s" "running" None None)).
  - reflexivity.
  - lia.
  - reflexivity.
Defined.

(** X14 on the job persisted under id 5 as 'aborted': with [repair] it is
    started from the 'created' step. *)
Lemma run_repair_witness :
  run (JT := Examples.example_job) (Env := Examples.quiet_env)
      2 (mkArgs false true false None None) (Examples.stored_state "aborted")
  = run_guard (_run_if_created (Env := Examples.quiet_env)
                 (run (JT := Examples.example_job) (Env := Examples.quiet_env) 1)
                 None ;; ret tt)
              (entered (mkArgs false true false None None)
                       (Examples.stored_state "aborted")).
Proof.
  apply (proj1 (run_repair (JT := Examples.example_job)
                  (Env := Examples.quiet_env) 1
                  (mkArgs false true false None None)
                  (Examples.stored_state "aborted") eq_refl eq_refl)).
  - reflexivity.
  - reflexivity.
  - discriminate.
Defined.

(** X15 on the job persisted under id 5 as 'running', in modal mode. *)
Lemma run_only_reports_witness :
  run (JT := Examples.base_job) (Env := Examples.quiet_env)
      1 default_args (Examples.stored_state "running")
  = (Return tt,
     mkSt (self (Examples.stored_state "running"))
          (world (Examples.stored_state "running"))
          [EvPrint "Job 5 is running!"; EvRun "job_s"]).
Proof.
  apply (proj1 (proj2 (proj2 (run_only_reports (JT := Examples.base_job)
                  (Env := Examples.quiet_env) 0
                  (Examples.stored_state "running") eq_refl)))).
  - reflexivity.
  - reflexivity.
Defined.

(** ** Successors, submission and background execution *)

Section Launch.

Context {JT : JobType} {Env : Environment}.

Lemma for_each_unchanged {A} (l : list A) (body : A -> M unit) (st : St) :
  (forall x, x ∈ l -> body x st = (Return tt, st)) ->
  for_each l body st = (Return tt, st).
Proof.
  induction l as [|x l IH]; intros H; [done|].
  cbn [for_each]. rewrite (bind_return _ _ _ _ _ (H x (list_elem_of_here _ _))).
  apply IH. intros y Hy. apply H. by apply list_elem_of_further.
Qed.

(** X16.  [_calculate_successor] starts nothing and changes nothing when
    no job that names this job as its parent is 'suspended' in the job
    table, and when the job has no id: [run] is not called at all. *)
Theorem calculate_successor_without_suspended
    (rec : RunArgs -> M unit) (st : St) :
  (forall id c row,
     job_id (self st) = Some id ->
     db (world st) !! c = Some row ->
     row_parentid row = Some id ->
     row_status row <> "suspended") ->
  _calculate_successor rec st = (Return tt, st).
Proof.
  intros H. unfold _calculate_successor, bind, get_self, get_world.
  apply for_each_unchanged. intros c Hc.
  destruct (job_id (self st)) as [id|] eqn:Hid.
  - apply (successor_ids_elem _ _ id) in Hc as (row & Hrow & Hp); [|done].
    unfold wake_child.
    rewrite (bind_return _ _ _ _ _ (get_status_eq _ _ _ Hrow)).
    specialize (H id c row eq_refl Hrow Hp).
    apply String.eqb_neq in H. by rewrite H.
  - unfold successor_ids in Hc. rewrite Hid in Hc. by apply elem_of_nil in Hc.
Qed.

(** X17.  [run_if_scheduler] returns the queue id it stored: when the
    scheduler options ask for the id, the answer of the submit command is
    put into [server.queue_id], written to the stored object, and is what
    the call returns, so that [from_hdf] reads the same id back; the status
    and the job table are as the submit command left them.  Otherwise the
    call returns [None] and neither the job object nor the stored object
    is touched. *)
Theorem run_if_scheduler_stores_queue_id (wait_for : option Z) (st : St) :
  let opts := init_scheduler_run (self st) wait_for in
  let sub := scheduler_popen opts.1 (world st) in
  let r := run_if_scheduler wait_for st in
  (opts.2 = true ->
   r.1 = Return (Some sub.1)
   /\ self r.2 = set_queue_id (Some sub.1) (self st)
   /\ db (world r.2) = db sub.2
   /\ files (world r.2) = files sub.2
   /\ (exists h, hdf (world r.2) !! job_name (self st) = Some h
                 /\ queue_id (hdf_server h) = Some sub.1)
   /\ (from_hdf r.2).1 = Return tt
   /\ queue_id (server (self (from_hdf r.2).2)) = Some sub.1)
  /\ (opts.2 = false ->
      r = (Return None,
           mkSt (self st) sub.2 (EvPopenNoCwd opts.1 :: journal st))).
Proof.
  intros opts sub r. subst r sub opts.
  unfold run_if_scheduler, try_except, bind, get_self, get_world, set_world,
    emit, modify_self, server_to_hdf, modify_world, ret.
  destruct (init_scheduler_run (self st) wait_for) as [cmd flag].
  cbn [self world journal fst snd].
  destruct (scheduler_popen cmd (world st)) as [qid w'].
  cbn [fst snd]. split; intros ->; [|done].
  cbn -[set_queue_id hdf_of hdf_set_server].
  split; [done|]. split; [done|].
  split; [by destruct w'|]. split; [by destruct w'|].
  assert (job_name (set_queue_id (Some qid) (self st)) = job_name (self st))
    as Hn by done.
  rewrite !Hn.
  assert (exists h,
            hdf (set_hdf
                   match hdf w' !! job_name (self st) with
                   | Some h =>
                       <[job_name (self st) :=
                           hdf_set_server
                             (server (set_queue_id (Some qid) (self st))) h]>
                         (hdf w')
                   | None =>
                       <[job_name (self st) :=
                           hdf_of (set_queue_id (Some qid) (self st))]> (hdf w')
                   end w') !! job_name (self st) = Some h
            /\ queue_id (hdf_server h) = Some qid) as (h & Hh & Hq).
  { destruct (hdf w' !! job_name (self st)) as [h0|]; eexists;
      (split; [destruct w'; cbn; apply lookup_insert_eq|done]). }
  split; [by exists h|].
  unfold from_hdf, hdf_read, bind, get_self, get_world, set_self, ret.
  cbn [self world journal fst snd]. rewrite ?Hn, Hh. cbn [fst snd self].
  split; [done|]. exact Hq.
Qed.

(** X18.  Outside modal and queue mode [_run_if_created] leaves the job
    'submitted' and returns [None] without calling [run] again.  In
    non-modal and thread mode the wrapper script is started in the working
    directory, out.txt and error.txt are opened for writing, so that what
    an earlier launch left in them is lost, and the job object holds the
    process; in manual mode nothing is started and no file is touched. *)
Theorem run_if_created_in_background
    (rec : RunArgs -> M unit) (wait_for : option Z) (st : St) :
  let r := _run_if_created rec wait_for st in
  let sid := status_job_id (status (self st)) in
  let wd := working_directory (self st) in
  (run_mode (server (self st)) = non_modal
   \/ run_mode (server (self st)) = thread ->
   r.1 = Return None
   /\ self r.2 = set_process true (set_status (mkJobStatus "submitted" sid) (self st))
   /\ db (world r.2) = status_written sid "submitted" (db (world st))
   /\ files (world r.2)
      = <[posixpath_join wd "error.txt" := ""]>
          (<[posixpath_join wd "out.txt" := ""]> (files (world st)))
   /\ head (journal r.2)
      = Some (EvPopen wd ["python"; posixpath_join wd "run_job.py"]))
  /\ (run_mode (server (self st)) = manual ->
      r.1 = Return None
      /\ self r.2 = set_status (mkJobStatus "submitted" sid) (self st)
      /\ db (world r.2) = status_written sid "submitted" (db (world st))
      /\ files (world r.2) = files (world st)
      /\ head (journal r.2) = Some (EvPrint manual_message)).
Proof.
  intros r sid wd. subst r sid wd.
  pose proof (status_set_returns "submitted" st) as Hret.
  pose proof (status_set_self "submitted" st) as Hself.
  pose proof (status_set_world "submitted" st) as Hworld.
  destruct (Status.set "submitted" st) as [o st1] eqn:Hset.
  cbn [fst snd] in *. injection Hret as ->.
  assert (run_mode (server (self st1)) = run_mode (server (self st))) as Hm
    by (rewrite Hself; by destruct (self st)).
  assert (working_directory (self st1) = working_directory (self st)) as Hwd
    by (rewrite Hself; by destruct (self st)).
  assert (_run_if_created rec wait_for st
          = (match run_mode (server (self st)) with
             | manual => run_if_manually ;; ret None
             | modal => run_if_modal rec ;; ret None
             | non_modal | thread => run_if_non_modal ;; ret None
             | queue => run_if_scheduler wait_for
             end) st1) as ->.
  { unfold _run_if_created. rewrite (bind_return _ _ _ _ _ Hset).
    rewrite bind_eq. unfold get_self at 1. by rewrite Hm. }
  split.
  - intros Hmode.
    assert ((match run_mode (server (self st)) with
             | manual => run_if_manually ;; ret None
             | modal => run_if_modal rec ;; ret None
             | non_modal | thread => run_if_non_modal ;; ret None
             | queue => run_if_scheduler wait_for
             end) st1
            = (run_if_non_modal ;; ret None) st1) as ->
      by by destruct Hmode as [-> | ->].
    unfold run_if_non_modal, try_except, write_file, bind, get_self,
      modify_world, emit, modify_self, ret.
    cbn [self world journal fst snd]. rewrite Hwd, Hself, Hworld.
    split; [done|]. split; [done|].
    split; [by destruct (world st)|].
    split; [by destruct (world st)|done].
  - intros ->.
    unfold run_if_manually, bind, emit, ret.
    cbn [self world journal fst snd]. rewrite Hself, Hworld.
    split; [done|]. split; [done|].
    split; [by destruct (world st)|].
    split; [by destruct (world st)|done].
Qed.

End Launch.

(** X16 on the finished job 2 of the linked world, whose only successor,
    job 3, is finished. *)
Lemma calculate_successor_without_suspended_witness :
  let st := mkSt (Examples.stored_job "first" 2 "finished")
                 Examples.linked_world [] in
  successor_ids (self st) (world st) = [3]
  /\ _calculate_successor (JT := Examples.example_job)
       (run (JT := Examples.example_job) (Env := Examples.quiet_env) 3) st
     = (Return tt, st).
Proof.
  split; [by vm_compute|].
  apply (calculate_successor_without_suspended (JT := Examples.example_job)).
  intros id c row Hid Hrow Hp Hs. injection Hid as <-.
  cbn in Hrow.
  apply lookup_insert_Some in Hrow as [[<- <-]|[_ Hrow]]; [discriminate Hp|].
  apply lookup_insert_Some in Hrow as [[<- <-]|[_ Hrow]]; [discriminate Hp|].
  apply lookup_singleton_Some in Hrow as [<- <-]. discriminate Hs.
Defined.

(** X17 on the job under id 5 with a scheduler that answers 4711. *)
Lemma run_if_scheduler_stores_queue_id_witness :
  let r := run_if_scheduler (Env := Examples.quiet_env) None
             (Examples.stored_state "submitted") in
  r.1 = Return (Some "4711")
  /\ queue_id (server (self (from_hdf r.2).2)) = Some "4711".
Proof.
  destruct (proj1 (run_if_scheduler_stores_queue_id
                     (Env := Examples.quiet_env) None
                     (Examples.stored_state "submitted")) eq_refl)
    as (Hr & _ & _ & _ & _ & _ & Hq).
  split; [exact Hr | exact Hq].
Defined.

(** X18 on the job under id 5 in non-modal mode. *)
Lemma run_if_created_in_background_witness :
  let st := mkSt (set_run_mode non_modal (Examples.stored_job "job_s" 5 "created"))
                 (Examples.stored_world "created") [] in
  let r := _run_if_created (Env := Examples.quiet_env)
             (run (JT := Examples.example_job) (Env := Examples.quiet_env) 3)
             None st in
  r.1 = Return None
  /\ process (self r.2) = true
  /\ (row_status <$> db (world r.2) !! 5) = Some "submitted".
Proof.
  destruct (proj1 (run_if_created_in_background (Env := Examples.quiet_env)
                     (run (JT := Examples.example_job)
                          (Env := Examples.quiet_env) 3)
                     None
                     (mkSt (set_run_mode non_modal
                              (Examples.stored_job "job_s" 5 "created"))
                           (Examples.stored_world "created") []))
                  (or_introl eq_refl))
    as (Hr & Hself & Hdb & _).
  cbn zeta. split; [exact Hr|]. split.
  - by rewrite Hself.
  - by rewrite Hdb.
Defined.

(** ** Saving, reloading and timing *)

Section Persistence.

Context {JT : JobType} {Env : Environment}.

(** What [save] does, step by step. *)
Lemma save_eq (st : St) :
  let id := next_id (world st) in
  let j := if 1 <? cores (server (self st))
           then set_executable_mpi true (self st) else self st in
  let row := mkRow (job_name (self st)) (status_string (status (self st)))
                   (master_id (self st)) (parent_id (self st))
                   (clock (world st)) None None in
  save st
  = (Return id,
     mkSt (if_id (Some id)
             (fun _ => set_status
                         (Status.new (Some (status_string (status (self st))))
                                     (Some id))
                         (set_job_id (Some id) j))
             (set_job_id (Some id) j))
          (set_next_id (id + 1)
             (set_db (<[id := row]> (db (world st)))
                (set_clock (clock (world st) + 1)
                   (set_hdf (<[job_name (self st) := hdf_of j]> (hdf (world st)))
                      (world st)))))
          (EvInsert id :: journal st)).
Proof.
  cbn zeta. unfold save, to_hdf, _executable_activate_mpi, db_entry, now,
    Db.add_item_dict, refresh_job_status, Db.get_status, Db.get_item_by_id.
  unfold bind, get_self, get_world, set_world, modify_self, modify_world, emit,
    ret, if_id.
  destruct (1 <? cores (server (self st))); cbn;
    destruct (next_id (world st) =? 0); cbn;
    rewrite ?lookup_insert_eq; cbn; by destruct (self st), (world st).
Qed.

(** X20.  [save] gives the job the next id of the job table and puts its
    record there: the id is fresh, so that no record of another job is
    overwritten; the record carries the name, the status string, the master
    and the parent of the job and the time of the call; the job object has
    the id and a status object bound to it, with the same status string;
    and the ids of the table stay below the next id. *)
Theorem save_inserts_fresh_record (st : St) :
  ids_below_next (world st) ->
  0 < next_id (world st) ->
  let r := save st in
  let id := next_id (world st) in
  r.1 = Return id
  /\ db (world st) !! id = None
  /\ db (world r.2)
     = <[id := mkRow (job_name (self st)) (status_string (status (self st)))
                     (master_id (self st)) (parent_id (self st))
                     (clock (world st)) None None]> (db (world st))
  /\ (forall k, k <> id -> db (world r.2) !! k = db (world st) !! k)
  /\ job_id (self r.2) = Some id
  /\ status (self r.2) = mkJobStatus (status_string (status (self st))) (Some id)
  /\ is_Some (hdf (world r.2) !! job_name (self st))
  /\ ids_below_next (world r.2).
Proof.
  intros Hinv Hpos r id. subst r id. rewrite save_eq. cbn [fst snd].
  unfold if_id. destruct (Z.eqb_spec (next_id (world st)) 0) as [E|_]; [lia|].
  cbn [self world db].
  split; [done|]. split.
  { destruct (db (world st) !! next_id (world st)) as [row|] eqn:E; [|done].
    apply Hinv in E. lia. }
  split; [by destruct (world st)|].
  split.
  { intros k Hk. destruct (world st); cbn. by rewrite lookup_insert_ne. }
  split; [by destruct (1 <? _), (self st)|].
  split; [by destruct (1 <? _), (self st)|].
  split.
  { destruct (world st); cbn. rewrite lookup_insert_eq. by eexists. }
  intros k row. destruct (world st) as [d n f ds h c]; cbn in *.
  intros [[<- _]|[_ Hk]]%lookup_insert_Some; [lia|].
  apply Hinv in Hk. cbn in Hk. lia.
Qed.

(** X19.  When [_create_job_structure] has built the job structure, the
    job has the id under which [save] inserted its record, and the run
    wrapper in the working directory is the text written for that id: the
    wrapper is written after the save and never names [None]. *)
Theorem build_job_structure_wrapper_names_id (dbg : bool) (st st1 : St) :
  build_job_structure dbg st = (Return tt, st1) ->
  exists id,
    job_id (self st1) = Some id
    /\ EvInsert id ∈ journal st1
    /\ files (world st1) !! posixpath_join (working_directory (self st1)) "run_job.py"
       = Some (run_wrapper_text (working_directory (self st1)) (Some id) dbg)
    /\ status_string (status (self st1)) = "created".
Proof.
  unfold build_job_structure. intros H.
  apply bind_return_inv in H as (a1 & s1 & _ & H).
  apply bind_return_inv in H as (a2 & s2 & _ & H).
  apply bind_return_inv in H as (a3 & s3 & _ & H).
  apply bind_return_inv in H as (id & s4 & Hsave & H).
  rewrite save_eq in Hsave. cbn zeta in Hsave. injection Hsave as <- <-.
  exists (next_id (world s3)).
  apply bind_return_inv in H as (a5 & s5 & H5 & H).
  apply bind_return_inv in H as (j & s6 & H6 & H).
  apply bind_return_inv in H as (a7 & s7 & H7 & H).
  apply bind_return_inv in H as (a8 & s8 & Hw & H).
  unfold modify_self, bind, get_self, set_self in H5. cbn [self world journal] in H5.
  unfold get_self in H6. unfold emit in H7.
  unfold _write_run_wrapper, write_file, bind, get_self, modify_world, emit in Hw.
  cbn [self world journal] in Hw. simplify_eq.
  match type of H with
  | Status.set _ (mkSt ?j ?w ?jr) = _ =>
      pose proof (status_set_self "created" (mkSt j w jr)) as Hself;
      pose proof (status_set_world "created" (mkSt j w jr)) as Hworld;
      pose proof (status_set_eq "created" (mkSt j w jr)) as Hjr
  end.
  rewrite H in Hself, Hworld, Hjr. cbn [fst snd self world journal] in *.
  split; [by rewrite Hself|].
  split.
  { unfold bind, set_self, ret, if_id, Db.item_update_status, modify_world, emit
      in Hjr.
    cbn [self world journal fst snd] in Hjr.
    destruct (status_job_id _) as [z|] in Hjr; [destruct (z =? 0) in Hjr|];
      simplify_eq; cbn [journal]; set_solver. }
  split.
  { rewrite Hself, Hworld.
    match goal with
    | |- files (set_db _ (set_files (<[?p := ?c]> _) _)) !! ?q = Some ?d =>
        change q with p; change d with c
    end.
    match goal with
    | |- files (set_db _ (set_files _ ?w)) !! _ = _ => destruct w
    end.
    cbn. apply lookup_insert_eq. }
  by rewrite Hself.
Qed.

(** X21.  [from_hdf] after [to_hdf] brings back the server settings and
    the restart files as they were stored, whatever has been assigned to
    them in memory since; the id, the status and the links of the job and
    the world are not touched by [from_hdf]. *)
Theorem from_hdf_after_to_hdf (st : St) (sv : Server) (l : list string) :
  let r1 := to_hdf st in
  let changed := mkSt (set_restart_file_list l (set_server sv (self r1.2)))
                      (world r1.2) (journal r1.2) in
  let r2 := from_hdf changed in
  r1.1 = Return tt
  /\ server (self r1.2) = server (self st)
  /\ restart_file_list (self r1.2) = restart_file_list (self st)
  /\ r2.1 = Return tt
  /\ server (self r2.2) = server (self st)
  /\ restart_file_list (self r2.2) = restart_file_list (self st)
  /\ job_id (self r2.2) = job_id (self st)
  /\ status (self r2.2) = status (self st)
  /\ links (self r2.2) = links (self st)
  /\ world r2.2 = world r1.2.
Proof.
  intros r1 changed r2. subst r2 changed r1.
  unfold to_hdf, _executable_activate_mpi, from_hdf, hdf_read.
  unfold bind, get_self, get_world, set_self, modify_self, modify_world, ret.
  destruct (1 <? cores (server (self st))); cbn;
    destruct (world st); cbn; rewrite lookup_insert_eq; cbn;
    by destruct (self st).
Qed.



End Persistence.

(** ** Restart files *)

Section CopyRestartFiles.

Lemma shutil_copy_eq (f wd c : string) (st : St) :
  files (world st) !! f = Some c ->
  shutil_copy f wd st
  = (Return tt,
     mkSt (self st)
          (set_files (<[posixpath_join wd (basename f) := c]> (files (world st)))
                     (world st))
          (EvWrite (posixpath_join wd (basename f)) :: journal st)).
Proof.
  intros Hf. unfold shutil_copy, write_file, bind, get_world, modify_world, emit.
  by rewrite Hf.
Qed.

(** The loop of [_copy_restart_files] over files that all exist. *)
Lemma copy_loop (wd : string) (l : list string) :
  forall st,
    (forall f, f ∈ l -> is_Some (files (world st) !! f)) ->
    exists st',
      for_each l (fun f => shutil_copy f wd) st = (Return tt, st')
      /\ self st' = self st
      /\ db (world st') = db (world st)
      /\ dirs (world st') = dirs (world st)
      /\ hdf (world st') = hdf (world st)
      /\ (forall p, (forall f, f ∈ l -> p <> posixpath_join wd (basename f)) ->
                    files (world st') !! p = files (world st) !! p)
      /\ (forall p, is_Some (files (world st) !! p) ->
                    is_Some (files (world st') !! p))
      /\ (NoDup ((fun f => posixpath_join wd (basename f)) <$> l) ->
          (forall f g, f ∈ l -> g ∈ l -> f <> posixpath_join wd (basename g)) ->
          forall f, f ∈ l ->
            files (world st') !! posixpath_join wd (basename f)
            = files (world st) !! f).
Proof.
  induction l as [|x l IH]; intros st Hex.
  - exists st. cbn [for_each]. repeat split; try done.
    intros _ _ f Hf. by apply elem_of_nil in Hf.
  - destruct (Hex x (list_elem_of_here _ _)) as [c Hc].
    pose (st1 := mkSt (self st)
                   (set_files (<[posixpath_join wd (basename x) := c]>
                                 (files (world st))) (world st))
                   (EvWrite (posixpath_join wd (basename x)) :: journal st)).
    assert (forall p, files (world st1) !! p
                      = <[posixpath_join wd (basename x) := c]>
                          (files (world st)) !! p) as Hf1
      by (intros p; subst st1; by destruct (world st)).
    destruct (IH st1) as (st' & Hrun & Hself & Hdb & Hdirs & Hhdf & Hsame & Hmono & Hcont).
    { intros f Hf. rewrite Hf1.
      destruct (decide (posixpath_join wd (basename x) = f)) as [<-|Hne].
      - rewrite lookup_insert_eq. by eexists.
      - rewrite lookup_insert_ne by done.
        apply Hex. by apply list_elem_of_further. }
    exists st'. cbn [for_each].
    rewrite (bind_return _ _ _ _ _ (shutil_copy_eq x wd c st Hc)).
    fold st1. split; [exact Hrun|].
    split; [by rewrite Hself|].
    split; [rewrite Hdb; subst st1; by destruct (world st)|].
    split; [rewrite Hdirs; subst st1; by destruct (world st)|].
    split; [rewrite Hhdf; subst st1; by destruct (world st)|].
    split.
    { intros p Hp. rewrite Hsame.
      - rewrite Hf1, lookup_insert_ne; [done|].
        intros E. by apply (Hp x (list_elem_of_here _ _)).
      - intros f Hf. apply Hp. by apply list_elem_of_further. }
    split.
    { intros p Hp. apply Hmono. rewrite Hf1.
      destruct (decide (posixpath_join wd (basename x) = p)) as [<-|Hne].
      - rewrite lookup_insert_eq. by eexists.
      - by rewrite lookup_insert_ne. }
    intros Hnd Hsrc f Hf. cbn [fmap list_fmap] in Hnd.
    apply NoDup_cons in Hnd as [Hnotin Hnd].
    apply elem_of_cons in Hf as [->|Hf].
    + rewrite Hsame.
      * by rewrite Hf1, lookup_insert_eq.
      * intros g Hg E. apply Hnotin. rewrite E.
        by apply (list_elem_of_fmap_2 (fun f => posixpath_join wd (basename f))).
    + rewrite Hcont; [| done | | done].
      * rewrite Hf1, lookup_insert_ne; [done|].
        intros E. apply (Hsrc f x); [by apply list_elem_of_further | | done].
        apply list_elem_of_here.
      * intros f' g Hf' Hg. apply Hsrc; by apply list_elem_of_further.
Qed.

(** X22.  [_copy_restart_files] refuses with [ValueError] when the working
    directory does not exist, before any file is looked at.  When it
    exists, every restart file exists and none of them already lies where
    a copy goes, the call returns; it writes only to the working directory,
    under the base names of the restart files, and leaves the job, the job
    table and the stored objects alone; if the base names are pairwise
    different, each copy has the content of its source. *)
Theorem copy_restart_files_by_base_name (st : St) :
  let wd := working_directory (self st) in
  let l := restart_file_list (self st) in
  let dst f := posixpath_join wd (basename f) in
  (isdir (world st) wd = false ->
   _copy_restart_files st
   = (Raise (ValueError
        "The working directory is not yet available to copy restart files"),
      st))
  /\ (isdir (world st) wd = true ->
      (forall f, f ∈ l -> isfile (world st) f = true) ->
      (forall f g, f ∈ l -> g ∈ l -> f <> dst g) ->
      exists st',
        _copy_restart_files st = (Return tt, st')
        /\ self st' = self st
        /\ db (world st') = db (world st)
        /\ dirs (world st') = dirs (world st)
        /\ hdf (world st') = hdf (world st)
        /\ (forall p, (forall f, f ∈ l -> p <> dst f) ->
                      files (world st') !! p = files (world st) !! p)
        /\ (NoDup (dst <$> l) ->
            forall f, f ∈ l -> files (world st') !! dst f = files (world st) !! f)).
Proof.
  intros wd l dst. subst wd l dst. split.
  - intros Hd. unfold _copy_restart_files, bind, get_self, get_world.
    by rewrite Hd.
  - intros Hd Hex Hsrc.
    destruct (copy_loop (working_directory (self st))
                        (restart_file_list (self st)) st)
      as (st' & Hrun & Hself & Hdb & Hdirs & Hhdf & Hsame & _ & Hcont).
    { intros f Hf. specialize (Hex f Hf). unfold isfile in Hex.
      by apply bool_decide_eq_true_1 in Hex. }
    exists st'. split.
    { unfold _copy_restart_files, bind, get_self, get_world. by rewrite Hd. }
    split; [done|]. split; [done|]. split; [done|]. split; [done|].
    split; [exact Hsame|].
    intros Hnd. by apply Hcont.
Qed.

End CopyRestartFiles.

(** X20 on a new job in an empty project. *)
Lemma save_inserts_fresh_record_witness :
  let r := save (Examples.fresh_state "true") in
  r.1 = Return 1
  /\ job_id (self r.2) = Some 1
  /\ status (self r.2) = mkJobStatus "initialized" (Some 1)
  /\ ids_below_next (world r.2).
Proof.
  destruct (save_inserts_fresh_record (Examples.fresh_state "true"))
    as (Hr & _ & _ & _ & Hid & Hs & _ & Hinv).
  - intros k row Hk. cbn in Hk. by rewrite lookup_empty in Hk.
  - cbn. lia.
  - split; [exact Hr|]. split; [exact Hid|]. split; [exact Hs | exact Hinv].
Defined.

(** X19 on a new job of the example type in an empty project. *)
Lemma build_job_structure_wrapper_names_id_witness :
  let st1 := (build_job_structure (JT := Examples.example_job) false
                (Examples.fresh_state "true")).2 in
  exists id,
    job_id (self st1) = Some id
    /\ EvInsert id ∈ journal st1
    /\ files (world st1) !! posixpath_join (working_directory (self st1)) "run_job.py"
       = Some (run_wrapper_text (working_directory (self st1)) (Some id) false)
    /\ status_string (status (self st1)) = "created".
Proof.
  apply (build_job_structure_wrapper_names_id (JT := Examples.example_job)
           false (Examples.fresh_state "true")).
  by vm_compute.
Defined.

(** X22 on a job that restarts from "b.chk". *)
Lemma copy_restart_files_by_base_name_witness :
  let st := mkSt (set_restart_file_list ["b.chk"] (Examples.new_job "job_a" "true"))
                 (set_dirs {[ Examples.wd_of "job_a" ]} Examples.one_file_world)
                 [] in
  exists st',
    _copy_restart_files st = (Return tt, st')
    /\ files (world st') !! "/home/pyiron/job_a_hdf5/job_a/b.chk"
       = Some "checkpoint".
Proof.
  intros st.
  destruct (proj2 (copy_restart_files_by_base_name st))
    as (st' & Hrun & _ & _ & _ & _ & _ & Hcont).
  - by vm_compute.
  - intros f Hf. apply list_elem_of_singleton in Hf as ->. by vm_compute.
  - intros f g Hf Hg. apply list_elem_of_singleton in Hf as ->.
    apply list_elem_of_singleton in Hg as ->. by vm_compute.
  - exists st'. split; [exact Hrun|].
    apply (Hcont (NoDup_singleton _) "b.chk"). apply list_elem_of_here.
Defined.



(** ** Library calls on the base type *)

Section LibraryOnBaseType.

Context {Env : Environment}.

(** The drop of a job that was never saved touches the object only. *)
Lemma drop_status_unsaved (st : St) :
  job_id (self st) = None ->
  status_job_id (status (self st)) = None ->
  Project.status_in (status_string (status (self st))) ["finished"; "suspended"]
  = false ->
  drop_status_to_aborted st
  = (Return tt,
     mkSt (set_status (mkJobStatus "aborted" None) (self st))
          (world st) (journal st)).
Proof.
  intros Hid Hsid Hs.
  unfold drop_status_to_aborted, refresh_job_status, Status.is_.
  rewrite bind_eq, bind_eq. unfold get_self at 1. rewrite Hid.
  unfold if_id at 1, ret at 1. rewrite bind_eq. unfold get_self at 1.
  unfold Project.status_in in Hs. cbn [existsb] in Hs.
  rewrite orb_false_r in Hs. rewrite Hs. cbn [negb].
  rewrite status_set_eq, Hsid. reflexivity.
Qed.

(** X25.  [GenericJob] itself has no library call: when a new job of the
    base type has its library available and enabled, [run()] raises
    [NotImplementedError] from [run_if_lib]; the guard of [run] marks the
    job object 'aborted', and since the job was never saved nothing is
    persisted: the world is as it was. *)
Theorem run_new_with_library_on_base_type (fuel : nat) (st : St) :
  status_string (status (self st)) = "initialized" ->
  job_id (self st) = None ->
  status_job_id (status (self st)) = None ->
  check_if_job_exists (self st) (world st) = false ->
  lib_available (self st) && lib_enabled (self st) = true ->
  run (JT := Examples.base_job) (S fuel) default_args st
  = (Raise (NotImplementedError
       "This function needs to be implemented in the specific class."),
     mkSt (set_status (mkJobStatus "aborted" None) (self st))
          (world st)
          (EvRun (job_name (self st)) :: journal st)).
Proof.
  intros Hs Hid Hsid Hex Hlib.
  cbn [run]. unfold run_guard, try_except, run_body.
  rewrite (bind_return _ _ _ _ _
             (run_prologue_plain (JT := Examples.base_job) default_args st
                eq_refl eq_refl eq_refl)).
  assert (dispatch (JT := Examples.base_job) (update_master fuel) (run fuel)
                   default_args (status_string (status (self st)))
                   (entered default_args st)
          = (Raise (NotImplementedError
               "This function needs to be implemented in the specific class."),
             entered default_args st)) as ->.
  { rewrite Hs. unfold dispatch. cbn [String.eqb Ascii.eqb Bool.eqb andb].
    unfold _run_if_new. unfold bind at 1, get_self at 1.
    unfold bind at 1, get_world at 1.
    cbn [entered default_args run_mode_override self world journal].
    by rewrite Hex, Hlib. }
  cbn [caught_by_run].
  rewrite (bind_return _ _ _ _ _
             (drop_status_unsaved (entered default_args st) Hid Hsid
                ltac:(cbn [entered default_args run_mode_override self];
                      by rewrite Hs))).
  reflexivity.
Qed.

End LibraryOnBaseType.

(** X25 on a new job with its library switched on. *)
Lemma run_new_with_library_on_base_type_witness :
  let st := mkSt (mkJob "job_a" None (Status.new None None) None None
                        Examples.server0 "true" false true true []
                        (Examples.wd_of "job_a") false)
                 Examples.empty_world [] in
  let r := run (JT := Examples.base_job) (Env := Examples.quiet_env)
               1 default_args st in
  status_string (status (self r.2)) = "aborted" /\ world r.2 = world st.
Proof.
  cbn zeta.
  rewrite (run_new_with_library_on_base_type (Env := Examples.quiet_env) 0
             (mkSt (mkJob "job_a" None (Status.new None None) None None
                          Examples.server0 "true" false true true []
                          (Examples.wd_of "job_a") false)
                   Examples.empty_world [])
             eq_refl eq_refl eq_refl eq_refl eq_refl).
  by cbn.
Defined.
